(** * Reshaping nodes of the computation network library

    A shallow embedding of [ReshapingNodes.h]: the nodes [ReshapeNode],
    [RowSliceNode], [RowStackNode] and [RowRepeatNode], their validation,
    forward evaluation and gradient passes, over a store of dense buffers
    and minibatch layouts.

    Conventions.
    - [size_t] is [N]; every product and sum the code computes in [size_t]
      is written with its 64-bit wrap-around ([mul64], [add64]).
    - Nodes are C++ objects: a member function is a computation in the monad
      [M] over the pair of the node ([self]) and the shared [Store]; an
      exception keeps the state reached when it was thrown.
    - Buffers and layouts are held through [shared_ptr]: they live in the
      store and are named by locations, so that identity can be observed.
    - The element type ([float] or [double] in the code) is abstract: only
      its zero, one, sum and product are used. *)

From stdpp Require Import base numbers list gmap strings.
From Stdlib Require Import NArith Lia.

Local Open Scope N_scope.

(** ** Machine sizes *)

Definition SIZE_BOUND : N := 2 ^ 64.

Definition wrap64 (x : N) : N := x mod SIZE_BOUND.
Definition mul64 (a b : N) : N := wrap64 (a * b).
Definition add64 (a b : N) : N := wrap64 (a + b).
(** [a - b] in [size_t]; [N] subtraction truncates, so the wrap is explicit. *)
Definition sub64 (a b : N) : N := wrap64 (a + SIZE_BOUND - wrap64 b).

(** ** Exceptions and abnormal termination *)

Inductive Exception : Type :=
  | InvalidArgument (msg : string)
  | LogicError (msg : string)
  | RuntimeError (msg : string)
  | NotImplemented                 (* the NOT_IMPLEMENTED macro *)
  | DivideByZero                   (* integer division or remainder by zero *)
  | AssertionFailed                (* assert(...) in a build with assertions *)
  | InvalidAccess (msg : string).  (* null pointer, index outside a vector, buffer misuse *)

Inductive Outcome (A : Type) : Type :=
  | Done (a : A)
  | Throw (e : Exception).
Arguments Done {A} a.
Arguments Throw {A} e.

(** ** The state-and-exception monad *)

Definition M (S A : Type) : Type := S -> Outcome A * S.

Definition ret {S A} (a : A) : M S A := fun s => (Done a, s).

Definition bind {S A B} (c : M S A) (k : A -> M S B) : M S B :=
  fun s => match c s with
           | (Done a, s') => k a s'
           | (Throw e, s') => (Throw e, s')
           end.

Definition throw {S A} (e : Exception) : M S A := fun s => (Throw e, s).
Definition get_state {S} : M S S := fun s => (Done s, s).
Definition put_state {S} (s : S) : M S unit := fun _ => (Done tt, s).
Definition modify_state {S} (f : S -> S) : M S unit := fun s => (Done tt, f s).

Declare Scope cpp_scope.
Delimit Scope cpp_scope with cpp.
Notation "'let*' x ':=' c 'in' k" := (bind c (fun x => k))
  (at level 10, x pattern, c at level 100, k at level 200) : cpp_scope.
Notation "c ';;' k" := (bind c (fun _ => k))
  (at level 100, k at level 200, right associativity) : cpp_scope.
Local Open Scope cpp_scope.

Definition when {S} (b : bool) (c : M S unit) : M S unit :=
  if b then c else ret tt.

(** [a / b] and [a % b] on [size_t]: a zero divisor stops the program. *)
Definition div64 {S} (a b : N) : M S N :=
  if b =? 0 then throw DivideByZero else ret (a / b).
Definition mod64 {S} (a b : N) : M S N :=
  if b =? 0 then throw DivideByZero else ret (a mod b).

(** [assert(c)]: checked unless the build defines NDEBUG. *)
Definition assert {S} (ndebug : bool) (c : bool) : M S unit :=
  if ndebug then ret tt else if c then ret tt else throw AssertionFailed.

(** ** Elements *)

Class ElemType (E : Type) : Type := {
  elem_zero : E;
  elem_one : E;
  elem_add : E -> E -> E;
  elem_mul : E -> E -> E;
  elem_add_0_l : forall x, elem_add elem_zero x = x;
  elem_mul_0_l : forall x, elem_mul elem_zero x = elem_zero;
  elem_mul_1_l : forall x, elem_mul elem_one x = x
}.

#[export] Program Instance Z_ElemType : ElemType Z := {|
  elem_zero := 0%Z; elem_one := 1%Z; elem_add := Z.add; elem_mul := Z.mul |}.
Next Obligation. intros; lia. Qed.
Next Obligation. intros; lia. Qed.
Next Obligation. intros; lia. Qed.

Definition loc := positive.

(** The indices [0 .. n-1]. *)
Definition indices (n : N) : list N := N.of_nat <$> seq 0 (N.to_nat n).

Section Elements.
Context {E : Type} `{!ElemType E}.

(** ** Dense buffers

    Modelled from the spec: the Tensor Buffer capability ([Matrix.h] is not
    among the source files): a contiguous element array interpreted as
    [rows x cols].  The storage order is the one the source relies on in
    [ReshapingNodeBase::Stack]: the row index runs fastest, so element
    [(i, j)] is at position [j * rows + i]. *)

Record Matrix : Type := mkMatrix {
  numRows : N;
  numCols : N;
  pArray : list E
}.

Definition GetNumElements (m : Matrix) : N := numRows m * numCols m.

(** Element at a position of the storage; [elem_zero] stands for what lies
    outside it. *)
Definition flat (m : Matrix) (n : N) : E :=
  default elem_zero (pArray m !! N.to_nat n).

Definition at_ (m : Matrix) (i j : N) : E := flat m (j * numRows m + i).

(** The [r x c] buffer whose element [(i, j)] is [f i j]. *)
Definition build (r c : N) (f : N -> N -> E) : Matrix :=
  mkMatrix r c ((fun n => f (n mod r) (n / r)) <$> indices (r * c)).

(** The buffer with the dimensions of [m] whose storage position [n] holds
    [g n]. *)
Definition build_flat (r c : N) (g : N -> E) : Matrix :=
  mkMatrix r c (g <$> indices (r * c)).

Definition well_formed (m : Matrix) : Prop :=
  length (pArray m) = N.to_nat (numRows m * numCols m).

(** Modelled from the spec: [resize(rows, cols)] reallocates.  The contents
    of the new storage are not specified; zeros stand for them. *)
Definition Resize (r c : N) : Matrix := build r c (fun _ _ => elem_zero).

(** Modelled from the spec: [reshape(rows, cols)] is a view on the same
    storage, without copy, and requires [rows * cols] unchanged. *)
Definition Reshaped (m : Matrix) (r c : N) : option Matrix :=
  if r * c =? GetNumElements m then Some (mkMatrix r c (pArray m)) else None.

(** Column views: [ColumnSlice] reads the columns [first .. first+n-1];
    [SetColumnSlice] is the write through such a view, which changes those
    columns of the viewed buffer and nothing else. *)
Definition ColumnSlice (m : Matrix) (first n : N) : Matrix :=
  build (numRows m) n (fun i j => at_ m i (first + j)).

Definition SetColumnSlice (m : Matrix) (first n : N) (s : Matrix) : Matrix :=
  build (numRows m) (numCols m)
    (fun i j => if (first <=? j) && (j <? first + n)
                then at_ s i (j - first) else at_ m i j).

(** Modelled from the spec: the row-range operations of the Tensor Buffer
    ([rowRange] views with element-wise assign and add).  [this] is the
    receiver; the result is the receiver after the call.
    - [AssignRowSliceValuesOf]: the receiver becomes rows
      [start .. start+n-1] of [a];
    - [AssignToRowSliceValuesOf]: rows [start .. start+n-1] of the receiver
      become [a];
    - [AddToRowSliceValuesOf]: [a] is added into rows [start .. start+n-1]
      of the receiver;
    - [AddWithRowSliceValuesOf]: rows [start .. start+n-1] of [a] are added
      into the receiver, from its row 0. *)
Definition AssignRowSliceValuesOf (this a : Matrix) (start n : N) : Matrix :=
  build n (numCols a) (fun i j => at_ a (start + i) j).

Definition AssignToRowSliceValuesOf (this a : Matrix) (start n : N) : Matrix :=
  build (numRows this) (numCols this)
    (fun i j => if (start <=? i) && (i <? start + n)
                then at_ a (i - start) j else at_ this i j).

Definition AddToRowSliceValuesOf (this a : Matrix) (start n : N) : Matrix :=
  build (numRows this) (numCols this)
    (fun i j => if (start <=? i) && (i <? start + n)
                then elem_add (at_ this i j) (at_ a (i - start) j)
                else at_ this i j).

Definition AddWithRowSliceValuesOf (this a : Matrix) (start n : N) : Matrix :=
  build (numRows this) (numCols this)
    (fun i j => if i <? n
                then elem_add (at_ this i j) (at_ a (start + i) j)
                else at_ this i j).

(** Sum of [f 0 .. f (n-1)], added up from the first term. *)
Definition elem_sum (n : N) (f : N -> E) : E :=
  foldr (fun k acc => elem_add (f k) acc) elem_zero (indices n).

(** Modelled from the spec: the repeat operations of the Tensor Buffer.
    - [AssignRepeatOf]: the receiver becomes [rowRepeats x colRepeats]
      whole copies of [a], stacked: row [i] is row [i mod rows] of [a];
    - [AddToRowRepeatValuesOf]: for every row of the receiver, the
      [repeats] copies of that row in [a] are summed into it. *)
Definition AssignRepeatOf (this a : Matrix) (rowRepeats colRepeats : N) : Matrix :=
  build (numRows a * rowRepeats) (numCols a * colRepeats)
    (fun i j => at_ a (i mod numRows a) (j mod numCols a)).

Definition AddToRowRepeatValuesOf (this a : Matrix) (repeats : N) : Matrix :=
  build (numRows this) (numCols this)
    (fun i j => elem_add (at_ this i j)
                  (elem_sum repeats (fun k => at_ a (k * numRows this + i) j))).

(** Modelled from the spec: the tensor-shuffle-scale-add primitive.  The
    input [a] is read as a tensor of dimensions [(D, S, M, K, T)], the
    output as [(D, K, M, S, T)], first index fastest; the element of [c] at
    [(d, k, m, s, t)] becomes [keepWeight * b + scaleFactor * a] taken at
    [(d, k, m, s, t)] of [b] and at [(d, s, m, k, t)] of [a]. *)
Definition shuffle_source (D S M K T : N) (nb : N) : N :=
  let d := nb mod D in
  let k := (nb / D) mod K in
  let m := (nb / D / K) mod M in
  let s := (nb / D / K / M) mod S in
  let t := (nb / D / K / M / S) mod T in
  (((t * K + k) * M + m) * S + s) * D + d.

Definition TensorShuffleScaleAndAdd (keepWeight : E) (a : Matrix)
    (D S M K T : N) (scaleFactor : E) (b c : Matrix) : Matrix :=
  build_flat (numRows c) (numCols c)
    (fun nb => if nb <? D * S * M * K * T
               then elem_add (elem_mul keepWeight (flat b nb))
                             (elem_mul scaleFactor (flat a (shuffle_source D S M K T nb)))
               else flat c nb).

End Elements.
Arguments Matrix E : clear implicits.

(** ** Layouts, image hints and the store *)

Record ImageLayout : Type := mkImageLayout {
  width : N;
  height : N;
  channels : N
}.

Definition ImageLayout_GetNumElements (il : ImageLayout) : N :=
  mul64 (mul64 (width il) (height il)) (channels il).

(** Modelled from the spec: the Minibatch Layout capability, of which the
    enabled code of the reshaping nodes uses the two sizes and [Init]. *)
Record MBLayout : Type := mkMBLayout {
  numParallelSequences : N;
  numTimeSteps : N
}.

Record Store (E : Type) : Type := mkStore {
  matrices : gmap loc (Matrix E);   (* targets of the buffer pointers *)
  layouts : gmap loc MBLayout;      (* targets of the layout pointers *)
  stderr : list string              (* what fprintf(stderr, ...) wrote *)
}.
Arguments mkStore {E}.
Arguments matrices {E}.
Arguments layouts {E}.
Arguments stderr {E}.

(** The members every computation node has. *)
Record ComputationNode : Type := mkComputationNode {
  m_nodeName : string;
  m_functionValues : loc;
  m_gradientValues : loc;
  m_pMBLayout : option loc;
  m_inputImageLayout : ImageLayout;
  m_outputImageLayout : ImageLayout
}.

(** What a node obtains from [Inputs(i)] through the interface of the base
    class: [NodeName()], the buffers that the virtual [FunctionValues()] and
    [GradientValues()] return, [GetMBLayout()] and the output image hint. *)
Record Input : Type := mkInput {
  in_name : string;
  in_values : loc;
  in_gradients : loc;
  in_layout : option loc;
  in_image : ImageLayout
}.

(** A running member function sees its object and the store. *)
Record Machine (E T : Type) : Type := mkMachine {
  self : T;
  heap : Store E
}.
Arguments mkMachine {E T}.
Arguments self {E T}.
Arguments heap {E T}.

(** A class derived from [ComputationNode]. *)
Class Derived (T : Type) : Type := {
  base : T -> ComputationNode;
  with_base : ComputationNode -> T -> T
}.

Inductive FrameRange : Type :=
  | AllFrames
  | Frame (t : N).

Section BaseClass.
Context {E : Type} `{!ElemType E} {T : Type} `{!Derived T}.

Definition this : M (Machine E T) T := fun s => (Done (self s), s).

Definition set_this (f : T -> T) : M (Machine E T) unit :=
  fun s => (Done tt, mkMachine (f (self s)) (heap s)).

Definition load_matrix (l : loc) : M (Machine E T) (Matrix E) :=
  fun s => match matrices (heap s) !! l with
           | Some m => (Done m, s)
           | None => (Throw (InvalidAccess "buffer"), s)
           end.

Definition store_matrix (l : loc) (m : Matrix E) : M (Machine E T) unit :=
  fun s => (Done tt,
            mkMachine (self s)
              (mkStore (<[l := m]> (matrices (heap s))) (layouts (heap s)) (stderr (heap s)))).

Definition load_layout (l : loc) : M (Machine E T) MBLayout :=
  fun s => match layouts (heap s) !! l with
           | Some y => (Done y, s)
           | None => (Throw (InvalidAccess "layout"), s)
           end.

Definition store_layout (l : loc) (y : MBLayout) : M (Machine E T) unit :=
  fun s => (Done tt,
            mkMachine (self s)
              (mkStore (matrices (heap s)) (<[l := y]> (layouts (heap s))) (stderr (heap s)))).

(** [make_shared<MBLayout>()]: a layout at a location not in use.
    Modelled from the spec: a freshly allocated layout; it is empty (one
    sequence slot, no time step) until [Init] sizes it. *)
Definition make_shared_MBLayout : M (Machine E T) loc :=
  fun s => let l := fresh (dom (layouts (heap s))) in
           (Done l,
            mkMachine (self s)
              (mkStore (matrices (heap s)) (<[l := mkMBLayout 1 0]> (layouts (heap s)))
                       (stderr (heap s)))).

Definition fprintf_stderr (line : string) : M (Machine E T) unit :=
  fun s => (Done tt,
            mkMachine (self s)
              (mkStore (matrices (heap s)) (layouts (heap s)) (stderr (heap s) ++ [line]))).

Definition require {A} (o : option A) (what : string) : M (Machine E T) A :=
  match o with
  | Some a => ret a
  | None => throw (InvalidAccess what)
  end.

(** *** Base-class members of the node itself

    Modelled from the spec: the base computation-node abstraction
    ([ComputationNode.h] is not among the source files).  A node owns its
    value and gradient buffers; its dimensions are those of its value
    buffer; [Resize] reallocates that buffer; [VerifySize] fails unless the
    buffer has the given dimensions; base-class validation is scaffolding
    that the embedding takes as passed. *)

Definition Base_Validate (isFinalValidationPass : bool) : M (Machine E T) unit := ret tt.

(** The accessor [FunctionValues()] as the base class defines it. *)
Definition Base_FunctionValues : M (Machine E T) loc :=
  let* n := this in ret (m_functionValues (base n)).

Definition GetNumRows : M (Machine E T) N :=
  let* n := this in let* m := load_matrix (m_functionValues (base n)) in ret (numRows m).

Definition GetNumCols : M (Machine E T) N :=
  let* n := this in let* m := load_matrix (m_functionValues (base n)) in ret (numCols m).

Definition Resize_node (rows cols : N) : M (Machine E T) unit :=
  let* n := this in store_matrix (m_functionValues (base n)) (Resize rows cols).

Definition VerifySize (rows cols : N) : M (Machine E T) unit :=
  let* r := GetNumRows in
  let* c := GetNumCols in
  when (negb ((r =? rows) && (c =? cols)))
    (throw (LogicError "VerifySize: expected m_functionValues size %d x %d, but it is %d x %d")).

Definition GetNumParallelSequences : M (Machine E T) N :=
  let* n := this in
  let* l := require (m_pMBLayout (base n)) "m_pMBLayout" in
  let* y := load_layout l in ret (numParallelSequences y).

Definition GetNumTimeSteps : M (Machine E T) N :=
  let* n := this in
  let* l := require (m_pMBLayout (base n)) "m_pMBLayout" in
  let* y := load_layout l in ret (numTimeSteps y).

(** Modelled from the spec: [initialize(numSequences, numTimeSteps)]. *)
Definition MBLayout_Init (l : loc) (numSequences numSteps : N) : M (Machine E T) unit :=
  let* _ := load_layout l in store_layout l (mkMBLayout numSequences numSteps).

(** *** Base-class members called on an input *)

Definition in_GetNumRows (i : Input) : M (Machine E T) N :=
  let* m := load_matrix (in_values i) in ret (numRows m).

Definition in_GetNumCols (i : Input) : M (Machine E T) N :=
  let* m := load_matrix (in_values i) in ret (numCols m).

Definition in_HasMBLayout (i : Input) : bool := bool_decide (is_Some (in_layout i)).

Definition in_GetNumTimeSteps (i : Input) : M (Machine E T) N :=
  let* l := require (in_layout i) "m_pMBLayout" in
  let* y := load_layout l in ret (numTimeSteps y).

(** *** Frame ranges

    Modelled from the spec: a frame range denotes either all columns or the
    columns of one time step; with [S] parallel sequences, time step [t]
    covers the columns [t * S .. t * S + S - 1] ([cols = S * T]); data
    without a layout has one column per step. *)

Definition sequences_of (layout : option loc) : M (Machine E T) N :=
  match layout with
  | Some l => let* y := load_layout l in ret (numParallelSequences y)
  | None => ret 1
  end.

Definition frame_columns (layout : option loc) (m : Matrix E) (fr : FrameRange)
  : M (Machine E T) (N * N) :=
  match fr with
  | AllFrames => ret (0, numCols m)
  | Frame t => let* nseq := sequences_of layout in ret (mul64 t nseq, nseq)
  end.

(** [DataSlice(data, frameRange)], read. *)
Definition DataSlice (layout : option loc) (m : Matrix E) (fr : FrameRange)
  : M (Machine E T) (Matrix E) :=
  let* w := frame_columns layout m fr in ret (ColumnSlice m (fst w) (snd w)).

(** A member function called on the frame-range view of the buffer at [l]: the
    columns of the frame range of the buffer at [l] become what [f] makes
    of them. *)
Definition on_slice (layout : option loc) (l : loc) (fr : FrameRange)
    (f : Matrix E -> Matrix E) : M (Machine E T) unit :=
  let* m := load_matrix l in
  let* w := frame_columns layout m fr in
  store_matrix l (SetColumnSlice m (fst w) (snd w) (f (ColumnSlice m (fst w) (snd w)))).

(** [ValueSlice(frameRange)] and [GradientSlice(frameRange)], read. *)
Definition ValueSlice (fr : FrameRange) : M (Machine E T) (Matrix E) :=
  let* n := this in
  let* m := load_matrix (m_functionValues (base n)) in
  DataSlice (m_pMBLayout (base n)) m fr.

Definition GradientSlice (fr : FrameRange) : M (Machine E T) (Matrix E) :=
  let* n := this in
  let* m := load_matrix (m_gradientValues (base n)) in
  DataSlice (m_pMBLayout (base n)) m fr.

Definition in_ValueSlice (i : Input) (fr : FrameRange) : M (Machine E T) (Matrix E) :=
  let* m := load_matrix (in_values i) in DataSlice (in_layout i) m fr.

(** Calls on the views of the node and of an input. *)
Definition on_ValueSlice (fr : FrameRange) (f : Matrix E -> Matrix E) : M (Machine E T) unit :=
  let* n := this in on_slice (m_pMBLayout (base n)) (m_functionValues (base n)) fr f.

Definition on_in_GradientSlice (i : Input) (fr : FrameRange) (f : Matrix E -> Matrix E)
  : M (Machine E T) unit :=
  on_slice (in_layout i) (in_gradients i) fr f.

(** Modelled from the spec: propagation of the image hints.
    [InferImageDimsFromInput(index, outputSameAsInput)] takes the hint of
    the input and, if asked, makes it the hint of the output. *)
Definition InferImageDimsFromInput (i : Input) (outputSameAsInput : bool) : M (Machine E T) unit :=
  set_this (fun n =>
    let b := base n in
    with_base (mkComputationNode (m_nodeName b) (m_functionValues b) (m_gradientValues b)
                 (m_pMBLayout b) (in_image i)
                 (if outputSameAsInput then in_image i else m_outputImageLayout b)) n).

Definition set_outputImageLayout (f : ImageLayout -> ImageLayout) : M (Machine E T) unit :=
  set_this (fun n =>
    let b := base n in
    with_base (mkComputationNode (m_nodeName b) (m_functionValues b) (m_gradientValues b)
                 (m_pMBLayout b) (m_inputImageLayout b) (f (m_outputImageLayout b))) n).

Definition set_pMBLayout (l : option loc) : M (Machine E T) unit :=
  set_this (fun n =>
    let b := base n in
    with_base (mkComputationNode (m_nodeName b) (m_functionValues b) (m_gradientValues b)
                 l (m_inputImageLayout b) (m_outputImageLayout b)) n).

(** Modelled from the spec: a node that does not change the time axis
    aliases the layout of its input (the first input that has one). *)
Definition InferMBLayoutFromInputsForStandardCase (inputs : list Input) : M (Machine E T) unit :=
  set_pMBLayout (head (omap in_layout inputs)).

End BaseClass.

(** Short-circuit [&&] and [||] over computations that may stop. *)
Definition andM {S} (a b : M S bool) : M S bool :=
  let* x := a in if x then b else ret false.
Definition orM {S} (a b : M S bool) : M S bool :=
  let* x := a in if x then ret true else b.

(** ** Model files

    Modelled from the spec: the persisted model fragment of a node is a
    sequence of ordered scalar fields.  [fstream << x] puts the field [x]
    at the end of the file; [fstream >> x] takes the next field of the
    file, and fails at its end.  What the base class persists (the framing
    of a node) is not among the fields of the reshaping nodes; the
    base-class parts of [SaveToFile] and [LoadFromFile] write and read
    none of them. *)

Definition File : Type := list N.

Definition put_field (x : N) (fstream : File) : File := fstream ++ [x].

(** A member function that loads sees its object and the file. *)
Definition get_field {T} : M (T * File) N :=
  fun s => match snd s with
           | x :: rest => (Done x, (fst s, rest))
           | [] => (Throw (RuntimeError "unexpected end of file"), s)
           end.

Definition set_loaded {T} (f : T -> T) : M (T * File) unit :=
  fun s => (Done tt, (f (fst s), snd s)).

Definition Base_SaveToFile (fstream : File) : File := fstream.

Definition Base_LoadFromFile {T} (modelVersion : N) : M (T * File) unit := ret tt.

(** ** ReshapingNodeBase *)

Module ReshapingNodeBase.
Section Members.
Context {E : Type} `{!ElemType E} {T : Type} `{!Derived T}.

(** [Stack(frameRange, from, to, K, addTo)], with [to] the running node:
    stack [K] consecutive frames into a single frame that is [K] times
    taller. *)
Definition Stack (frameRange : FrameRange) (from : Input) (K : N) (addTo : bool)
  : M (Machine E T) unit :=
  let* toRows := GetNumRows in
  let* toCols := GetNumCols in
  let* fromValues := load_matrix (in_values from) in
  let* from0 := require (Reshaped fromValues toRows toCols) "Reshaped" in
  let* fromSlice0 := DataSlice (in_layout from) from0 frameRange in
  let* toSlice0 := ValueSlice frameRange in
  let* D := in_GetNumRows from in
  let* SMKT := in_GetNumCols from in
  let* fromSlice := require (Reshaped fromSlice0 D SMKT) "Reshaped" in
  let* toSlice := require (Reshaped toSlice0 D SMKT) "Reshaped" in
  let* nS := GetNumParallelSequences in
  let* nT := GetNumTimeSteps in
  let nM := 1 in
  on_ValueSlice frameRange (fun slice =>
    let c := TensorShuffleScaleAndAdd (if addTo then elem_one else elem_zero)
               fromSlice D nS nM K nT elem_one toSlice toSlice in
    mkMatrix (numRows slice) (numCols slice) (pArray c)).

Definition Unstack (frameRange : FrameRange) (from : Input) (K : N) (addTo : bool)
  : M (Machine E T) unit :=
  throw NotImplemented.

End Members.
End ReshapingNodeBase.

(** ** ReshapeNode *)

Module ReshapeNode.

Record t : Type := mk {
  node : ComputationNode;
  Inputs0 : Input;
  m_numRows : N;
  m_imageLayout : ImageLayout
}.

#[global] Instance derived : Derived t := {|
  base := node;
  with_base b n := mk b (Inputs0 n) (m_numRows n) (m_imageLayout n)
|}.

(** The two constructors; the first is the one used before [LoadFromFile]. *)
Definition create (b : ComputationNode) (input : Input) : t :=
  mk b input 0 (mkImageLayout 0 0 0).
Definition create_with (b : ComputationNode) (input : Input) (numRows : N)
    (imageLayout : ImageLayout) : t :=
  mk b input numRows imageLayout.

Definition SaveToFile (n : t) (fstream : File) : File :=
  put_field (channels (m_imageLayout n))
    (put_field (height (m_imageLayout n))
       (put_field (width (m_imageLayout n))
          (put_field (m_numRows n) (Base_SaveToFile fstream)))).

Definition LoadFromFile (modelVersion : N) : M (t * File) unit :=
  Base_LoadFromFile modelVersion;;
  let* numRows := get_field in
  set_loaded (fun n => mk (node n) (Inputs0 n) numRows (m_imageLayout n));;
  let* w := get_field in
  set_loaded (fun n => mk (node n) (Inputs0 n) (m_numRows n)
                         (mkImageLayout w (height (m_imageLayout n))
                            (channels (m_imageLayout n))));;
  let* h := get_field in
  set_loaded (fun n => mk (node n) (Inputs0 n) (m_numRows n)
                         (mkImageLayout (width (m_imageLayout n)) h
                            (channels (m_imageLayout n))));;
  let* c := get_field in
  set_loaded (fun n => mk (node n) (Inputs0 n) (m_numRows n)
                         (mkImageLayout (width (m_imageLayout n))
                            (height (m_imageLayout n)) c)).

Section Members.
Context {E : Type} `{!ElemType E}.
Abbreviation Run := (M (Machine E t)).

Definition set_imageLayout (f : ImageLayout -> ImageLayout) : Run unit :=
  set_this (fun n => mk (node n) (Inputs0 n) (m_numRows n) (f (m_imageLayout n))).

Definition weStack : Run bool :=
  let* n := this in
  let* rows := in_GetNumRows (Inputs0 n) in
  ret (rows <? m_numRows n).

Definition factor : Run N :=
  let* n := this in
  let* rows := in_GetNumRows (Inputs0 n) in
  if rows <? m_numRows n then div64 (m_numRows n) rows else div64 rows (m_numRows n).

Definition isNoop : Run bool :=
  let* n := this in
  let* rows := in_GetNumRows (Inputs0 n) in
  ret (m_numRows n =? rows).

Definition InferImageDimensions : Run unit :=
  let* n := this in
  let il := m_imageLayout n in
  let numRows := m_numRows n in
  if 0 <? width il then
    if 0 <? height il then
      if 0 <? channels il then
        when (negb (ImageLayout_GetNumElements il =? numRows))
          (throw (RuntimeError "Image dimensions do not match row size."))
      else
        let* r := mod64 numRows (mul64 (width il) (height il)) in
        if 0 <? r then
          throw (RuntimeError "Image row size is not a multiple of specified image dimensions.")
        else
          let* q := div64 numRows (mul64 (width il) (height il)) in
          set_imageLayout (fun il => mkImageLayout (width il) (height il) q)
    else
      if 0 <? channels il then
        let* r := mod64 numRows (mul64 (width il) (channels il)) in
        if 0 <? r then
          throw (RuntimeError "Image row size is not a multiple of specified image dimensions.")
        else
          let* q := div64 numRows (mul64 (width il) (channels il)) in
          set_imageLayout (fun il => mkImageLayout (width il) q (channels il))
      else
        throw (RuntimeError "At least two image dimensions must be specified.")
  else
    if 0 <? height il then
      if 0 <? channels il then
        let* r := mod64 numRows (mul64 (height il) (channels il)) in
        if 0 <? r then
          throw (RuntimeError "Image row size is not a multiple of specified image dimensions.")
        else
          let* q := div64 numRows (mul64 (height il) (channels il)) in
          set_imageLayout (fun il => mkImageLayout q (height il) (channels il))
      else
        throw (RuntimeError "At least two image dimensions must be specified.")
    else
      when (0 <? channels il)
        (throw (RuntimeError "At least two image dimensions must be specified.")).

Definition InferImageDimsFromInputs : Run unit :=
  let* n0 := this in
  InferImageDimsFromInput (Inputs0 n0) true;;
  InferImageDimensions;;
  let* n := this in
  let il := m_imageLayout n in
  if (width il =? 0) || (height il =? 0) || (channels il =? 0) then
    set_outputImageLayout (fun _ => mkImageLayout 1 1 (m_numRows n));;
    when (negb (mul64 (width (m_inputImageLayout (node n)))
                      (channels (m_inputImageLayout (node n))) =? 1))
      (fprintf_stderr "WARNING: Reshape operation cannot inherit image size information from its child. Image size info is lost.")
  else
    set_outputImageLayout (fun _ => il).

Definition Validate (ndebug : bool) (isFinalValidationPass : bool) : Run unit :=
  Base_Validate isFinalValidationPass;;
  let* n := this in
  let* rows := in_GetNumRows (Inputs0 n) in
  let* cols := in_GetNumCols (Inputs0 n) in
  let* newCols := div64 (mul64 cols rows) (m_numRows n) in
  when isFinalValidationPass
    (let* bad :=
       orM (andM (ret (rows <? m_numRows n))
                 (let* r := mod64 (m_numRows n) rows in ret (negb (r =? 0))))
           (andM (ret (m_numRows n <? rows))
                 (let* r := mod64 rows (m_numRows n) in ret (negb (r =? 0)))) in
     when bad
       (throw (InvalidArgument "%ls %ls operation: output row dimension %d is not an integer multiple or divisor of input dimension %d"));;
     (* [rows * cols != m_numRows != newCols] compares the truth value of
        the first inequality with [newCols] *)
     when (negb (bool_decide (is_Some (m_pMBLayout (node n))))
           && negb (N.b2n (negb (mul64 rows cols =? m_numRows n)) =? newCols))
       (throw (LogicError "%ls %ls operation: unexpected dimension mismatch")));;
  Resize_node (m_numRows n) newCols;;
  (if in_HasMBLayout (Inputs0 n) then
     when (negb (bool_decide (is_Some (m_pMBLayout (node n)))))
       (let* l := make_shared_MBLayout in set_pMBLayout (Some l))
   else
     assert ndebug (negb (bool_decide (is_Some (m_pMBLayout (node n))))));;
  InferImageDimsFromInputs.

Definition UpdateFunctionMBSize (numCols : N) : Run N :=
  let* n := this in
  let* rows := in_GetNumRows (Inputs0 n) in
  let* cols := in_GetNumCols (Inputs0 n) in
  let* newCols := div64 (mul64 cols rows) (m_numRows n) in
  (if negb (bool_decide (is_Some (m_pMBLayout (node n))))
   then VerifySize (m_numRows n) newCols
   else Resize_node (m_numRows n) newCols);;
  ret numCols.

Definition OnEvaluateBeginIteration : Run unit :=
  let* n := this in
  match m_pMBLayout (node n) with
  | Some l =>
      let* nS := GetNumParallelSequences in
      let* steps := in_GetNumTimeSteps (Inputs0 n) in
      let* rows := in_GetNumRows (Inputs0 n) in
      let* newSteps := div64 (mul64 steps rows) (m_numRows n) in
      MBLayout_Init l nS newSteps
  | None => ret tt
  end.

(** [FunctionValues() const], the accessor this class overrides. *)
Definition FunctionValues_const : Run loc :=
  let* n := this in
  let* noop := isNoop in
  if negb noop then ret (m_functionValues (node n))
  else ret (in_values (Inputs0 n)).

(** [FunctionValues()] on an object that is not [const]: the class does not
    override it, so the call reaches the accessor of the base class. *)
Definition FunctionValues : Run loc := Base_FunctionValues.

Definition EvaluateThisNode (ndebug : bool) (frameRange : FrameRange) : Run unit :=
  let* noop := isNoop in
  if noop then ret tt
  else
    let* n := this in
    let* rows := in_GetNumRows (Inputs0 n) in
    let* cols := in_GetNumCols (Inputs0 n) in
    let* newCols := div64 (mul64 cols rows) (m_numRows n) in
    assert ndebug (mul64 newCols (m_numRows n) =? mul64 cols rows);;
    VerifySize (m_numRows n) newCols;;
    if negb (bool_decide (is_Some (m_pMBLayout (node n)))) then
      (* copy the values as one long vector; isNoop being false, the
         accessor returns the buffer of the node *)
      let* target := FunctionValues_const in
      let* own := load_matrix target in
      let* dst := require (Reshaped own (mul64 newCols (m_numRows n)) 1) "Reshaped" in
      let* inputValues := load_matrix (in_values (Inputs0 n)) in
      let* src := require (Reshaped inputValues (mul64 cols rows) 1) "Reshaped" in
      if GetNumElements dst =? GetNumElements src then
        store_matrix target (mkMatrix (numRows own) (numCols own) (pArray src))
      else throw (InvalidAccess "assignment")
    else
      let* stack := weStack in
      if stack then
        let* K := factor in
        ReshapingNodeBase.Stack frameRange (Inputs0 n) K false
      else
        let* K := factor in
        ReshapingNodeBase.Unstack frameRange (Inputs0 n) K false.

Definition ComputeInputPartial (inputIndex : N) (frameRange : FrameRange) : Run unit :=
  throw (LogicError "ReshapeNode::ComputeInputPartial: to be completed").

End Members.
End ReshapeNode.

(** ** RowSliceNode *)

Module RowSliceNode.

Record t : Type := mk {
  node : ComputationNode;
  Inputs0 : Input;
  m_startIndex : N;
  m_numRows : N
}.

#[global] Instance derived : Derived t := {|
  base := node;
  with_base b n := mk b (Inputs0 n) (m_startIndex n) (m_numRows n)
|}.

Definition SaveToFile (n : t) (fstream : File) : File :=
  put_field (m_numRows n) (put_field (m_startIndex n) (Base_SaveToFile fstream)).

Definition LoadFromFile (modelVersion : N) : M (t * File) unit :=
  Base_LoadFromFile modelVersion;;
  let* startIndex := get_field in
  set_loaded (fun n => mk (node n) (Inputs0 n) startIndex (m_numRows n));;
  let* numRows := get_field in
  set_loaded (fun n => mk (node n) (Inputs0 n) (m_startIndex n) numRows).

Section Members.
Context {E : Type} `{!ElemType E}.
Abbreviation Run := (M (Machine E t)).

Definition ComputeInputPartial (inputIndex : N) (frameRange : FrameRange) : Run unit :=
  let* n := this in
  let* gradient := GradientSlice frameRange in
  on_in_GradientSlice (Inputs0 n) frameRange
    (fun inputGradient =>
       AddToRowSliceValuesOf inputGradient gradient (m_startIndex n) (m_numRows n)).

Definition EvaluateThisNode (frameRange : FrameRange) : Run unit :=
  let* n := this in
  let* inputValues := in_ValueSlice (Inputs0 n) frameRange in
  on_ValueSlice frameRange
    (fun values => AssignRowSliceValuesOf values inputValues (m_startIndex n) (m_numRows n)).

Definition InferImageDimsFromInputs : Run unit :=
  let* n0 := this in
  InferImageDimsFromInput (Inputs0 n0) true;;
  set_outputImageLayout
    (fun il => mkImageLayout (width il) (m_numRows n0) (channels il));;
  let* n := this in
  when (negb (mul64 (width (m_inputImageLayout (node n)))
                    (channels (m_inputImageLayout (node n))) =? 1))
    (fprintf_stderr "WARNING: RowSlice operation cannot inherit image size information from its child. Image size info is lost.").

Definition Validate (isFinalValidationPass : bool) : Run unit :=
  Base_Validate isFinalValidationPass;;
  let* n := this in
  let* exceeds :=
    andM (ret isFinalValidationPass)
         (let* rows := in_GetNumRows (Inputs0 n) in
          ret (rows <? add64 (m_startIndex n) (m_numRows n))) in
  when exceeds
    (throw (RuntimeError "RowSlice operation: m_startIndex + m_numRows exceeds number of rows in the input."));;
  let* cols := in_GetNumCols (Inputs0 n) in
  Resize_node (m_numRows n) cols;;
  InferMBLayoutFromInputsForStandardCase [Inputs0 n];;
  InferImageDimsFromInputs.

End Members.
End RowSliceNode.

(** ** RowStackNode *)

Module RowStackNode.

Record t : Type := mk {
  node : ComputationNode;
  Inputs : list Input;                (* m_children *)
  m_startRowIndices : list N
}.

#[global] Instance derived : Derived t := {|
  base := node;
  with_base b n := mk b (Inputs n) (m_startRowIndices n)
|}.

Section Members.
Context {E : Type} `{!ElemType E}.
Abbreviation Run := (M (Machine E t)).

Definition ChildrenSize (n : t) : nat := length (Inputs n).

(** [Inputs(i)] and [m_startRowIndices[i]]; an index outside the vector is
    an invalid access. *)
Definition Inputs_at (i : nat) : Run Input :=
  let* n := this in require (Inputs n !! i) "Inputs".

Definition startRowIndices_at (i : nat) : Run N :=
  let* n := this in require (m_startRowIndices n !! i) "m_startRowIndices".

Definition set_startRowIndices (f : list N -> list N) : Run unit :=
  set_this (fun n => mk (node n) (Inputs n) (f (m_startRowIndices n))).

Definition ComputeInputPartial (inputIndex : nat) (frameRange : FrameRange) : Run unit :=
  let* input := Inputs_at inputIndex in
  let* gradient := GradientSlice frameRange in
  let* start := startRowIndices_at inputIndex in
  let* rows := in_GetNumRows input in
  on_in_GradientSlice input frameRange
    (fun inputGradient => AddWithRowSliceValuesOf inputGradient gradient start rows).

(** The loop [for (inputIndex = from; inputIndex < ChildrenSize(); inputIndex++)]
    of [EvaluateThisNode], [fuel] being the number of iterations left. *)
Fixpoint EvaluateThisNode_loop (frameRange : FrameRange) (fuel : nat) (inputIndex : nat)
  : Run unit :=
  match fuel with
  | O => ret tt
  | Datatypes.S fuel' =>
      let* input := Inputs_at inputIndex in
      let* inputValues := in_ValueSlice input frameRange in
      let* start := startRowIndices_at inputIndex in
      let* rows := in_GetNumRows input in
      on_ValueSlice frameRange
        (fun values => AssignToRowSliceValuesOf values inputValues start rows);;
      EvaluateThisNode_loop frameRange fuel' (Datatypes.S inputIndex)
  end.

Definition EvaluateThisNode (frameRange : FrameRange) : Run unit :=
  let* n := this in
  EvaluateThisNode_loop frameRange (ChildrenSize n) 0%nat.

Definition InferImageDimsFromInputs : Run unit :=
  let* input := Inputs_at 0%nat in
  InferImageDimsFromInput input true;;
  let* rows := GetNumRows in
  set_outputImageLayout (fun il => mkImageLayout (width il) rows (channels il));;
  let* n := this in
  when (negb (mul64 (width (m_inputImageLayout (node n)))
                    (channels (m_inputImageLayout (node n))) =? 1))
    (fprintf_stderr "WARNING: RowStack operation cannot inherit image size information from its child. Image size info is lost.").

(** The loop [for (i = from; i < ChildrenSize(); i++)] of [Validate]; it
    returns [totalRows]. *)
Fixpoint Validate_loop (isFinalValidationPass : bool) (numCols : N)
    (fuel : nat) (i : nat) (totalRows : N) : Run N :=
  match fuel with
  | O => ret totalRows
  | Datatypes.S fuel' =>
      let* input := Inputs_at i in
      let* differs :=
        andM (ret isFinalValidationPass)
             (let* cols := in_GetNumCols input in ret (negb (cols =? numCols))) in
      when differs
        (throw (LogicError ("RowStack operation: the input node " +:+ in_name input
                              +:+ " has different number of columns.")));;
      set_startRowIndices (fun v => <[i := totalRows]> v);;
      let* rows := in_GetNumRows input in
      Validate_loop isFinalValidationPass numCols fuel' (Datatypes.S i) (add64 totalRows rows)
  end.

Definition Validate (isFinalValidationPass : bool) : Run unit :=
  Base_Validate isFinalValidationPass;;
  let* n := this in
  InferMBLayoutFromInputsForStandardCase (Inputs n);;
  let* input0 := Inputs_at 0%nat in
  let* numCols := in_GetNumCols input0 in
  (* count totalRows and form m_startRowIndices[] array, which is the
     cumulative sum of matrix heights *)
  set_startRowIndices (fun v => resize (ChildrenSize n) 0 v);;
  let* totalRows := Validate_loop isFinalValidationPass numCols (ChildrenSize n) 0%nat 0 in
  Resize_node totalRows numCols;;
  InferImageDimsFromInputs.

End Members.
End RowStackNode.

(** ** RowRepeatNode *)

Module RowRepeatNode.

Record t : Type := mk {
  node : ComputationNode;
  Inputs0 : Input;
  m_numRepeat : N
}.

#[global] Instance derived : Derived t := {|
  base := node;
  with_base b n := mk b (Inputs0 n) (m_numRepeat n)
|}.

Definition SaveToFile (n : t) (fstream : File) : File :=
  put_field (m_numRepeat n) (Base_SaveToFile fstream).

Definition LoadFromFile (modelVersion : N) : M (t * File) unit :=
  Base_LoadFromFile modelVersion;;
  let* numRepeat := get_field in
  set_loaded (fun n => mk (node n) (Inputs0 n) numRepeat).

Section Members.
Context {E : Type} `{!ElemType E}.
Abbreviation Run := (M (Machine E t)).

Definition isNoop (n : t) : bool := m_numRepeat n =? 1.

Definition InferImageDimsFromInputs : Run unit :=
  let* n0 := this in
  InferImageDimsFromInput (Inputs0 n0) true;;
  let* n1 := this in
  set_outputImageLayout
    (fun il => mkImageLayout (width il)
                 (mul64 (height (m_inputImageLayout (node n1))) (m_numRepeat n1))
                 (channels il));;
  let* n := this in
  when (negb (mul64 (width (m_inputImageLayout (node n)))
                    (channels (m_inputImageLayout (node n))) =? 1))
    (fprintf_stderr "WARNING: RowRepeat operation cannot inherit image size information from its child. Image size info is lost.").

Definition Validate (isFinalValidationPass : bool) : Run unit :=
  Base_Validate isFinalValidationPass;;
  let* n := this in
  let* rows := in_GetNumRows (Inputs0 n) in
  let* cols := in_GetNumCols (Inputs0 n) in
  Resize_node (mul64 rows (m_numRepeat n)) cols;;
  InferMBLayoutFromInputsForStandardCase [Inputs0 n];;
  InferImageDimsFromInputs.

Definition EvaluateThisNode (frameRange : FrameRange) : Run unit :=
  let* n := this in
  when (negb (isNoop n))
    (let* inputValues := in_ValueSlice (Inputs0 n) frameRange in
     on_ValueSlice frameRange
       (fun values => AssignRepeatOf values inputValues (m_numRepeat n) 1)).

Definition ComputeInputPartial (inputIndex : N) (frameRange : FrameRange) : Run unit :=
  let* n := this in
  let* gradient := GradientSlice frameRange in
  on_in_GradientSlice (Inputs0 n) frameRange
    (fun inputGradient => AddToRowRepeatValuesOf inputGradient gradient (m_numRepeat n)).

(** [FunctionValues() const] and [FunctionValues()]: both are overridden,
    with the same body. *)
Definition FunctionValues_const : Run loc :=
  let* n := this in
  if negb (isNoop n) then ret (m_functionValues (node n))
  else ret (in_values (Inputs0 n)).

Definition FunctionValues : Run loc :=
  let* n := this in
  if negb (isNoop n) then ret (m_functionValues (node n))
  else ret (in_values (Inputs0 n)).

End Members.
End RowRepeatNode.

(** ** Specification vocabulary

    [wp c Q s]: running [c] from the state [s] ends, normally or with an
    exception, in an outcome and a state that satisfy [Q]. *)

Definition wp {S A} (c : M S A) (Q : Outcome A -> S -> Prop) (s : S) : Prop :=
  Q (fst (c s)) (snd (c s)).




(** Sums of row counts, without wrap-around. *)
Fixpoint sumN (l : list N) : N :=
  match l with
  | [] => 0
  | x :: l' => x + sumN l'
  end.

(** The row offsets of stacked inputs: entry [i] is the sum of the first [i]
    row counts. *)
Definition row_offsets (rows : list N) : list N :=
  (fun i => sumN (take i rows)) <$> seq 0 (length rows).

(** What the loop of [RowStackNode::Validate] leaves in [totalRows] and in
    [m_startRowIndices]. *)
Fixpoint offsets_loop (rows : list N) (i : nat) (totalRows : N) (v : list N) : N * list N :=
  match rows with
  | [] => (totalRows, v)
  | r :: rows' => offsets_loop rows' (Datatypes.S i) (add64 totalRows r) (<[i := totalRows]> v)
  end.


(** The buffers that the virtual [FunctionValues()] of the inputs return. *)
Definition buffers_of {E} (st : Store E) (inputs : list Input) (ms : list (Matrix E)) : Prop :=
  Forall2 (fun input m => matrices st !! in_values input = Some m) inputs ms.

(** One iteration of the loop of [RowStackNode::EvaluateThisNode] over all
    frames, on the buffer [o] of the node: the input [m] goes to the rows
    from [off] on; and the iterations over the inputs [ms] in turn. *)
Definition stack_step {E} `{!ElemType E} (o m : Matrix E) (off : N) : Matrix E :=
  SetColumnSlice o 0 (numCols o)
    (AssignToRowSliceValuesOf (ColumnSlice o 0 (numCols o)) (ColumnSlice m 0 (numCols m))
       off (numRows m)).

Fixpoint stack_from {E} `{!ElemType E} (o : Matrix E) (ms : list (Matrix E)) (offs : list N)
  : Matrix E :=
  match ms, offs with
  | m :: ms', off :: offs' => stack_from (stack_step o m off) ms' offs'
  | _, _ => o
  end.

(** A partial image hint: exactly one of the three dimensions is given. *)
Definition exactly_one_given (il : ImageLayout) : Prop :=
  (width il <> 0 /\ height il = 0 /\ channels il = 0)
  \/ (width il = 0 /\ height il <> 0 /\ channels il = 0)
  \/ (width il = 0 /\ height il = 0 /\ channels il <> 0).

(** What [ReshapeNode::InferImageDimensions] makes of the hint of the node
    [n] when it completes: the dimensions that were given are kept, a hint
    that gives nothing stays empty, and any other hint ends with as many
    elements as the node has rows. *)
Definition inferred (n : ReshapeNode.t) (il' : ImageLayout) : Prop :=
  let il := ReshapeNode.m_imageLayout n in
  (width il <> 0 -> width il' = width il)
  /\ (height il <> 0 -> height il' = height il)
  /\ (channels il <> 0 -> channels il' = channels il)
  /\ (il = mkImageLayout 0 0 0 -> il' = mkImageLayout 0 0 0)
  /\ (il <> mkImageLayout 0 0 0 -> ImageLayout_GetNumElements il' = ReshapeNode.m_numRows n).

(** What a validation pass may change in the store and in the pointers of the
    node between the states [s] and [s']: the buffer of the node itself, new
    layouts, and new lines on [stderr]. *)
Definition validation_frame {E T} `{!Derived T} (s s' : Machine E T) : Prop :=
  m_functionValues (base (self s')) = m_functionValues (base (self s))
  /\ m_gradientValues (base (self s')) = m_gradientValues (base (self s))
  /\ (forall l, l <> m_functionValues (base (self s)) ->
                matrices (heap s') !! l = matrices (heap s) !! l)
  /\ (forall l y, layouts (heap s) !! l = Some y -> layouts (heap s') !! l = Some y)
  /\ stderr (heap s) `prefix_of` stderr (heap s').

(** ** Concrete nodes and stores

    Small instances, over integer elements, on which the properties below
    are run. *)

Module Example.
Definition noHint : ImageLayout := mkImageLayout 0 0 0.
Definition inputLoc : loc := 1%positive.
Definition inputGradientLoc : loc := 2%positive.
Definition valuesLoc : loc := 3%positive.
Definition gradientLoc : loc := 4%positive.
Definition input : Input := mkInput "features" inputLoc inputGradientLoc None noHint.
Definition base : ComputationNode :=
  mkComputationNode "node" valuesLoc gradientLoc None noHint noHint.
(** A store with the buffer [m] of the input and the (empty) buffer of the
    node. *)
Definition store (m : Matrix Z) : Store Z :=
  mkStore (<[inputLoc := m]> (<[valuesLoc := mkMatrix 0 0 []]> ∅)) ∅ [].
(** The 2 x 4 input [1 3 5 7 / 2 4 6 8] and the 2 x 3 input [1 3 5 / 2 4 6]. *)
Definition m2x4 : Matrix Z := mkMatrix 2 4 [1; 2; 3; 4; 5; 6; 7; 8]%Z.
Definition m2x3 : Matrix Z := mkMatrix 2 3 [1; 2; 3; 4; 5; 6]%Z.
Definition reshape (numRows : N) : ReshapeNode.t :=
  ReshapeNode.create_with base input numRows noHint.
Definition slice (start rows : N) : RowSliceNode.t := RowSliceNode.mk base input start rows.
Definition repeat (count : N) : RowRepeatNode.t := RowRepeatNode.mk base input count.
(** Three inputs of 2, 3 and 1 rows and 2 columns. *)
Definition inputA : Input := mkInput "a" 11%positive 21%positive None noHint.
Definition inputB : Input := mkInput "b" 12%positive 22%positive None noHint.
Definition inputC : Input := mkInput "c" 13%positive 23%positive None noHint.
Definition mA : Matrix Z := mkMatrix 2 2 [1; 2; 3; 4]%Z.
Definition mB : Matrix Z := mkMatrix 3 2 [5; 6; 7; 8; 9; 10]%Z.
Definition mC : Matrix Z := mkMatrix 1 2 [11; 12]%Z.
Definition g6x2 : Matrix Z := mkMatrix 6 2 [1; 2; 3; 4; 5; 6; 7; 8; 9; 10; 11; 12]%Z.
Definition stack (offsets : list N) : RowStackNode.t :=
  RowStackNode.mk base [inputA; inputB; inputC] offsets.
Definition stackStore (c : Matrix Z) : Store Z :=
  mkStore (<[11%positive := mA]> (<[12%positive := mB]> (<[13%positive := c]>
           (<[21%positive := Resize 2 2]> (<[22%positive := Resize 3 2]>
           (<[23%positive := Resize 1 2]>
           (<[valuesLoc := mkMatrix 0 0 []]> (<[gradientLoc := g6x2]> ∅))))))))
          ∅ [].
(** A store with the gradient [g] of the node and the gradient [ig] of the
    input. *)
Definition gradientStore (g ig : Matrix Z) : Store Z :=
  mkStore (<[gradientLoc := g]> (<[inputGradientLoc := ig]> ∅)) ∅ [].
(** The store of the three inputs once input [b] has the gradient [gb]. *)
Definition stackGradientStore (gb : Matrix Z) : Store Z :=
  mkStore (<[22%positive := gb]> (matrices (stackStore mC))) ∅ [].
(** The input with the image hint 1 x 2 x 1. *)
Definition imageInput : Input :=
  mkInput "features" inputLoc inputGradientLoc None (mkImageLayout 1 2 1).
(** The example of the source of [Stack]: two sequences [abcdef] and
    [uvwxyz] of two-row frames ([a] is 1 over 101, [u] is 11 over 111),
    stored interleaved, to be stacked by three. *)
Definition layoutLoc : loc := 8%positive.
Definition inputLayoutLoc : loc := 7%positive.
Definition sequences : Matrix Z :=
  mkMatrix 2 12 [1; 101; 11; 111; 2; 102; 12; 112; 3; 103; 13; 113;
                 4; 104; 14; 114; 5; 105; 15; 115; 6; 106; 16; 116]%Z.
Definition layoutInput : Input :=
  mkInput "features" inputLoc inputGradientLoc (Some inputLayoutLoc) noHint.
Definition layoutBase (own : option loc) : ComputationNode :=
  mkComputationNode "node" valuesLoc gradientLoc own noHint noHint.
Definition layoutStore (values : Matrix Z) : Store Z :=
  mkStore (<[inputLoc := sequences]> (<[valuesLoc := values]> ∅))
          (<[inputLayoutLoc := mkMBLayout 2 6]> (<[layoutLoc := mkMBLayout 2 2]> ∅)) [].
(** The same input before the node has a layout: the store holds the layout
    of the input only. *)
Definition inputLayoutStore (values : Matrix Z) : Store Z :=
  mkStore (<[inputLoc := sequences]> (<[valuesLoc := values]> ∅))
          (<[inputLayoutLoc := mkMBLayout 2 6]> ∅) [].
(** The store in which the layout of the node is [own]. *)
Definition ownLayoutStore (own : MBLayout) (values : Matrix Z) : Store Z :=
  mkStore (<[inputLoc := sequences]> (<[valuesLoc := values]> ∅))
          (<[inputLayoutLoc := mkMBLayout 2 6]> (<[layoutLoc := own]> ∅)) [].
(** A 6 x 4 buffer none of whose elements is zero. *)
Definition m6x4 : Matrix Z :=
  mkMatrix 6 4 [1000; 2000; 3000; 4000; 5000; 6000; 7000; 8000; 9000; 10000; 11000; 12000;
                13000; 14000; 15000; 16000; 17000; 18000; 19000; 20000; 21000; 22000;
                23000; 24000]%Z.
(** A Reshape node of 8 rows whose image hint gives width and height only. *)
Definition partialHint : ReshapeNode.t :=
  ReshapeNode.create_with base input 8 (mkImageLayout 2 2 0).
(** A second node, downstream of the first: its input is the value buffer
    of the first. *)
Definition secondLoc : loc := 5%positive.
Definition secondBase : ComputationNode :=
  mkComputationNode "second" secondLoc 6%positive None noHint noHint.
Definition fromFirst : Input := mkInput "node" valuesLoc gradientLoc None noHint.
(** A store with the buffer [m] of the input and the buffer [values] of the
    node. *)
Definition storeWith (m values : Matrix Z) : Store Z :=
  mkStore (<[inputLoc := m]> (<[valuesLoc := values]> ∅)) ∅ [].
End Example.

(** * Properties *)

(** ** Dense buffers *)

Section MatrixFacts.
Context {E : Type} `{!ElemType E}.
Implicit Types (o m : Matrix E).

Lemma indices_lookup (n k : N) : k < n -> indices n !! N.to_nat k = Some k.
Proof.
  intros Hk. unfold indices. rewrite list_lookup_fmap, lookup_seq_lt by lia.
  simpl. f_equal. lia.
Qed.

Lemma length_indices (n : N) : length (indices n) = N.to_nat n.
Proof. unfold indices. now rewrite length_fmap, length_seq. Qed.

Lemma flat_build_flat (r c : N) (g : N -> E) (n : N) :
  n < r * c -> flat (build_flat r c g) n = g n.
Proof.
  intros Hn. unfold flat, build_flat. simpl.
  now rewrite list_lookup_fmap, indices_lookup.
Qed.

Lemma flat_build (r c : N) (f : N -> N -> E) (n : N) :
  n < r * c -> flat (build r c f) n = f (n mod r) (n / r).
Proof.
  intros Hn. unfold flat, build. simpl.
  now rewrite list_lookup_fmap, indices_lookup.
Qed.

Lemma at_build (r c : N) (f : N -> N -> E) (i j : N) :
  i < r -> j < c -> at_ (build r c f) i j = f i j.
Proof.
  intros Hi Hj. unfold at_. simpl numRows.
  rewrite flat_build by nia.
  f_equal.
  - rewrite N.add_comm, N.Div0.mod_add. now apply N.mod_small.
  - rewrite N.add_comm, N.div_add by lia. rewrite N.div_small by lia. lia.
Qed.


Lemma well_formed_build_flat (r c : N) (g : N -> E) : well_formed (build_flat r c g).
Proof. unfold well_formed, build_flat. simpl. now rewrite length_fmap, length_indices. Qed.

(** A well-formed buffer is determined by its dimensions and its elements. *)
Lemma Matrix_ext (m1 m2 : Matrix E) :
  well_formed m1 -> well_formed m2 ->
  numRows m1 = numRows m2 -> numCols m1 = numCols m2 ->
  (forall n, n < numRows m1 * numCols m1 -> flat m1 n = flat m2 n) ->
  m1 = m2.
Proof.
  destruct m1 as [r1 c1 d1], m2 as [r2 c2 d2]. unfold well_formed, flat. simpl.
  intros H1 H2 -> -> Hflat. f_equal.
  apply list_eq_same_length with (n := N.to_nat (r2 * c2)); try assumption.
  intros i x y Hi Hx Hy.
  specialize (Hflat (N.of_nat i)). rewrite Nat2N.id, Hx, Hy in Hflat.
  simpl in Hflat. apply Hflat. lia.
Qed.

Lemma at_ColumnSlice_all m (n i j : N) :
  i < numRows m -> j < n -> at_ (ColumnSlice m 0 n) i j = at_ m i j.
Proof. intros Hi Hj. unfold ColumnSlice. now rewrite at_build. Qed.

Lemma at_SetColumnSlice_all o (s : Matrix E) (n i j : N) :
  i < numRows o -> j < numCols o -> j < n ->
  at_ (SetColumnSlice o 0 n s) i j = at_ s i j.
Proof.
  intros Hi Hj Hn. unfold SetColumnSlice. rewrite at_build by assumption.
  replace (0 <=? j) with true by (symmetry; apply N.leb_le; lia).
  replace (j <? 0 + n) with true by (symmetry; apply N.ltb_lt; lia).
  cbn. f_equal. lia.
Qed.

Lemma flat_indices (r c n : N) (g : N -> E) (x : N) :
  x < n -> flat (mkMatrix r c (g <$> indices n)) x = g x.
Proof.
  intros Hx. unfold flat. cbn. now rewrite list_lookup_fmap, indices_lookup.
Qed.

(** Reading a buffer by row and column, or its storage by position. *)
Lemma at_div_mod (r c r' c' : N) (l : list E) (n : N) :
  r <> 0 -> at_ (mkMatrix r c l) (n mod r) (0 + n / r) = flat (mkMatrix r' c' l) n.
Proof.
  intros Hr. unfold at_, flat. cbn. do 2 f_equal.
  rewrite (N.div_mod n r) at 3 by assumption. lia.
Qed.

Lemma Reshaped_Some m (r c : N) :
  r * c = numRows m * numCols m -> Reshaped m r c = Some (mkMatrix r c (pArray m)).
Proof. intros H. unfold Reshaped, GetNumElements. now rewrite H, N.eqb_refl. Qed.

(** A column view over all columns holds the storage of the viewed buffer. *)
Lemma flat_ColumnSlice_all m (n : N) :
  n < numRows m * numCols m ->
  flat (ColumnSlice m 0 (numCols m)) n = flat m n.
Proof.
  intros Hn. unfold ColumnSlice. rewrite flat_build by assumption.
  unfold at_. f_equal. rewrite N.add_0_l.
  assert (numRows m <> 0) by nia.
  rewrite (N.div_mod n (numRows m)) at 3 by assumption. lia.
Qed.
Lemma elem_sum_ext (n : N) (f g : N -> E) :
  (forall k, k < n -> f k = g k) -> elem_sum n f = elem_sum n g.
Proof.
  intros Hfg. unfold elem_sum, indices.
  assert (Hall : Forall (fun k => k < n) (N.of_nat <$> seq 0 (N.to_nat n))).
  { apply Forall_fmap, Forall_seq. intros k Hk. cbn. lia. }
  induction Hall as [|k l Hk Hall IH]; cbn; [reflexivity|].
  now rewrite IH, Hfg.
Qed.

End MatrixFacts.

(** ** Reasoning about member functions *)

Lemma wp_outcome {S A} (c : M S A) (Q : Outcome A -> S -> Prop) (s : S) :
  wp c Q s <-> exists o s', c s = (o, s') /\ Q o s'.
Proof.
  unfold wp. split.
  - intros H. exists (fst (c s)), (snd (c s)). split; [apply surjective_pairing | exact H].
  - intros (o & s' & -> & H). exact H.
Qed.

Lemma run_eq {S A} (c : M S A) (s : S) (r : Outcome A * S) :
  wp c (fun o s' => (o, s') = r) s -> c s = r.
Proof. unfold wp. destruct (c s). exact id. Qed.

Lemma wp_mono {S A} (c : M S A) (Q Q' : Outcome A -> S -> Prop) (s : S) :
  (forall o s', Q o s' -> Q' o s') -> wp c Q s -> wp c Q' s.
Proof. unfold wp. auto. Qed.

Lemma wp_ret {S A} (a : A) (Q : Outcome A -> S -> Prop) s : Q (Done a) s -> wp (ret a) Q s.
Proof. exact id. Qed.

Lemma wp_throw {S A} e (Q : Outcome A -> S -> Prop) s : Q (Throw e) s -> wp (throw e) Q s.
Proof. exact id. Qed.

Lemma wp_bind {S A B} (c : M S A) (k : A -> M S B) (Q : Outcome B -> S -> Prop) s :
  wp c (fun o s' => match o with
                    | Done a => wp (k a) Q s'
                    | Throw e => Q (Throw e) s'
                    end) s ->
  wp (bind c k) Q s.
Proof. unfold wp, bind. destruct (c s) as [[a|e] s']; exact id. Qed.

Lemma wp_when {S} (b : bool) (c : M S unit) (Q : Outcome unit -> S -> Prop) s :
  (if b then wp c Q s else Q (Done tt) s) -> wp (when b c) Q s.
Proof. destruct b; exact id. Qed.

Lemma wp_assert {S} (ndebug b : bool) (Q : Outcome unit -> S -> Prop) s :
  (if ndebug || b then Q (Done tt) s else Q (Throw AssertionFailed) s) ->
  wp (assert ndebug b) Q s.
Proof. destruct ndebug, b; exact id. Qed.

Lemma wp_div64 {S} (a b : N) (Q : Outcome N -> S -> Prop) s :
  (if b =? 0 then Q (Throw DivideByZero) s else Q (Done (a / b)) s) -> wp (div64 a b) Q s.
Proof. unfold div64. destruct (b =? 0); exact id. Qed.

Lemma wp_mod64 {S} (a b : N) (Q : Outcome N -> S -> Prop) s :
  (if b =? 0 then Q (Throw DivideByZero) s else Q (Done (a mod b)) s) -> wp (mod64 a b) Q s.
Proof. unfold mod64. destruct (b =? 0); exact id. Qed.

Section BaseRules.
Context {E : Type} `{!ElemType E} {T : Type} `{!Derived T}.
Implicit Types (s : Machine E T).

Lemma wp_this (Q : Outcome T -> Machine E T -> Prop) s :
  Q (Done (self s)) s -> wp this Q s.
Proof. exact id. Qed.

Lemma wp_set_this f (Q : Outcome unit -> Machine E T -> Prop) s :
  Q (Done tt) (mkMachine (f (self s)) (heap s)) -> wp (set_this f) Q s.
Proof. exact id. Qed.

Lemma wp_load_matrix l (Q : Outcome (Matrix E) -> Machine E T -> Prop) s :
  match matrices (heap s) !! l with
  | Some m => Q (Done m) s
  | None => Q (Throw (InvalidAccess "buffer")) s
  end -> wp (load_matrix l) Q s.
Proof. unfold wp, load_matrix. destruct (_ !! _); exact id. Qed.

Lemma wp_store_matrix l m (Q : Outcome unit -> Machine E T -> Prop) s :
  Q (Done tt)
    (mkMachine (self s)
       (mkStore (<[l := m]> (matrices (heap s))) (layouts (heap s)) (stderr (heap s)))) ->
  wp (store_matrix l m) Q s.
Proof. exact id. Qed.

Lemma wp_load_layout l (Q : Outcome MBLayout -> Machine E T -> Prop) s :
  match layouts (heap s) !! l with
  | Some y => Q (Done y) s
  | None => Q (Throw (InvalidAccess "layout")) s
  end -> wp (load_layout l) Q s.
Proof. unfold wp, load_layout. destruct (_ !! _); exact id. Qed.

Lemma wp_store_layout l y (Q : Outcome unit -> Machine E T -> Prop) s :
  Q (Done tt)
    (mkMachine (self s)
       (mkStore (matrices (heap s)) (<[l := y]> (layouts (heap s))) (stderr (heap s)))) ->
  wp (store_layout l y) Q s.
Proof. exact id. Qed.

Lemma wp_make_shared_MBLayout (Q : Outcome loc -> Machine E T -> Prop) s :
  Q (Done (fresh (dom (layouts (heap s)))))
    (mkMachine (self s)
       (mkStore (matrices (heap s))
          (<[fresh (dom (layouts (heap s))) := mkMBLayout 1 0]> (layouts (heap s)))
          (stderr (heap s)))) ->
  wp make_shared_MBLayout Q s.
Proof. exact id. Qed.

Lemma wp_fprintf_stderr line (Q : Outcome unit -> Machine E T -> Prop) s :
  Q (Done tt)
    (mkMachine (self s)
       (mkStore (matrices (heap s)) (layouts (heap s)) (stderr (heap s) ++ [line]))) ->
  wp (fprintf_stderr line) Q s.
Proof. exact id. Qed.

Lemma wp_require {A} (o : option A) what (Q : Outcome A -> Machine E T -> Prop) s :
  match o with
  | Some a => Q (Done a) s
  | None => Q (Throw (InvalidAccess what)) s
  end -> wp (require o what) Q s.
Proof. destruct o; exact id. Qed.

End BaseRules.

Ltac unfold_base :=
  unfold Base_Validate, Base_FunctionValues, GetNumRows, GetNumCols, Resize_node,
    VerifySize, GetNumParallelSequences, GetNumTimeSteps, MBLayout_Init,
    in_GetNumRows, in_GetNumCols, in_GetNumTimeSteps, sequences_of, frame_columns,
    DataSlice, on_slice, ValueSlice, GradientSlice, in_ValueSlice, on_ValueSlice,
    on_in_GradientSlice, InferImageDimsFromInput, set_outputImageLayout, set_pMBLayout,
    InferMBLayoutFromInputsForStandardCase, andM, orM in *.

Ltac unfold_helpers :=
  unfold ReshapeNode.isNoop, ReshapeNode.weStack, ReshapeNode.factor,
    ReshapeNode.set_imageLayout, ReshapeNode.FunctionValues_const, ReshapeNode.FunctionValues,
    RowStackNode.Inputs_at, RowStackNode.startRowIndices_at,
    RowStackNode.set_startRowIndices, RowStackNode.ChildrenSize in *.

Ltac use_facts :=
  match goal with
  | H : ?x = Some _ |- context [?x] => rewrite H
  | H : ?x = None |- context [?x] => rewrite H
  | H : ?b = true |- context [?b] => rewrite H
  | H : ?b = false |- context [?b] => rewrite H
  end.

(** One step of a member function. *)
Ltac wp_step :=
  lazymatch goal with
  | |- wp (bind _ _) _ _ => apply wp_bind
  | |- wp (ret _) _ _ => apply wp_ret
  | |- wp (throw _) _ _ => apply wp_throw
  | |- wp (when _ _) _ _ => apply wp_when
  | |- wp (assert _ _) _ _ => apply wp_assert
  | |- wp (div64 _ _) _ _ => apply wp_div64
  | |- wp (mod64 _ _) _ _ => apply wp_mod64
  | |- wp this _ _ => apply wp_this
  | |- wp (set_this _) _ _ => apply wp_set_this
  | |- wp (load_matrix _) _ _ => apply wp_load_matrix
  | |- wp (store_matrix _ _) _ _ => apply wp_store_matrix
  | |- wp (load_layout _) _ _ => apply wp_load_layout
  | |- wp (store_layout _ _) _ _ => apply wp_store_layout
  | |- wp make_shared_MBLayout _ _ => apply wp_make_shared_MBLayout
  | |- wp (fprintf_stderr _) _ _ => apply wp_fprintf_stderr
  | |- wp (require _ _) _ _ => apply wp_require
  end.

(** Run as far as the facts at hand decide the tests. *)
Ltac wp_run :=
  repeat (first [wp_step | progress cbn | use_facts | progress unfold_base
                | progress unfold_helpers]).

(** Run, splitting on every test that the facts at hand leave open. *)
Ltac wp_cases :=
  repeat (wp_run;
          match goal with
          | |- context [match ?o with Some _ => _ | None => _ end] => destruct o eqn:?
          | |- context [if ?b then _ else _] => destruct b eqn:?
          end);
  wp_run.

Lemma wp_eq {S A} (c : M S A) (Q : Outcome A -> S -> Prop) s o s' :
  c s = (o, s') -> Q o s' -> wp c Q s.
Proof. unfold wp. now intros ->. Qed.

Lemma run_post {S A} (c : M S A) (s : S) (R : Outcome A * S -> Prop) :
  wp c (fun o s' => R (o, s')) s -> R (c s).
Proof. unfold wp. destruct (c s). exact id. Qed.

(** ** Which exceptions a member function can stop with *)






Section ThrowsBase.
Context {E : Type} `{!ElemType E} {T : Type} `{!Derived T}.
Implicit Types Q : Exception -> Prop.

End ThrowsBase.




(** ** Sums of row counts *)

Lemma sumN_app (l1 l2 : list N) : sumN (l1 ++ l2) = sumN l1 + sumN l2.
Proof. induction l1 as [|x l1 IH]; cbn; [reflexivity | rewrite IH; lia]. Qed.

Lemma sumN_take_S (l : list N) (k : nat) (x : N) :
  l !! k = Some x -> sumN (take (S k) l) = sumN (take k l) + x.
Proof.
  intros Hk. rewrite (take_S_r _ _ _ Hk), sumN_app. cbn. lia.
Qed.

Lemma sumN_take_le (l : list N) (k : nat) : sumN (take k l) <= sumN l.
Proof.
  rewrite <- (take_drop k l) at 2. rewrite sumN_app. lia.
Qed.

Lemma sumN_take_mono (l : list N) (k i : nat) :
  (k <= i)%nat -> sumN (take k l) <= sumN (take i l).
Proof.
  intros Hki. replace k with (k `min` i)%nat by lia.
  rewrite <- take_take. apply sumN_take_le.
Qed.

(** ** The index permutation of the tensor shuffle *)

Lemma digit_mod (x d D : N) : d < D -> (x * D + d) mod D = d.
Proof. intros Hd. rewrite N.add_comm, N.Div0.mod_add. now apply N.mod_small. Qed.

Lemma digit_div (x d D : N) : d < D -> (x * D + d) / D = x.
Proof.
  intros Hd. rewrite N.add_comm, N.div_add by lia. rewrite N.div_small by lia. lia.
Qed.


Lemma shuffle_source_digits (D S K T d s k t : N) :
  d < D -> s < S -> k < K -> t < T ->
  shuffle_source D S 1 K T (((t * S + s) * K + k) * D + d)
  = ((t * K + k) * S + s) * D + d.
Proof.
  intros Hd Hs Hk Ht. unfold shuffle_source.
  rewrite (digit_mod _ d D Hd), (digit_div _ d D Hd).
  rewrite (digit_mod _ k K Hk), (digit_div _ k K Hk).
  rewrite N.mod_1_r, N.div_1_r.
  rewrite (digit_mod _ s S Hs), (digit_div _ s S Hs).
  rewrite (N.mod_small t T Ht). lia.
Qed.







(** ** Reshape: the unguarded division and the unimplemented paths *)

Section ReshapeFailures.
Context {E : Type} `{!ElemType E}.
Implicit Types (s : Machine E ReshapeNode.t) (n : ReshapeNode.t) (st : Store E).

(** C10. A Reshape node built without a target row count has [m_numRows = 0],
    and [Validate] divides by [m_numRows] before any check looks at it: with
    [m_numRows = 0] every validation pass, final or not, with or without
    assertions, stops at the division by zero of [newCols = cols * rows /
    m_numRows] and leaves the node and the store as they were.  No guard
    precedes the division. *)
Theorem Validate_divides_by_numRows_unguarded :
  (forall b input, ReshapeNode.m_numRows (ReshapeNode.create b input) = 0) /\
  (forall (ndebug isFinalValidationPass : bool) n st (inputValues : Matrix E),
      ReshapeNode.m_numRows n = 0 ->
      matrices st !! in_values (ReshapeNode.Inputs0 n) = Some inputValues ->
      ReshapeNode.Validate ndebug isFinalValidationPass (mkMachine n st)
      = (Throw DivideByZero, mkMachine n st)).
Proof.
  split; [reflexivity|].
  intros ndebug final n st inputValues Hzero Hin.
  apply run_eq. unfold ReshapeNode.Validate. unfold_base. wp_run.
  rewrite Hzero. reflexivity.
Qed.

(** C9. The paths that the source leaves unimplemented fail and write nothing:
    [Unstack] raises [NotImplemented] for every argument; the gradient pass of
    Reshape raises a [LogicError] for every input index and frame range; and
    the forward evaluation of Reshape in the unstack direction (a layout is
    present and [m_numRows] is smaller than the row count of the input) ends in
    an exception in a machine state equal to the one it started from, which,
    when the row counts divide and the sizes are those validation gives, is
    the [NotImplemented] of [Unstack]. *)
Theorem unimplemented_paths_fail_without_writing :
  (forall (frameRange : FrameRange) (from : Input) (K : N) (addTo : bool) s,
      ReshapingNodeBase.Unstack frameRange from K addTo s = (Throw NotImplemented, s)) /\
  (forall (inputIndex : N) (frameRange : FrameRange) s,
      ReshapeNode.ComputeInputPartial inputIndex frameRange s
      = (Throw (LogicError "ReshapeNode::ComputeInputPartial: to be completed"), s)) /\
  (forall (ndebug : bool) (frameRange : FrameRange) s (inputValues : Matrix E),
      matrices (heap s) !! in_values (ReshapeNode.Inputs0 (self s)) = Some inputValues ->
      is_Some (m_pMBLayout (ReshapeNode.node (self s))) ->
      ReshapeNode.m_numRows (self s) < numRows inputValues ->
      exists e, ReshapeNode.EvaluateThisNode ndebug frameRange s = (Throw e, s)) /\
  (forall (ndebug : bool) (frameRange : FrameRange) s (inputValues values : Matrix E),
      matrices (heap s) !! in_values (ReshapeNode.Inputs0 (self s)) = Some inputValues ->
      matrices (heap s) !! m_functionValues (ReshapeNode.node (self s)) = Some values ->
      is_Some (m_pMBLayout (ReshapeNode.node (self s))) ->
      0 < ReshapeNode.m_numRows (self s) < numRows inputValues ->
      numRows inputValues mod ReshapeNode.m_numRows (self s) = 0 ->
      numCols inputValues * numRows inputValues < SIZE_BOUND ->
      numRows values = ReshapeNode.m_numRows (self s) ->
      numCols values
      = numCols inputValues * numRows inputValues / ReshapeNode.m_numRows (self s) ->
      ReshapeNode.EvaluateThisNode ndebug frameRange s = (Throw NotImplemented, s)).
Proof.
  split; [reflexivity|]. split; [reflexivity|]. split.
  - intros ndebug fr [n st] inputValues Hin [l Hl] Hlt. cbn in *.
    assert (Hnoop : (ReshapeNode.m_numRows n =? numRows inputValues) = false)
      by (apply N.eqb_neq; lia).
    assert (Hstack : (numRows inputValues <? ReshapeNode.m_numRows n) = false)
      by (apply N.ltb_ge; lia).
    enough (wp (ReshapeNode.EvaluateThisNode ndebug fr)
              (fun o s' => exists e, (o, s') = (Throw e, mkMachine n st)) (mkMachine n st)) as Hwp.
    { unfold wp in Hwp. destruct Hwp as [e He]. exists e.
      destruct (ReshapeNode.EvaluateThisNode _ _ _). exact He. }
    unfold ReshapeNode.EvaluateThisNode, ReshapeNode.isNoop, ReshapeNode.weStack,
      ReshapeNode.factor, ReshapeNode.FunctionValues_const, ReshapingNodeBase.Unstack.
    unfold_base. wp_cases; eauto.
  - intros ndebug fr [n st] inputValues values Hin Hown [l Hl] [Hpos Hlt] Hdiv Hbound Hrows Hcols.
    cbn in *.
    assert (Hnoop : (ReshapeNode.m_numRows n =? numRows inputValues) = false)
      by (apply N.eqb_neq; lia).
    assert (Hstack : (numRows inputValues <? ReshapeNode.m_numRows n) = false)
      by (apply N.ltb_ge; lia).
    assert (Hnz : (ReshapeNode.m_numRows n =? 0) = false) by (apply N.eqb_neq; lia).
    assert (Hwrap : mul64 (numCols inputValues) (numRows inputValues)
                    = numCols inputValues * numRows inputValues)
      by (now apply N.mod_small).
    assert (Hexact : mul64 (numCols inputValues * numRows inputValues
                              / ReshapeNode.m_numRows n) (ReshapeNode.m_numRows n)
                     = numCols inputValues * numRows inputValues).
    { unfold mul64, wrap64.
      assert ((numCols inputValues * numRows inputValues) mod ReshapeNode.m_numRows n = 0) as Hm.
      { apply N.Div0.div_exact in Hdiv. rewrite Hdiv.
        rewrite (N.mul_comm (ReshapeNode.m_numRows n)), N.mul_assoc. apply N.Div0.mod_mul. }
      apply N.Div0.div_exact in Hm. rewrite N.mul_comm, <- Hm.
      now apply N.mod_small. }
    apply N.eqb_eq in Hrows, Hcols.
    apply run_eq.
    unfold ReshapeNode.EvaluateThisNode, ReshapeNode.isNoop, ReshapeNode.weStack,
      ReshapeNode.factor, ReshapeNode.FunctionValues_const, ReshapingNodeBase.Unstack.
    unfold_base. wp_run. rewrite Hwrap, Hexact, N.eqb_refl, orb_true_r. wp_run.
    reflexivity.
Qed.
End ReshapeFailures.

(** ** Validation: which pass raises what *)

Section ValidationErrors.
Context {E : Type} `{!ElemType E}.



End ValidationErrors.

(** ** RowStack: validation *)

Section RowStackValidate.
Context {E : Type} `{!ElemType E}.
Implicit Types (st : Store E) (ms : list (Matrix E)) (inputs : list Input).

Lemma Validate_loop_completes (isFinal : bool) (numCols0 : N) b inputs st ms :
  buffers_of st inputs ms ->
  (isFinal = true -> Forall (fun m => numCols m = numCols0) ms) ->
  forall fuel i totalRows v,
    (i + fuel)%nat = length inputs ->
    RowStackNode.Validate_loop isFinal numCols0 fuel i totalRows
      (mkMachine (RowStackNode.mk b inputs v) st)
    = (Done (fst (offsets_loop (drop i (numRows <$> ms)) i totalRows v)),
       mkMachine (RowStackNode.mk b inputs
                    (snd (offsets_loop (drop i (numRows <$> ms)) i totalRows v))) st).
Proof.
  intros Hbuf Hcols fuel. induction fuel as [|fuel IH]; intros i totalRows v Hlen.
  - pose proof (Forall2_length _ _ _ Hbuf) as Hl.
    rewrite drop_ge by (rewrite length_fmap; lia). reflexivity.
  - pose proof (Forall2_length _ _ _ Hbuf) as Hl.
    destruct (lookup_lt_is_Some_2 inputs i) as [input Hinput]; [lia|].
    destruct (Forall2_lookup_l _ _ _ _ _ Hbuf Hinput) as (m & Hm & Hlook).
    assert (Hdrop : drop i (numRows <$> ms) = numRows m :: drop (Datatypes.S i) (numRows <$> ms)).
    { apply drop_S. now rewrite list_lookup_fmap, Hm. }
    rewrite Hdrop. cbn [offsets_loop].
    apply run_eq. cbn [RowStackNode.Validate_loop].
    unfold RowStackNode.Inputs_at, RowStackNode.set_startRowIndices.
    wp_run.
    assert (Hcheck : isFinal && negb (numCols m =? numCols0) = false).
    { destruct isFinal; [|reflexivity]. cbn.
      rewrite Forall_lookup in Hcols. rewrite (Hcols eq_refl _ _ Hm), N.eqb_refl. reflexivity. }
    destruct isFinal; wp_run.
    + cbn in Hcheck. apply negb_false_iff in Hcheck. rewrite Hcheck. wp_run.
      eapply wp_eq; [apply IH; lia|]. reflexivity.
    + eapply wp_eq; [apply IH; lia|]. reflexivity.
Qed.



Lemma offsets_loop_spec (rows : list N) :
  forall i totalRows v,
    length v = (i + length rows)%nat ->
    totalRows + sumN rows < SIZE_BOUND ->
    offsets_loop rows i totalRows v
    = (totalRows + sumN rows,
       take i v ++ ((fun k => totalRows + sumN (take k rows)) <$> seq 0 (length rows))).
Proof.
  induction rows as [|r rows IH]; intros i totalRows v Hlen Hbound; cbn in *.
  - rewrite take_ge by lia. rewrite app_nil_r. f_equal. lia.
  - assert (Hadd : add64 totalRows r = totalRows + r).
    { unfold add64, wrap64. apply N.mod_small. lia. }
    rewrite IH; rewrite ?length_insert, ?Hadd; try lia.
    f_equal; [lia|].
    rewrite (take_S_r _ _ totalRows) by (apply list_lookup_insert_eq; lia).
    rewrite take_insert_ge by lia. rewrite <- app_assoc. cbn. f_equal.
    rewrite N.add_0_r. f_equal.
    rewrite <- fmap_S_seq, <- list_fmap_compose. apply list_fmap_ext.
    intros _ k _. cbn. lia.
Qed.

Lemma offsets_loop_from_start (rows : list N) (v : list N) :
  sumN rows < SIZE_BOUND ->
  offsets_loop rows 0 0 (resize (length rows) 0 v) = (sumN rows, row_offsets rows).
Proof.
  intros Hbound. rewrite offsets_loop_spec by (rewrite ?length_resize; cbn; lia).
  cbn. reflexivity.
Qed.


Lemma RowStack_Validate_completes (isFinal : bool) b inputs v st ms m0 :
  buffers_of st inputs ms -> ms !! 0%nat = Some m0 ->
  (isFinal = true -> Forall (fun m => numCols m = numCols m0) ms) ->
  let result := offsets_loop (numRows <$> ms) 0 0 (resize (length inputs) 0 v) in
  exists b' err,
    RowStackNode.Validate isFinal (mkMachine (RowStackNode.mk b inputs v) st)
    = (Done tt,
       mkMachine (RowStackNode.mk b' inputs (snd result))
         (mkStore (<[m_functionValues b := Resize (fst result) (numCols m0)]> (matrices st))
                  (layouts st) err))
    /\ m_functionValues b' = m_functionValues b
    /\ m_gradientValues b' = m_gradientValues b
    /\ m_pMBLayout b' = head (omap in_layout inputs).
Proof.
  intros Hbuf Hm0 Hcols result.
  destruct (Forall2_lookup_r _ _ _ _ _ Hbuf Hm0) as (input0 & Hinput0 & Hlook0).
  match goal with |- context [RowStackNode.Validate ?f ?s] =>
    pattern (RowStackNode.Validate f s) end.
  apply run_post.
  unfold RowStackNode.Validate, RowStackNode.Inputs_at, RowStackNode.set_startRowIndices,
    RowStackNode.InferImageDimsFromInputs, RowStackNode.ChildrenSize.
  wp_run.
  eapply wp_eq; [eapply Validate_loop_completes; eauto|]. rewrite drop_0. fold result.
  wp_run. rewrite lookup_insert_eq. wp_run.
  destruct (negb _); wp_run; eexists _, _; (split; [reflexivity|]); auto.
Qed.

End RowStackValidate.

Section ValidationPasses.
Context {E : Type} `{!ElemType E}.
Implicit Types (st : Store E).



End ValidationPasses.

(** ** RowStack: forward evaluation *)

Section RowStackEvaluate.
Context {E : Type} `{!ElemType E}.
Implicit Types (st : Store E) (ms : list (Matrix E)) (inputs : list Input) (o m : Matrix E).

Lemma at_stack_step o m (off x j : N) :
  numCols m = numCols o -> x < numRows o -> j < numCols o ->
  off + numRows m <= numRows o ->
  at_ (stack_step o m off) x j
  = if (off <=? x) && (x <? off + numRows m) then at_ m (x - off) j else at_ o x j.
Proof.
  intros Hc Hx Hj Hfit. unfold stack_step.
  rewrite at_SetColumnSlice_all by assumption.
  unfold AssignToRowSliceValuesOf. rewrite at_build by (cbn; assumption).
  cbn [numRows numCols ColumnSlice build].
  destruct (N.leb_spec off x), (N.ltb_spec x (off + numRows m)); cbn.
  - rewrite <- Hc in Hj. apply at_ColumnSlice_all; lia.
  - now apply at_ColumnSlice_all.
  - now apply at_ColumnSlice_all.
  - now apply at_ColumnSlice_all.
Qed.

Lemma stack_from_spec (total c : N) ms :
  forall o (base : N),
    numRows o = total -> numCols o = c ->
    Forall (fun m => numCols m = c) ms ->
    base + sumN (numRows <$> ms) <= total ->
    let offs := (fun k => base + sumN (take k (numRows <$> ms))) <$> seq 0 (length ms) in
    let o' := stack_from o ms offs in
    numRows o' = total /\ numCols o' = c
    /\ (forall x j, x < base -> j < c -> at_ o' x j = at_ o x j)
    /\ (forall k m r j, ms !! k = Some m -> r < numRows m -> j < c ->
          at_ o' (base + sumN (take k (numRows <$> ms)) + r) j = at_ m r j).
Proof.
  induction ms as [|m ms IH]; intros o base Hr Hc Hcols Hfit; cbn -[at_] in *.
  - repeat split; auto. intros k m r j [=].
  - inversion Hcols as [|? ? Hcm Hcols']; subst.
    rewrite <- fmap_S_seq, <- list_fmap_compose.
    assert (Hoffs : ((fun k => base + sumN (take k (numRows m :: (numRows <$> ms)))) ∘ Datatypes.S)
                      <$> seq 0 (length ms)
                    = (fun k => (base + numRows m) + sumN (take k (numRows <$> ms)))
                        <$> seq 0 (length ms)).
    { apply list_fmap_ext. intros _ k _. cbn. lia. }
    rewrite N.add_0_r, Hoffs.
    destruct (IH (stack_step o m base) (base + numRows m)) as (Hr' & Hc' & Hframe & Hrows);
      try reflexivity; try assumption; try lia.
    repeat split; try assumption.
    + intros x j Hx Hj. rewrite Hframe by lia.
      rewrite at_stack_step by (assumption || lia).
      replace (base <=? x) with false by (symmetry; apply N.leb_gt; lia). reflexivity.
    + intros [|k] m' r j Hk Hrm Hj; cbn -[at_] in *.
      * injection Hk as <-. rewrite Hframe by lia.
        rewrite at_stack_step by (assumption || lia).
        replace (base <=? base + 0 + r) with true by (symmetry; apply N.leb_le; lia).
        replace (base + 0 + r <? base + numRows m) with true by (symmetry; apply N.ltb_lt; lia).
        cbn. f_equal. lia.
      * rewrite <- (Hrows k m' r j) by assumption. f_equal. lia.
Qed.

Lemma buffers_of_insert st inputs ms (l : loc) o lays err :
  Forall (fun input => in_values input <> l) inputs ->
  buffers_of st inputs ms ->
  buffers_of (mkStore (<[l := o]> (matrices st)) lays err) inputs ms.
Proof.
  intros Hsep Hbuf. unfold buffers_of in *.
  induction Hbuf as [|input m inputs ms Hlook Hbuf IH]; [constructor|].
  inversion Hsep; subst. constructor; [|now apply IH].
  cbn. now rewrite lookup_insert_ne.
Qed.

Lemma EvaluateThisNode_loop_spec b inputs (offs : list N) ms :
  Forall (fun input => in_values input <> m_functionValues b) inputs ->
  length offs = length inputs ->
  forall fuel i st o,
    (i + fuel)%nat = length inputs ->
    matrices st !! m_functionValues b = Some o ->
    buffers_of st inputs ms ->
    RowStackNode.EvaluateThisNode_loop AllFrames fuel i
      (mkMachine (RowStackNode.mk b inputs offs) st)
    = (Done tt,
       mkMachine (RowStackNode.mk b inputs offs)
         (mkStore (<[m_functionValues b := stack_from o (drop i ms) (drop i offs)]> (matrices st))
                  (layouts st) (stderr st))).
Proof.
  intros Hsep Hoffs fuel. induction fuel as [|fuel IH]; intros i st o Hlen Hown Hbuf.
  - pose proof (Forall2_length _ _ _ Hbuf) as Hl.
    rewrite (drop_ge ms) by lia. cbn. rewrite insert_id by assumption. now destruct st.
  - pose proof (Forall2_length _ _ _ Hbuf) as Hl.
    destruct (lookup_lt_is_Some_2 inputs i) as [input Hinput]; [lia|].
    destruct (lookup_lt_is_Some_2 offs i) as [off Hoff]; [lia|].
    destruct (Forall2_lookup_l _ _ _ _ _ Hbuf Hinput) as (m & Hm & Hlook).
    rewrite (drop_S _ _ _ Hm), (drop_S _ _ _ Hoff). cbn [stack_from].
    apply run_eq. cbn [RowStackNode.EvaluateThisNode_loop]. wp_run.
    eapply wp_eq.
    { apply (IH (Datatypes.S i) _ (stack_step o m off)); [lia | apply lookup_insert_eq |].
      now apply buffers_of_insert. }
    cbn. rewrite insert_insert_eq. reflexivity.
Qed.
End RowStackEvaluate.

Section RowStackForward.
Context {E : Type} `{!ElemType E}.
Implicit Types (st : Store E) (ms : list (Matrix E)) (inputs : list Input).

(** C5.  RowStack with at least one input, the inputs sharing one column
    count and the row counts adding up within [size_t]: every validation
    pass, final or not and whatever [m_startRowIndices] held before, leaves
    in it the running sums of the row counts in input order (0 first) and
    sizes the buffer of the node to the total row count; forward evaluation
    over all frames then completes and puts row [r] of input [i] at row
    [offset_i + r] of the node, for every column. *)
Theorem RowStack_offsets_and_forward (isFinal : bool) b inputs (v : list N) st ms m0 :
  buffers_of st inputs ms -> ms !! 0%nat = Some m0 ->
  Forall (fun m => numCols m = numCols m0) ms ->
  Forall (fun input => in_values input <> m_functionValues b) inputs ->
  sumN (numRows <$> ms) < SIZE_BOUND ->
  exists s1 s2 sized out,
    RowStackNode.Validate isFinal (mkMachine (RowStackNode.mk b inputs v) st) = (Done tt, s1)
    /\ RowStackNode.m_startRowIndices (self s1) = row_offsets (numRows <$> ms)
    /\ matrices (heap s1) !! m_functionValues b = Some sized
    /\ numRows sized = sumN (numRows <$> ms) /\ numCols sized = numCols m0
    /\ RowStackNode.EvaluateThisNode AllFrames s1 = (Done tt, s2)
    /\ matrices (heap s2) !! m_functionValues b = Some out
    /\ numRows out = sumN (numRows <$> ms) /\ numCols out = numCols m0
    /\ forall i m r j, ms !! i = Some m -> r < numRows m -> j < numCols m0 ->
         at_ out (sumN (take i (numRows <$> ms)) + r) j = at_ m r j.
Proof.
  intros Hbuf Hm0 Hcols Hsep Hbound.
  pose proof (Forall2_length _ _ _ Hbuf) as Hlen.
  destruct (RowStack_Validate_completes isFinal b inputs v st ms m0 Hbuf Hm0 (fun _ => Hcols))
    as (b' & err & Hval & Hb' & _ & _).
  rewrite Hlen, <- (length_fmap numRows ms), offsets_loop_from_start in Hval by assumption.
  cbn [fst snd] in Hval.
  set (rows := numRows <$> ms) in *.
  set (own0 := Resize (E := E) (sumN rows) (numCols m0)) in *.
  set (st1 := mkStore (<[m_functionValues b := own0]> (matrices st)) (layouts st) err) in *.
  assert (Hbuf1 : buffers_of st1 inputs ms) by now apply buffers_of_insert.
  assert (Hown1 : matrices st1 !! m_functionValues b' = Some own0).
  { rewrite Hb'. apply lookup_insert_eq. }
  assert (Hsep' : Forall (fun input => in_values input <> m_functionValues b') inputs)
    by now rewrite Hb'.
  assert (Hoffs : length (row_offsets rows) = length inputs).
  { unfold row_offsets, rows. now rewrite length_fmap, length_seq, length_fmap. }
  pose proof (EvaluateThisNode_loop_spec b' inputs (row_offsets rows) ms Hsep' Hoffs
                (length inputs) 0%nat st1 own0 eq_refl Hown1 Hbuf1) as Hloop.
  rewrite !drop_0 in Hloop.
  destruct (stack_from_spec (sumN rows) (numCols m0) ms own0 0)
    as (Hr & Hc & _ & Hrows); try reflexivity; try assumption; try (fold rows; lia).
  assert (Hsame : (fun k => 0 + sumN (take k (numRows <$> ms))) <$> seq 0 (length ms)
                  = row_offsets rows).
  { unfold row_offsets, rows. rewrite length_fmap. apply list_fmap_ext. intros; cbn; lia. }
  cbn zeta in Hr, Hc, Hrows. rewrite Hsame in Hr, Hc, Hrows.
  eexists _, _, own0, _.
  split; [exact Hval|]. split; [reflexivity|].
  split; [cbn; apply lookup_insert_eq|]. split; [reflexivity|]. split; [reflexivity|].
  split.
  { unfold RowStackNode.EvaluateThisNode, bind, this. cbn. exact Hloop. }
  split; [cbn; rewrite Hb'; apply lookup_insert_eq|].
  split; [exact Hr|]. split; [exact Hc|].
  intros i m r j Hi Hrm Hj. rewrite <- (Hrows i m r j) by assumption. f_equal.
Qed.
End RowStackForward.

(** ** Gradient passes *)

Section Gradients.
Context {E : Type} `{!ElemType E}.
Implicit Types (st : Store E).

Lemma RowSlice_ComputeInputPartial_adds (n : RowSliceNode.t) st (inputIndex : N)
    (gradient inputGradient : Matrix E) :
  matrices st !! m_gradientValues (RowSliceNode.node n) = Some gradient ->
  matrices st !! in_gradients (RowSliceNode.Inputs0 n) = Some inputGradient ->
  numRows gradient = RowSliceNode.m_numRows n ->
  numCols gradient = numCols inputGradient ->
  exists updated,
    RowSliceNode.ComputeInputPartial inputIndex AllFrames (mkMachine n st)
    = (Done tt,
       mkMachine n
         (mkStore (<[in_gradients (RowSliceNode.Inputs0 n) := updated]> (matrices st))
                  (layouts st) (stderr st)))
    /\ numRows updated = numRows inputGradient
    /\ numCols updated = numCols inputGradient
    /\ forall i j, i < numRows inputGradient -> j < numCols inputGradient ->
         at_ updated i j
         = if (RowSliceNode.m_startIndex n <=? i)
              && (i <? RowSliceNode.m_startIndex n + RowSliceNode.m_numRows n)
           then elem_add (at_ inputGradient i j)
                         (at_ gradient (i - RowSliceNode.m_startIndex n) j)
           else at_ inputGradient i j.
Proof.
  intros Hg Hig Hrows Hcols.
  match goal with |- context [RowSliceNode.ComputeInputPartial ?a ?f ?s] =>
    pattern (RowSliceNode.ComputeInputPartial a f s) end.
  apply run_post. unfold RowSliceNode.ComputeInputPartial. wp_run.
  eexists. split; [reflexivity|]. split; [reflexivity|]. split; [reflexivity|].
  intros i j Hi Hj.
  rewrite at_SetColumnSlice_all by assumption.
  unfold AddToRowSliceValuesOf. rewrite at_build by (cbn; assumption). cbn [numRows numCols ColumnSlice build].
  rewrite at_ColumnSlice_all by assumption.
  destruct (N.leb_spec (RowSliceNode.m_startIndex n) i),
    (N.ltb_spec i (RowSliceNode.m_startIndex n + RowSliceNode.m_numRows n)); cbn; try reflexivity.
  rewrite at_ColumnSlice_all by lia. reflexivity.
Qed.

Lemma RowStack_ComputeInputPartial_adds (n : RowStackNode.t) st (inputIndex : nat)
    (input : Input) (offset : N) (gradient inputValues inputGradient : Matrix E) :
  RowStackNode.Inputs n !! inputIndex = Some input ->
  RowStackNode.m_startRowIndices n !! inputIndex = Some offset ->
  matrices st !! m_gradientValues (RowStackNode.node n) = Some gradient ->
  matrices st !! in_values input = Some inputValues ->
  matrices st !! in_gradients input = Some inputGradient ->
  numRows inputGradient = numRows inputValues ->
  offset + numRows inputValues <= numRows gradient ->
  numCols gradient = numCols inputGradient ->
  exists updated,
    RowStackNode.ComputeInputPartial inputIndex AllFrames (mkMachine n st)
    = (Done tt,
       mkMachine n
         (mkStore (<[in_gradients input := updated]> (matrices st)) (layouts st) (stderr st)))
    /\ numRows updated = numRows inputGradient
    /\ numCols updated = numCols inputGradient
    /\ forall i j, i < numRows inputGradient -> j < numCols inputGradient ->
         at_ updated i j = elem_add (at_ inputGradient i j) (at_ gradient (offset + i) j).
Proof.
  intros Hinput Hoff Hg Hiv Hig Hrows Hfit Hcols.
  match goal with |- context [RowStackNode.ComputeInputPartial ?a ?f ?s] =>
    pattern (RowStackNode.ComputeInputPartial a f s) end.
  apply run_post. unfold RowStackNode.ComputeInputPartial. wp_run.
  eexists. split; [reflexivity|]. split; [reflexivity|]. split; [reflexivity|].
  intros i j Hi Hj.
  rewrite at_SetColumnSlice_all by assumption.
  unfold AddWithRowSliceValuesOf. rewrite at_build by (cbn; assumption). cbn [numRows numCols ColumnSlice build].
  replace (i <? numRows inputValues) with true by (symmetry; apply N.ltb_lt; lia).
  rewrite !at_ColumnSlice_all by lia. reflexivity.
Qed.

Lemma RowRepeat_ComputeInputPartial_sums (n : RowRepeatNode.t) st (inputIndex : N)
    (gradient inputGradient : Matrix E) :
  matrices st !! m_gradientValues (RowRepeatNode.node n) = Some gradient ->
  matrices st !! in_gradients (RowRepeatNode.Inputs0 n) = Some inputGradient ->
  numRows gradient = numRows inputGradient * RowRepeatNode.m_numRepeat n ->
  numCols gradient = numCols inputGradient ->
  exists updated,
    RowRepeatNode.ComputeInputPartial inputIndex AllFrames (mkMachine n st)
    = (Done tt,
       mkMachine n
         (mkStore (<[in_gradients (RowRepeatNode.Inputs0 n) := updated]> (matrices st))
                  (layouts st) (stderr st)))
    /\ numRows updated = numRows inputGradient
    /\ numCols updated = numCols inputGradient
    /\ forall i j, i < numRows inputGradient -> j < numCols inputGradient ->
         at_ updated i j
         = elem_add (at_ inputGradient i j)
             (elem_sum (RowRepeatNode.m_numRepeat n)
                (fun k => at_ gradient (k * numRows inputGradient + i) j)).
Proof.
  intros Hg Hig Hrows Hcols.
  match goal with |- context [RowRepeatNode.ComputeInputPartial ?a ?f ?s] =>
    pattern (RowRepeatNode.ComputeInputPartial a f s) end.
  apply run_post. unfold RowRepeatNode.ComputeInputPartial. wp_run.
  eexists. split; [reflexivity|]. split; [reflexivity|]. split; [reflexivity|].
  intros i j Hi Hj.
  rewrite at_SetColumnSlice_all by assumption.
  unfold AddToRowRepeatValuesOf. rewrite at_build by (cbn; assumption). cbn [numRows numCols ColumnSlice build].
  rewrite at_ColumnSlice_all by assumption. f_equal.
  apply elem_sum_ext. intros k Hk.
  apply at_ColumnSlice_all; [nia | lia].
Qed.

End Gradients.

(** ** RowRepeat *)

Section RowRepeat.
Context {E : Type} `{!ElemType E}.
Implicit Types (st : Store E).

(** C7. For a RowRepeat node with [m_numRepeat >= 1] over an input of [r] rows
    and [c] columns, every validation pass sizes the output to [r * m_numRepeat]
    rows and [c] columns, and after forward evaluation both value accessors
    return a matrix of that size whose row [i] is row [i mod r] of the input:
    [m_numRepeat] copies of the input stacked top to bottom.  The row count is
    assumed to fit in [size_t], and the input buffer to be another one than the
    node's own. *)
Theorem RowRepeat_output_is_stacked_copies (isFinal : bool) (n : RowRepeatNode.t) st
    (inputValues : Matrix E) :
  matrices st !! in_values (RowRepeatNode.Inputs0 n) = Some inputValues ->
  in_values (RowRepeatNode.Inputs0 n) <> m_functionValues (RowRepeatNode.node n) ->
  1 <= RowRepeatNode.m_numRepeat n ->
  numRows inputValues * RowRepeatNode.m_numRepeat n < SIZE_BOUND ->
  exists s1 s2 sized l out,
    RowRepeatNode.Validate isFinal (mkMachine n st) = (Done tt, s1)
    /\ matrices (heap s1) !! m_functionValues (RowRepeatNode.node n) = Some sized
    /\ numRows sized = numRows inputValues * RowRepeatNode.m_numRepeat n
    /\ numCols sized = numCols inputValues
    /\ RowRepeatNode.EvaluateThisNode AllFrames s1 = (Done tt, s2)
    /\ RowRepeatNode.FunctionValues s2 = (Done l, s2)
    /\ RowRepeatNode.FunctionValues_const s2 = (Done l, s2)
    /\ matrices (heap s2) !! l = Some out
    /\ numRows out = numRows inputValues * RowRepeatNode.m_numRepeat n
    /\ numCols out = numCols inputValues
    /\ forall i j, i < numRows inputValues * RowRepeatNode.m_numRepeat n ->
         j < numCols inputValues ->
         at_ out i j = at_ inputValues (i mod numRows inputValues) j.
Proof.
  destruct n as [b input repeat]. cbn. intros Hin Hsep Hrep Hbound.
  assert (Hmul : mul64 (numRows inputValues) repeat = numRows inputValues * repeat)
    by (now apply N.mod_small).
  assert (Hvalidate : exists b' err,
    RowRepeatNode.Validate isFinal (mkMachine (RowRepeatNode.mk b input repeat) st)
    = (Done tt,
       mkMachine (RowRepeatNode.mk b' input repeat)
         (mkStore (<[m_functionValues b
                     := Resize (numRows inputValues * repeat) (numCols inputValues)]> (matrices st))
                  (layouts st) err))
    /\ m_functionValues b' = m_functionValues b).
  { match goal with |- context [RowRepeatNode.Validate ?f ?s] =>
      pattern (RowRepeatNode.Validate f s) end.
    apply run_post. unfold RowRepeatNode.Validate, RowRepeatNode.InferImageDimsFromInputs.
    wp_run. rewrite Hmul.
    destruct (negb _); wp_run; eexists _, _; (split; [reflexivity|]); reflexivity. }
  destruct Hvalidate as (b' & err & Hval & Hb').
  destruct b' as [name' values' gradients' layout' imgIn' imgOut']. cbn in Hb'. subst values'.
  destruct (N.eqb_spec repeat 1) as [->|Hne].
  - eexists _, _, _, (in_values input), inputValues.
    split; [exact Hval|]. cbn. split; [apply lookup_insert_eq|].
    split; [reflexivity|]. split; [reflexivity|].
    split; [reflexivity|].
    split; [reflexivity|]. split; [reflexivity|].
    split; [cbn; now rewrite lookup_insert_ne by congruence|].
    split; [lia|]. split; [reflexivity|].
    intros i j Hi Hj. rewrite N.mod_small by lia. reflexivity.
  - assert (Hnoop : (repeat =? 1) = false) by now apply N.eqb_neq.
    eexists _, _, _, (m_functionValues b), _.
    split; [exact Hval|]. cbn. split; [apply lookup_insert_eq|].
    split; [reflexivity|]. split; [reflexivity|].
    split.
    { apply run_eq. unfold RowRepeatNode.EvaluateThisNode, RowRepeatNode.isNoop. wp_run.
      rewrite lookup_insert_ne by congruence. wp_run.
      rewrite lookup_insert_eq. wp_run. reflexivity. }
    unfold RowRepeatNode.FunctionValues, RowRepeatNode.FunctionValues_const, RowRepeatNode.isNoop,
      bind, this, ret. cbn. rewrite Hnoop. cbn.
    split; [reflexivity|]. split; [reflexivity|].
    split; [rewrite insert_insert_eq; apply lookup_insert_eq|].
    split; [reflexivity|]. split; [reflexivity|].
    intros i j Hi Hj.
    rewrite at_SetColumnSlice_all by (cbn; assumption).
    unfold AssignRepeatOf. cbn [numRows numCols ColumnSlice build Resize].
    rewrite at_build by lia.
    assert (0 < numRows inputValues) by nia.
    rewrite at_ColumnSlice_all.
    + rewrite (N.mod_small j) by lia. reflexivity.
    + apply N.mod_lt. lia.
    + apply N.mod_lt. lia.
Qed.

End RowRepeat.

(** ** Reshape: stacking *)

Section Stack.
Context {E : Type} `{!ElemType E}.
Implicit Types (st : Store E).


End Stack.

(** ** Reshape: the layout of the node *)

Section ReshapeLayout.
Context {E : Type} `{!ElemType E}.
Implicit Types (st : Store E) (n : ReshapeNode.t) (s : Machine E ReshapeNode.t).

(** Inferring the image hints touches neither the layout pointer of the node
    nor the layouts in the store. *)
Lemma InferImageDimsFromInputs_keeps_layout s :
  wp ReshapeNode.InferImageDimsFromInputs
    (fun _ s' => m_pMBLayout (ReshapeNode.node (self s')) = m_pMBLayout (ReshapeNode.node (self s))
                 /\ layouts (heap s') = layouts (heap s))
    s.
Proof.
  destruct s as [[b input m il] st].
  unfold ReshapeNode.InferImageDimsFromInputs, ReshapeNode.InferImageDimensions.
  wp_cases; auto.
Qed.


(** The layout that a completed validation pass gives to a node that had
    none: its location is the one [make_shared] returned, and the layout at
    it is the empty one. *)
Lemma Validate_makes_empty_layout (ndebug isFinal : bool) n st s' (li : loc) :
  in_layout (ReshapeNode.Inputs0 n) = Some li ->
  m_pMBLayout (ReshapeNode.node n) = None ->
  ReshapeNode.Validate ndebug isFinal (mkMachine n st) = (Done tt, s') ->
  m_pMBLayout (ReshapeNode.node (self s')) = Some (fresh (dom (layouts st)))
  /\ layouts (heap s') = <[fresh (dom (layouts st)) := mkMBLayout 1 0]> (layouts st).
Proof.
  intros Hli Hnone Hrun.
  enough (wp (ReshapeNode.Validate ndebug isFinal)
            (fun o s' => o = Done tt ->
               m_pMBLayout (ReshapeNode.node (self s')) = Some (fresh (dom (layouts st)))
               /\ layouts (heap s')
                  = <[fresh (dom (layouts st)) := mkMBLayout 1 0]> (layouts st))
            (mkMachine n st)) as Hwp.
  { unfold wp in Hwp. rewrite Hrun in Hwp. now apply Hwp. }
  destruct n as [b input m il]. cbn in *.
  unfold ReshapeNode.Validate, in_HasMBLayout.
  wp_cases; try discriminate.
  all: eapply wp_mono; [|apply InferImageDimsFromInputs_keeps_layout].
  all: cbn; intros o s1 [Hptr Hlay] _; rewrite Hptr, Hlay; auto.
Qed.

Lemma Validate_keeps_layout (ndebug isFinal : bool) n st s' (l : loc) :
  m_pMBLayout (ReshapeNode.node n) = Some l ->
  is_Some (in_layout (ReshapeNode.Inputs0 n)) ->
  ReshapeNode.Validate ndebug isFinal (mkMachine n st) = (Done tt, s') ->
  m_pMBLayout (ReshapeNode.node (self s')) = Some l
  /\ layouts (heap s') = layouts st.
Proof.
  intros Hl [li Hli] Hrun.
  enough (wp (ReshapeNode.Validate ndebug isFinal)
            (fun o s' => o = Done tt ->
               m_pMBLayout (ReshapeNode.node (self s')) = Some l
               /\ layouts (heap s') = layouts st)
            (mkMachine n st)) as Hwp.
  { unfold wp in Hwp. rewrite Hrun in Hwp. now apply Hwp. }
  destruct n as [b input m il]. cbn in *.
  unfold ReshapeNode.Validate, in_HasMBLayout.
  wp_cases; try discriminate.
  all: eapply wp_mono; [|apply InferImageDimsFromInputs_keeps_layout].
  all: cbn; intros o s1 [Hptr Hlay] _; rewrite Hptr, Hlay; auto.
Qed.

Lemma Validate_without_layout (ndebug isFinal : bool) n st s' :
  in_layout (ReshapeNode.Inputs0 n) = None ->
  ndebug = false \/ m_pMBLayout (ReshapeNode.node n) = None ->
  ReshapeNode.Validate ndebug isFinal (mkMachine n st) = (Done tt, s') ->
  m_pMBLayout (ReshapeNode.node (self s')) = None.
Proof.
  intros Hli Hcase Hrun.
  enough (wp (ReshapeNode.Validate ndebug isFinal)
            (fun o s' => o = Done tt -> m_pMBLayout (ReshapeNode.node (self s')) = None)
            (mkMachine n st)) as Hwp.
  { unfold wp in Hwp. rewrite Hrun in Hwp. now apply Hwp. }
  destruct n as [b input m il]. cbn in *.
  unfold ReshapeNode.Validate, in_HasMBLayout.
  destruct Hcase as [-> | Hnone].
  - destruct (m_pMBLayout b) as [l|] eqn:Hl.
    + wp_cases; try discriminate.
    + wp_cases; try discriminate.
      all: eapply wp_mono; [|apply InferImageDimsFromInputs_keeps_layout].
      all: cbn; intros o s1 [Hptr Hlay] _; rewrite Hptr; auto.
  - wp_cases; try discriminate.
    all: eapply wp_mono; [|apply InferImageDimsFromInputs_keeps_layout].
    all: cbn; intros o s1 [Hptr Hlay] _; rewrite Hptr; auto.
Qed.

Lemma OnEvaluateBeginIteration_derives_layout n st (l li : loc) (nS0 nT0 nSin nTin : N)
    (inputValues : Matrix E) :
  m_pMBLayout (ReshapeNode.node n) = Some l ->
  layouts st !! l = Some (mkMBLayout nS0 nT0) ->
  in_layout (ReshapeNode.Inputs0 n) = Some li ->
  layouts st !! li = Some (mkMBLayout nSin nTin) ->
  matrices st !! in_values (ReshapeNode.Inputs0 n) = Some inputValues ->
  ReshapeNode.m_numRows n <> 0 ->
  nTin * numRows inputValues < SIZE_BOUND ->
  ReshapeNode.OnEvaluateBeginIteration (mkMachine n st)
  = (Done tt,
     mkMachine n
       (mkStore (matrices st)
          (<[l := mkMBLayout nS0 (nTin * numRows inputValues / ReshapeNode.m_numRows n)]>
             (layouts st))
          (stderr st))).
Proof.
  intros Hl Hlay Hli Hlin Hin Hnz Hbound.
  apply N.eqb_neq in Hnz.
  assert (Hmul : mul64 nTin (numRows inputValues) = nTin * numRows inputValues)
    by (now apply N.mod_small).
  apply run_eq. unfold ReshapeNode.OnEvaluateBeginIteration. wp_run.
  rewrite Hmul. reflexivity.
Qed.

Lemma OnEvaluateBeginIteration_without_layout s :
  m_pMBLayout (ReshapeNode.node (self s)) = None ->
  ReshapeNode.OnEvaluateBeginIteration s = (Done tt, s).
Proof.
  intros Hnone. apply run_eq. unfold ReshapeNode.OnEvaluateBeginIteration. wp_run.
  reflexivity.
Qed.

End ReshapeLayout.

(** ** Reshape without a layout, and the accessors of the no-op nodes *)

Section ReshapeNoLayout.
Context {E : Type} `{!ElemType E}.
Implicit Types (st : Store E) (n : ReshapeNode.t).

(** What forward evaluation does once it is reached: without a layout, on a node
    sized as validation sizes it, forward evaluation copies the storage of
    the input into the storage of the node. *)
Lemma EvaluateThisNode_copies_storage (ndebug : bool) (fr : FrameRange) n st
    (inputValues values : Matrix E) (newCols : N) :
  m_pMBLayout (ReshapeNode.node n) = None ->
  matrices st !! in_values (ReshapeNode.Inputs0 n) = Some inputValues ->
  matrices st !! m_functionValues (ReshapeNode.node n) = Some values ->
  ReshapeNode.m_numRows n <> numRows inputValues ->
  numRows values = ReshapeNode.m_numRows n -> numCols values = newCols ->
  ReshapeNode.m_numRows n * newCols = numRows inputValues * numCols inputValues ->
  numRows inputValues * numCols inputValues < SIZE_BOUND ->
  ReshapeNode.m_numRows n <> 0 ->
  ReshapeNode.EvaluateThisNode ndebug fr (mkMachine n st)
  = (Done tt,
     mkMachine n
       (mkStore (<[m_functionValues (ReshapeNode.node n)
                   := mkMatrix (ReshapeNode.m_numRows n) newCols (pArray inputValues)]>
                   (matrices st))
                (layouts st) (stderr st))).
Proof.
  destruct n as [b input m il], inputValues as [r c a], values as [vr vc v]. cbn.
  intros Hnone Hin Hown Hne -> -> Hexact Hbound Hnz.
  assert (Hnoop : (m =? r) = false) by now apply N.eqb_neq.
  assert (Hnzb : (m =? 0) = false) by now apply N.eqb_neq.
  assert (Hmul : mul64 c r = m * newCols).
  { unfold mul64, wrap64. rewrite N.mod_small by lia. lia. }
  assert (Hdiv : m * newCols / m = newCols) by (rewrite N.mul_comm; now apply N.div_mul).
  assert (Hmul' : mul64 newCols m = m * newCols).
  { unfold mul64, wrap64. rewrite N.mod_small by lia. lia. }
  apply run_eq. unfold ReshapeNode.EvaluateThisNode. wp_run.
  rewrite Hmul, Hdiv, Hmul', N.eqb_refl, orb_true_r. wp_run.
  rewrite !N.eqb_refl. wp_run.
  rewrite Reshaped_Some by (cbn; lia). wp_run.
  rewrite Reshaped_Some by (cbn; lia). wp_run.
  unfold GetNumElements. cbn. rewrite N.eqb_refl. wp_run. reflexivity.
Qed.

(** X21. The dimension check of the final pass compares the truth value of
    [rows * cols != m_numRows] with [newCols]: without a layout, the final
    validation pass rejects every reshape whose element counts agree
    ([m_numRows] a multiple or a divisor of the row count of the input and a
    divisor of [rows * cols]) with the error of that check, and leaves the
    node and the store unchanged. *)
Lemma Validate_final_rejects_exact_reshape (ndebug : bool) n st (inputValues : Matrix E) :
  m_pMBLayout (ReshapeNode.node n) = None ->
  matrices st !! in_values (ReshapeNode.Inputs0 n) = Some inputValues ->
  ReshapeNode.m_numRows n <> 0 -> numRows inputValues <> 0 ->
  (numRows inputValues | ReshapeNode.m_numRows n)
  \/ (ReshapeNode.m_numRows n | numRows inputValues) ->
  numRows inputValues * numCols inputValues < SIZE_BOUND ->
  (ReshapeNode.m_numRows n | numRows inputValues * numCols inputValues) ->
  ReshapeNode.Validate ndebug true (mkMachine n st)
  = (Throw (LogicError "%ls %ls operation: unexpected dimension mismatch"), mkMachine n st).
Proof.
  destruct n as [b input m il], inputValues as [r c a]. cbn.
  intros Hnone Hin Hnz Hrnz Hdiv Hbound [q Hq].
  assert (Hnzb : (m =? 0) = false) by now apply N.eqb_neq.
  assert (Hrnzb : (r =? 0) = false) by now apply N.eqb_neq.
  assert (Hmul : mul64 c r = q * m).
  { unfold mul64, wrap64. rewrite N.mod_small by lia. lia. }
  assert (Hmul' : mul64 r c = q * m).
  { unfold mul64, wrap64. rewrite N.mod_small by lia. lia. }
  assert (Hq' : q * m / m = q) by now apply N.div_mul.
  assert (Hfirst : (r <? m) = true -> (m mod r =? 0) = true).
  { intros Hlt%N.ltb_lt. apply N.eqb_eq. destruct Hdiv as [Hd|Hd].
    - now apply N.Lcm0.mod_divide.
    - apply N.divide_pos_le in Hd; lia. }
  assert (Hsecond : (m <? r) = true -> (r mod m =? 0) = true).
  { intros Hlt%N.ltb_lt. apply N.eqb_eq. destruct Hdiv as [Hd|Hd].
    - apply N.divide_pos_le in Hd; lia.
    - now apply N.Lcm0.mod_divide. }
  assert (Hcheck : (N.b2n (negb (q * m =? m)) =? q) = false).
  { destruct (N.eqb_spec (q * m) m) as [Heq|Hneq].
    - assert (q = 1) by nia. subst. reflexivity.
    - change ((1 =? q) = false). apply N.eqb_neq. intros <-. lia. }
  apply run_eq. unfold ReshapeNode.Validate. wp_run.
  rewrite Hmul, Hmul', Hq'.
  destruct (r <? m) eqn:Hrm; [pose proof (Hfirst eq_refl)|];
    (destruct (m <? r) eqn:Hmr; [pose proof (Hsecond eq_refl)|]); wp_run; reflexivity.
Qed.
End ReshapeNoLayout.

(** C2. Without a layout, the final validation pass of Reshape does not check
    that the element count is kept: the test of the source,
    [rows * cols != m_numRows != newCols], compares the truth value of
    [rows * cols != m_numRows] with [newCols].  A 2 x 4 input reshaped to 4
    rows, an exact reshape to 4 x 2, is rejected with the [LogicError] of that
    test; a 2 x 3 input with [m_numRows = 4], which keeps no element count
    (4 * 1 is not 2 * 3), is accepted and sized 4 x 1, and its forward
    evaluation then fails on the assertion of the element count, which the
    source takes to follow from that test. *)
Theorem Reshape_final_validation_dimension_check :
  ReshapeNode.Validate false true (mkMachine (Example.reshape 4) (Example.store Example.m2x4))
  = (Throw (LogicError "%ls %ls operation: unexpected dimension mismatch"),
     mkMachine (Example.reshape 4) (Example.store Example.m2x4))
  /\ (exists s1,
        ReshapeNode.Validate false true
          (mkMachine (Example.reshape 4) (Example.store Example.m2x3)) = (Done tt, s1)
        /\ matrices (heap s1) !! Example.valuesLoc = Some (Resize (E := Z) 4 1)
        /\ 4 * 1 <> 2 * 3
        /\ ReshapeNode.EvaluateThisNode false AllFrames s1 = (Throw AssertionFailed, s1)).
Proof.
  split; [vm_compute; reflexivity|].
  eexists. split; [vm_compute; reflexivity|].
  split; [vm_compute; reflexivity|]. split; [lia|].
  vm_compute; reflexivity.
Qed.

(** C8. A Reshape node whose [m_numRows] is the row count of its input is a
    no-op only through the accessor for constant nodes: after validation and
    forward evaluation of the node with [m_numRows = 2] over a 2 x 3 input,
    [FunctionValues() const] returns the buffer of the input, but the other
    accessor, which Reshape does not override, returns the node's own buffer,
    a different one, which the evaluation has not filled. *)
Theorem Reshape_noop_overrides_only_the_const_accessor :
  exists s1,
    ReshapeNode.Validate false false
      (mkMachine (Example.reshape 2) (Example.store Example.m2x3)) = (Done tt, s1)
    /\ ReshapeNode.EvaluateThisNode false AllFrames s1 = (Done tt, s1)
    /\ ReshapeNode.FunctionValues_const s1 = (Done Example.inputLoc, s1)
    /\ ReshapeNode.FunctionValues s1 = (Done Example.valuesLoc, s1)
    /\ Example.valuesLoc <> Example.inputLoc
    /\ matrices (heap s1) !! Example.inputLoc = Some Example.m2x3
    /\ matrices (heap s1) !! Example.valuesLoc = Some (Resize (E := Z) 2 3).
Proof.
  eexists. split; [vm_compute; reflexivity|].
  repeat split; try (vm_compute; reflexivity). discriminate.
Qed.

Section NoopAccessors.
Context {E : Type} `{!ElemType E}.

(** X20. A Reshape node whose [m_numRows] is the row count of its input:
    forward evaluation does nothing, for every frame range, and
    [FunctionValues() const] returns the buffer of the input; the accessor
    for objects that are not [const], which the class does not override,
    returns the buffer of the node. *)
Lemma Reshape_noop (ndebug : bool) (fr : FrameRange) (s : Machine E ReshapeNode.t)
    (inputValues : Matrix E) :
  matrices (heap s) !! in_values (ReshapeNode.Inputs0 (self s)) = Some inputValues ->
  ReshapeNode.m_numRows (self s) = numRows inputValues ->
  ReshapeNode.EvaluateThisNode ndebug fr s = (Done tt, s)
  /\ ReshapeNode.FunctionValues_const s = (Done (in_values (ReshapeNode.Inputs0 (self s))), s)
  /\ ReshapeNode.FunctionValues s
     = (Done (m_functionValues (ReshapeNode.node (self s))), s).
Proof.
  destruct s as [n st]. cbn. intros Hin Hrows. apply N.eqb_eq in Hrows.
  repeat split; apply run_eq; unfold ReshapeNode.EvaluateThisNode; wp_run; reflexivity.
Qed.

(** X19. A RowRepeat node with [m_numRepeat = 1] is a no-op: forward
    evaluation does nothing, for every frame range, and both value
    accessors, the one for [const] objects and the other, return the buffer
    of the input itself. *)
Lemma RowRepeat_noop (fr : FrameRange) (s : Machine E RowRepeatNode.t) :
  RowRepeatNode.m_numRepeat (self s) = 1 ->
  RowRepeatNode.EvaluateThisNode fr s = (Done tt, s)
  /\ RowRepeatNode.FunctionValues_const s
     = (Done (in_values (RowRepeatNode.Inputs0 (self s))), s)
  /\ RowRepeatNode.FunctionValues s
     = (Done (in_values (RowRepeatNode.Inputs0 (self s))), s).
Proof.
  destruct s as [[b input r] st]. cbn. intros ->.
  repeat split.
Qed.
End NoopAccessors.

(** ** The deferred checks, the gradient passes and the layout of Reshape *)

Section ReshapeHintCheck.
Context {E : Type} `{!ElemType E}.
Implicit Types (st : Store E) (n : ReshapeNode.t) (s : Machine E ReshapeNode.t).





End ReshapeHintCheck.

Section DeferredChecksGradients.
Context {E : Type} `{!ElemType E}.
Implicit Types (st : Store E).


(** C6.  The gradient passes over all frames add into the gradient of the
    input and write nothing else.  RowSlice adds row [i - m_startIndex] of
    the gradient of the node to row [i] of the gradient of the input for
    [m_startIndex <= i < m_startIndex + m_numRows] and leaves its other rows
    as they were; RowStack adds row [offset + i] of the gradient of the node
    to row [i] of the gradient of the chosen input; RowRepeat adds to row
    [i] of the gradient of the input the sum of the rows
    [k * inputRows + i], [k < m_numRepeat], of the gradient of the node.  In
    each case the store after the pass is the store before it with that one
    buffer replaced. *)
Theorem gradient_passes_accumulate :
  (forall (n : RowSliceNode.t) st (inputIndex : N) (gradient inputGradient : Matrix E),
      matrices st !! m_gradientValues (RowSliceNode.node n) = Some gradient ->
      matrices st !! in_gradients (RowSliceNode.Inputs0 n) = Some inputGradient ->
      numRows gradient = RowSliceNode.m_numRows n ->
      numCols gradient = numCols inputGradient ->
      exists updated,
        RowSliceNode.ComputeInputPartial inputIndex AllFrames (mkMachine n st)
        = (Done tt,
           mkMachine n
             (mkStore (<[in_gradients (RowSliceNode.Inputs0 n) := updated]> (matrices st))
                      (layouts st) (stderr st)))
        /\ numRows updated = numRows inputGradient
        /\ numCols updated = numCols inputGradient
        /\ forall i j, i < numRows inputGradient -> j < numCols inputGradient ->
             at_ updated i j
             = if (RowSliceNode.m_startIndex n <=? i)
                  && (i <? RowSliceNode.m_startIndex n + RowSliceNode.m_numRows n)
               then elem_add (at_ inputGradient i j)
                             (at_ gradient (i - RowSliceNode.m_startIndex n) j)
               else at_ inputGradient i j)
  /\ (forall (n : RowStackNode.t) st (inputIndex : nat) (input : Input) (offset : N)
             (gradient inputValues inputGradient : Matrix E),
        RowStackNode.Inputs n !! inputIndex = Some input ->
        RowStackNode.m_startRowIndices n !! inputIndex = Some offset ->
        matrices st !! m_gradientValues (RowStackNode.node n) = Some gradient ->
        matrices st !! in_values input = Some inputValues ->
        matrices st !! in_gradients input = Some inputGradient ->
        numRows inputGradient = numRows inputValues ->
        offset + numRows inputValues <= numRows gradient ->
        numCols gradient = numCols inputGradient ->
        exists updated,
          RowStackNode.ComputeInputPartial inputIndex AllFrames (mkMachine n st)
          = (Done tt,
             mkMachine n
               (mkStore (<[in_gradients input := updated]> (matrices st))
                        (layouts st) (stderr st)))
          /\ numRows updated = numRows inputGradient
          /\ numCols updated = numCols inputGradient
          /\ forall i j, i < numRows inputGradient -> j < numCols inputGradient ->
               at_ updated i j
               = elem_add (at_ inputGradient i j) (at_ gradient (offset + i) j))
  /\ (forall (n : RowRepeatNode.t) st (inputIndex : N) (gradient inputGradient : Matrix E),
        matrices st !! m_gradientValues (RowRepeatNode.node n) = Some gradient ->
        matrices st !! in_gradients (RowRepeatNode.Inputs0 n) = Some inputGradient ->
        numRows gradient = numRows inputGradient * RowRepeatNode.m_numRepeat n ->
        numCols gradient = numCols inputGradient ->
        exists updated,
          RowRepeatNode.ComputeInputPartial inputIndex AllFrames (mkMachine n st)
          = (Done tt,
             mkMachine n
               (mkStore (<[in_gradients (RowRepeatNode.Inputs0 n) := updated]> (matrices st))
                        (layouts st) (stderr st)))
          /\ numRows updated = numRows inputGradient
          /\ numCols updated = numCols inputGradient
          /\ forall i j, i < numRows inputGradient -> j < numCols inputGradient ->
               at_ updated i j
               = elem_add (at_ inputGradient i j)
                   (elem_sum (RowRepeatNode.m_numRepeat n)
                      (fun k => at_ gradient (k * numRows inputGradient + i) j))).
Proof.
  split; [intros; now apply RowSlice_ComputeInputPartial_adds|].
  split; [intros; eapply RowStack_ComputeInputPartial_adds; eauto|].
  intros; now apply RowRepeat_ComputeInputPartial_sums.
Qed.

End DeferredChecksGradients.


(** ** Further properties of the reshaping nodes *)

Lemma run_done {S A} (c : M S A) (Q : A -> S -> Prop) (s s' : S) (a : A) :
  wp c (fun o s1 => match o with Done x => Q x s1 | Throw _ => True end) s ->
  c s = (Done a, s') -> Q a s'.
Proof. unfold wp. intros Hwp Hrun. now rewrite Hrun in Hwp. Qed.

Lemma wrap64_small (x : N) : x < SIZE_BOUND -> wrap64 x = x.
Proof. apply N.mod_small. Qed.

Lemma mul64_wrap_l (x y : N) : mul64 (wrap64 x) y = wrap64 (x * y).
Proof. unfold mul64, wrap64. now rewrite N.Div0.mul_mod_idemp_l. Qed.

Lemma mul64_wrap_r (x y : N) : mul64 x (wrap64 y) = wrap64 (x * y).
Proof. unfold mul64, wrap64. now rewrite N.Div0.mul_mod_idemp_r. Qed.

Lemma exact_quotient (m p : N) : p <> 0 -> m mod p = 0 -> p * (m / p) = m.
Proof. intros Hp Hmod. pose proof (N.div_mod m p Hp). lia. Qed.

(** The three ways in which two given dimensions determine the third. *)
Lemma elements_third (m a b : N) :
  m < SIZE_BOUND -> mul64 a b <> 0 -> m mod mul64 a b = 0 ->
  ImageLayout_GetNumElements (mkImageLayout a b (m / mul64 a b)) = m
  /\ ImageLayout_GetNumElements (mkImageLayout a (m / mul64 a b) b) = m
  /\ ImageLayout_GetNumElements (mkImageLayout (m / mul64 a b) a b) = m.
Proof.
  intros Hm Hp Hmod. pose proof (exact_quotient m _ Hp Hmod) as Hq.
  unfold ImageLayout_GetNumElements. cbn [width height channels].
  set (q := m / mul64 a b) in *.
  assert (H1 : mul64 (mul64 a b) q = m).
  { unfold mul64 at 1. rewrite Hq. now apply wrap64_small. }
  repeat split.
  - exact H1.
  - rewrite <- H1. unfold mul64 at 2 4. rewrite !mul64_wrap_l. f_equal. lia.
  - rewrite <- H1. unfold mul64 at 2 4. rewrite !mul64_wrap_l. f_equal. lia.
Qed.

Section ImageHints.
Context {E : Type} `{!ElemType E}.
Implicit Types (s : Machine E ReshapeNode.t).

(** X1. The inference of the image dimensions of a Reshape node stops with
    the error [At least two image dimensions must be specified.] exactly
    when one and only one of width, height and channels of the hint of the
    node is given (is not 0). *)
Theorem InferImageDimensions_needs_two_dimensions s :
  fst (ReshapeNode.InferImageDimensions s)
  = Throw (RuntimeError "At least two image dimensions must be specified.")
  <-> exactly_one_given (ReshapeNode.m_imageLayout (self s)).
Proof.
  destruct s as [[b input m [w h c]] st]. unfold exactly_one_given. cbn.
  enough (wp ReshapeNode.InferImageDimensions
            (fun o _ => o = Throw (RuntimeError "At least two image dimensions must be specified.")
                        <-> (w <> 0 /\ h = 0 /\ c = 0) \/ (w = 0 /\ h <> 0 /\ c = 0)
                            \/ (w = 0 /\ h = 0 /\ c <> 0))
            (mkMachine (ReshapeNode.mk b input m (mkImageLayout w h c)) st)) as Hwp by exact Hwp.
  unfold ReshapeNode.InferImageDimensions. wp_run.
  destruct (N.ltb_spec 0 w), (N.ltb_spec 0 h), (N.ltb_spec 0 c); wp_cases;
    (split; [try discriminate; intros _; lia | try (intros; reflexivity); lia]).
Qed.


Lemma InferImageDimensions_post s :
  ReshapeNode.m_numRows (self s) < SIZE_BOUND ->
  wp ReshapeNode.InferImageDimensions
    (fun o s' =>
       o = Done tt ->
       exists il',
         s' = mkMachine (ReshapeNode.mk (ReshapeNode.node (self s))
                           (ReshapeNode.Inputs0 (self s))
                           (ReshapeNode.m_numRows (self s)) il') (heap s)
         /\ inferred (self s) il'
         /\ ReshapeNode.InferImageDimensions s' = (Done tt, s'))
    s.
Proof.
  destruct s as [[b input m [w h c]] st]. unfold inferred. cbn. intros Hm.
  unfold ReshapeNode.InferImageDimensions. wp_run.
  destruct (0 <? w) eqn:Hw, (0 <? h) eqn:Hh, (0 <? c) eqn:Hc; wp_run.
  all: try discriminate.
  1: { destruct (_ =? m) eqn:Hel; cbn; [|discriminate]. intros _.
       eexists. split; [reflexivity|]. split.
       { apply N.eqb_eq in Hel. repeat split; auto. }
       apply run_eq. wp_run. reflexivity. }
  1-3: destruct (mul64 _ _ =? 0) eqn:Hp; [discriminate|]; wp_run;
       destruct (0 <? _ mod _) eqn:Hr; wp_run; [discriminate|]; intros _;
       pose proof Hp as Hp'; apply N.eqb_neq in Hp'; pose proof Hr as Hrb;
       apply N.ltb_ge in Hr; pose proof Hr as Hmod; apply N.le_0_r in Hmod;
       destruct (elements_third m _ _ Hm Hp' Hmod) as (E1 & E2 & E3);
       (eexists; split; [reflexivity|]; split;
        [ clear Hmod Hr;
          repeat match goal with
                 | H : (0 <? _) = true |- _ => apply N.ltb_lt in H
                 | H : (0 <? _) = false |- _ => apply N.ltb_ge in H; apply N.le_0_r in H
                 end;
          repeat split; cbn; intros; try assumption; try reflexivity; try congruence;
          try (exfalso; match goal with H : _ = mkImageLayout 0 0 0 |- _ => injection H; lia end)
        | apply run_eq; wp_run; destruct (0 <? m / _) eqn:Hq; wp_run;
          rewrite ?E1, ?E2, ?E3, ?N.eqb_refl; reflexivity ]).
  intros _. eexists. split; [reflexivity|].
  repeat match goal with
         | H : (0 <? _) = false |- _ => apply N.ltb_ge in H; apply N.le_0_r in H
         end.
  subst. split; [|reflexivity].
  repeat split; cbn; intros; congruence.
Qed.


(** X2. When the inference of the image dimensions completes, on a node
    whose row count fits in [size_t], it has changed nothing but the hint of
    the node; the dimensions that were given are kept, a hint that gives
    nothing stays empty, and any other hint now has exactly [m_numRows]
    elements: the missing dimension is the exact quotient. *)
Theorem InferImageDimensions_completes_the_hint s s' :
  ReshapeNode.m_numRows (self s) < SIZE_BOUND ->
  ReshapeNode.InferImageDimensions s = (Done tt, s') ->
  heap s' = heap s
  /\ ReshapeNode.node (self s') = ReshapeNode.node (self s)
  /\ ReshapeNode.Inputs0 (self s') = ReshapeNode.Inputs0 (self s)
  /\ ReshapeNode.m_numRows (self s') = ReshapeNode.m_numRows (self s)
  /\ inferred (self s) (ReshapeNode.m_imageLayout (self s')).
Proof.
  intros Hm Hrun. pose proof (InferImageDimensions_post s Hm) as Hwp.
  unfold wp in Hwp. rewrite Hrun in Hwp.
  cbn [fst snd] in Hwp.
  destruct (Hwp eq_refl) as (il' & Heq & Hinf & Hagain). subst s'.
  cbn [self heap ReshapeNode.node ReshapeNode.Inputs0 ReshapeNode.m_numRows
         ReshapeNode.m_imageLayout].
  repeat (split; [first [reflexivity | assumption]|]). assumption.
Qed.

(** X3. The inference of the image dimensions is stable: validation runs it
    on every pass, and once it has completed, running it again completes
    and changes nothing, although the first run has overwritten the hint of
    the node. *)
Theorem InferImageDimensions_is_stable s s' :
  ReshapeNode.m_numRows (self s) < SIZE_BOUND ->
  ReshapeNode.InferImageDimensions s = (Done tt, s') ->
  ReshapeNode.InferImageDimensions s' = (Done tt, s').
Proof.
  intros Hm Hrun. pose proof (InferImageDimensions_post s Hm) as Hwp.
  unfold wp in Hwp. rewrite Hrun in Hwp.
  cbn [fst snd] in Hwp.
  destruct (Hwp eq_refl) as (il' & Heq & Hinf & Hagain). subst s'. exact Hagain.
Qed.
End ImageHints.

Section ReshapeImage.
Context {E : Type} `{!ElemType E}.
Implicit Types (s : Machine E ReshapeNode.t) (n : ReshapeNode.t) (st : Store E).



End ReshapeImage.

Lemma wp_pure {S A} (c : M S A) (P : Prop) (s : S) :
  P -> wp c (fun o _ => match o with Done _ => P | Throw _ => True end) s.
Proof. unfold wp. destruct (fst (c s)); auto. Qed.

Section ReshapeFactor.
Context {E : Type} `{!ElemType E}.
Implicit Types (s : Machine E ReshapeNode.t) (n : ReshapeNode.t) (st : Store E).

Lemma Reshape_Validate_final_divides (ndebug : bool) n st s' (inputValues : Matrix E) :
  matrices st !! in_values (ReshapeNode.Inputs0 n) = Some inputValues ->
  ReshapeNode.Validate ndebug true (mkMachine n st) = (Done tt, s') ->
  (ReshapeNode.m_numRows n =? 0) = false
  /\ ((numRows inputValues <? ReshapeNode.m_numRows n) = true ->
      (numRows inputValues =? 0) = false
      /\ ReshapeNode.m_numRows n mod numRows inputValues = 0)
  /\ ((ReshapeNode.m_numRows n <? numRows inputValues) = true ->
      numRows inputValues mod ReshapeNode.m_numRows n = 0).
Proof.
  destruct n as [b input m il], inputValues as [r c a]. cbn. intros Hin.
  apply (run_done _ (fun _ _ => _)).
  unfold ReshapeNode.Validate, in_HasMBLayout.
  wp_cases; try exact I.
  all: apply wp_pure;
    repeat match goal with
           | H : negb (_ mod _ =? 0) = false |- _ =>
               apply negb_false_iff in H; apply N.eqb_eq in H
           end;
    repeat split; intros; try reflexivity; try discriminate; assumption.
Qed.

End ReshapeFactor.


Section Frame.
Context {E : Type} `{!ElemType E} {T : Type} `{!Derived T}.

Lemma validation_frame_refl (s : Machine E T) : validation_frame s s.
Proof. repeat split; auto. Qed.

Lemma validation_frame_trans (s1 s2 s3 : Machine E T) :
  validation_frame s1 s2 -> validation_frame s2 s3 -> validation_frame s1 s3.
Proof.
  intros (Hv & Hg & Hm & Hl & He) (Hv' & Hg' & Hm' & Hl' & He').
  repeat split; try congruence.
  - intros l Hne. rewrite Hm' by congruence. now apply Hm.
  - auto.
  - now transitivity (stderr (heap s2)).
Qed.
End Frame.

Lemma lookup_insert_fresh (layouts : gmap loc MBLayout) (l : loc) (y z : MBLayout) :
  layouts !! l = Some y -> <[fresh (dom layouts) := z]> layouts !! l = Some y.
Proof.
  intros Hl. rewrite lookup_insert_ne; [assumption|].
  intros <-. apply (is_fresh (dom layouts)). apply elem_of_dom. eauto.
Qed.

Ltac frame_done :=
  repeat split; cbn; intros;
  rewrite ?lookup_insert_ne by congruence;
  try reflexivity; try assumption; try (now apply prefix_app_r);
  try (now apply lookup_insert_fresh).

Section ReshapeFrame.
Context {E : Type} `{!ElemType E}.
Implicit Types (s : Machine E ReshapeNode.t) (n : ReshapeNode.t) (st : Store E).

Lemma Reshape_InferImageDimsFromInputs_frame s :
  wp ReshapeNode.InferImageDimsFromInputs
    (fun _ s' => validation_frame s s'
                 /\ ReshapeNode.Inputs0 (self s') = ReshapeNode.Inputs0 (self s)
                 /\ ReshapeNode.m_numRows (self s') = ReshapeNode.m_numRows (self s))
    s.
Proof.
  destruct s as [[b input m il] st].
  unfold ReshapeNode.InferImageDimsFromInputs, ReshapeNode.InferImageDimensions.
  wp_cases; (split; [frame_done | auto]).
Qed.

Lemma Reshape_Validate_frame (ndebug isFinal : bool) s :
  wp (ReshapeNode.Validate ndebug isFinal)
    (fun _ s' => validation_frame s s'
                 /\ ReshapeNode.Inputs0 (self s') = ReshapeNode.Inputs0 (self s)
                 /\ ReshapeNode.m_numRows (self s') = ReshapeNode.m_numRows (self s))
    s.
Proof.
  destruct s as [[b input m il] st].
  assert (Hrest : forall s1,
             validation_frame (mkMachine (ReshapeNode.mk b input m il) st) s1
             /\ ReshapeNode.Inputs0 (self s1) = input /\ ReshapeNode.m_numRows (self s1) = m ->
             wp ReshapeNode.InferImageDimsFromInputs
               (fun _ s' => validation_frame (mkMachine (ReshapeNode.mk b input m il) st) s'
                            /\ ReshapeNode.Inputs0 (self s') = input
                            /\ ReshapeNode.m_numRows (self s') = m) s1).
  { intros s1 (Hf & Hi & Hm). eapply wp_mono; [|apply Reshape_InferImageDimsFromInputs_frame].
    cbn. intros _ s2 (Hf' & Hi' & Hm'). split; [|split; congruence].
    eapply validation_frame_trans; eassumption. }
  unfold ReshapeNode.Validate, in_HasMBLayout.
  wp_cases; try apply Hrest; (split; [frame_done | auto]).
Qed.
End ReshapeFrame.

Section OtherFrames.
Context {E : Type} `{!ElemType E}.

Lemma RowSlice_Validate_frame (isFinal : bool) (s : Machine E RowSliceNode.t) :
  wp (RowSliceNode.Validate isFinal) (fun _ s' => validation_frame s s') s.
Proof.
  destruct s as [[b input start rows] st].
  unfold RowSliceNode.Validate, RowSliceNode.InferImageDimsFromInputs.
  wp_cases; frame_done.
Qed.

Lemma RowRepeat_Validate_frame (isFinal : bool) (s : Machine E RowRepeatNode.t) :
  wp (RowRepeatNode.Validate isFinal) (fun _ s' => validation_frame s s') s.
Proof.
  destruct s as [[b input r] st].
  unfold RowRepeatNode.Validate, RowRepeatNode.InferImageDimsFromInputs.
  wp_cases; frame_done.
Qed.

Lemma RowStack_Validate_loop_frame (isFinal : bool) (numCols0 : N) (fuel : nat) :
  forall (i : nat) (totalRows : N) (s : Machine E RowStackNode.t),
    wp (RowStackNode.Validate_loop isFinal numCols0 fuel i totalRows)
      (fun _ s' => validation_frame s s') s.
Proof.
  induction fuel as [|fuel IH]; intros i totalRows [[b inputs v] st];
    cbn [RowStackNode.Validate_loop].
  - wp_run. frame_done.
  - wp_cases;
      try (eapply wp_mono; [|apply IH]; cbn; intros _ s2 Hf;
           (eapply validation_frame_trans; [|exact Hf]));
      frame_done.
Qed.

Lemma RowStack_Validate_frame (isFinal : bool) (s : Machine E RowStackNode.t) :
  wp (RowStackNode.Validate isFinal) (fun _ s' => validation_frame s s') s.
Proof.
  destruct s as [[b inputs v] st].
  unfold RowStackNode.Validate, RowStackNode.InferImageDimsFromInputs.
  wp_run.
  destruct (inputs !! 0%nat) as [input0|]; [|frame_done].
  wp_run. destruct (matrices st !! in_values input0) as [m0|]; [|frame_done].
  wp_run.
  eapply wp_mono; [|apply RowStack_Validate_loop_frame].
  cbn beta. intros [totalRows|e] s1 Hf;
    [|eapply validation_frame_trans; [|exact Hf]; frame_done].
  assert (Hf0 : validation_frame
                  (mkMachine (RowStackNode.mk b inputs v) st) s1).
  { eapply validation_frame_trans; [|exact Hf]. frame_done. }
  clear Hf. destruct s1 as [[b1 inputs1 v1] st1].
  wp_cases; (eapply validation_frame_trans; [exact Hf0|]); frame_done.
Qed.
End OtherFrames.

Section FrameTheorems.
Context {E : Type} `{!ElemType E}.

(** X5. A validation pass of any of the four nodes, whether it completes or
    stops with an exception, writes no buffer other than the value buffer of
    the node itself: the buffers of the inputs and all gradient buffers are
    as before; it keeps the buffer pointers of the node, changes no layout
    that existed (Reshape may allocate a new one), and only adds lines to
    [stderr]. *)
Theorem validation_writes_only_the_own_buffer :
  (forall (ndebug isFinal : bool) (s : Machine E ReshapeNode.t),
      validation_frame s (snd (ReshapeNode.Validate ndebug isFinal s)))
  /\ (forall (isFinal : bool) (s : Machine E RowSliceNode.t),
         validation_frame s (snd (RowSliceNode.Validate isFinal s)))
  /\ (forall (isFinal : bool) (s : Machine E RowStackNode.t),
         validation_frame s (snd (RowStackNode.Validate isFinal s)))
  /\ (forall (isFinal : bool) (s : Machine E RowRepeatNode.t),
         validation_frame s (snd (RowRepeatNode.Validate isFinal s))).
Proof.
  split; [|split; [|split]].
  - intros ndebug isFinal s. apply (Reshape_Validate_frame ndebug isFinal s).
  - intros isFinal s. apply (RowSlice_Validate_frame isFinal s).
  - intros isFinal s. apply (RowStack_Validate_frame isFinal s).
  - intros isFinal s. apply (RowRepeat_Validate_frame isFinal s).
Qed.

(** X6. After a final validation pass of Reshape that has completed,
    [factor()] completes and is integral: it is at least 1, and [m_numRows]
    is [factor()] times the row count of the input when the node stacks
    ([weStack()]), the row count of the input is [factor()] times
    [m_numRows] otherwise.  The buffer of the input is assumed not to be
    the buffer of the node. *)
Theorem final_validation_makes_the_factor_integral (ndebug : bool) (n : ReshapeNode.t)
    (st : Store E) (s' : Machine E ReshapeNode.t) (inputValues : Matrix E) :
  matrices st !! in_values (ReshapeNode.Inputs0 n) = Some inputValues ->
  in_values (ReshapeNode.Inputs0 n) <> m_functionValues (ReshapeNode.node n) ->
  ReshapeNode.Validate ndebug true (mkMachine n st) = (Done tt, s') ->
  exists K,
    ReshapeNode.factor s' = (Done K, s')
    /\ ReshapeNode.weStack s' = (Done (numRows inputValues <? ReshapeNode.m_numRows n), s')
    /\ 1 <= K
    /\ (if numRows inputValues <? ReshapeNode.m_numRows n
        then ReshapeNode.m_numRows n = K * numRows inputValues
        else numRows inputValues = K * ReshapeNode.m_numRows n).
Proof.
  intros Hin Hsep Hrun.
  destruct (Reshape_Validate_final_divides ndebug n st s' inputValues Hin Hrun)
    as (Hm & Hstack & Hunstack).
  pose proof (Reshape_Validate_frame ndebug true (mkMachine n st)) as Hf.
  unfold wp in Hf. rewrite Hrun in Hf. cbn [fst snd self heap] in Hf.
  destruct Hf as ((_ & _ & Hmat & _ & _) & Hinput & Hrows).
  cbn [self heap base ReshapeNode.derived] in Hmat.
  specialize (Hmat _ Hsep). rewrite Hin in Hmat.
  destruct s' as [[b' input' m' il'] st']. cbn in Hinput, Hrows, Hmat. subst input' m'.
  destruct n as [b input m il], inputValues as [r c a]. cbn in *.
  destruct (r <? m) eqn:Hlt.
  - destruct (Hstack eq_refl) as (Hr & Hmod).
    exists (m / r). apply N.ltb_lt in Hlt. pose proof Hr as Hr'. apply N.eqb_neq in Hr'.
    split; [apply run_eq; wp_run; replace (r <? m) with true by (symmetry; now apply N.ltb_lt);
            wp_run; reflexivity|].
    split; [apply run_eq; wp_run; f_equal; f_equal; now apply N.ltb_lt|].
    pose proof (exact_quotient m r Hr' Hmod) as Hq. split; [|lia].
    destruct (m / r); [lia|lia].
  - apply N.ltb_ge in Hlt. pose proof Hm as Hm'. apply N.eqb_neq in Hm'.
    assert (Hmod : r mod m = 0).
    { destruct (N.ltb_spec m r) as [Hmr|Hmr]; [now apply Hunstack|].
      assert (r = m) as -> by lia. now apply N.Div0.mod_same. }
    exists (r / m).
    split; [apply run_eq; wp_run; replace (r <? m) with false by (symmetry; now apply N.ltb_ge);
            wp_run; reflexivity|].
    split; [apply run_eq; wp_run; f_equal; f_equal; now apply N.ltb_ge|].
    pose proof (exact_quotient r m Hm' Hmod) as Hq. split; [|lia].
    destruct (r / m); [lia|lia].
Qed.
End FrameTheorems.

Section ReshapeSizes.
Context {E : Type} `{!ElemType E}.
Implicit Types (s : Machine E ReshapeNode.t) (n : ReshapeNode.t) (st : Store E).

Lemma Reshape_InferImageDimsFromInputs_store s :
  wp ReshapeNode.InferImageDimsFromInputs
    (fun _ s' => matrices (heap s') = matrices (heap s)
                 /\ m_functionValues (ReshapeNode.node (self s'))
                    = m_functionValues (ReshapeNode.node (self s))
                 /\ m_pMBLayout (ReshapeNode.node (self s'))
                    = m_pMBLayout (ReshapeNode.node (self s))
                 /\ ReshapeNode.Inputs0 (self s') = ReshapeNode.Inputs0 (self s)
                 /\ ReshapeNode.m_numRows (self s') = ReshapeNode.m_numRows (self s))
    s.
Proof.
  destruct s as [[b input m il] st].
  unfold ReshapeNode.InferImageDimsFromInputs, ReshapeNode.InferImageDimensions.
  wp_cases; auto 10.
Qed.

(** The state that a completed validation pass of Reshape leaves. *)
Lemma Reshape_Validate_sizes (ndebug isFinal : bool) n st s1 (inputValues : Matrix E) :
  matrices st !! in_values (ReshapeNode.Inputs0 n) = Some inputValues ->
  ReshapeNode.Validate ndebug isFinal (mkMachine n st) = (Done tt, s1) ->
  ReshapeNode.m_numRows n <> 0
  /\ matrices (heap s1)
     = <[m_functionValues (ReshapeNode.node n)
         := Resize (ReshapeNode.m_numRows n)
              (mul64 (numCols inputValues) (numRows inputValues) / ReshapeNode.m_numRows n)]>
         (matrices st)
  /\ m_functionValues (ReshapeNode.node (self s1)) = m_functionValues (ReshapeNode.node n)
  /\ ReshapeNode.Inputs0 (self s1) = ReshapeNode.Inputs0 n
  /\ ReshapeNode.m_numRows (self s1) = ReshapeNode.m_numRows n.
Proof.
  destruct n as [b input m il], inputValues as [r c a]. cbn. intros Hin.
  apply (run_done _ (fun _ s2 =>
           m <> 0
           /\ matrices (heap s2)
              = <[m_functionValues b := Resize m (mul64 c r / m)]> (matrices st)
           /\ m_functionValues (ReshapeNode.node (self s2)) = m_functionValues b
           /\ ReshapeNode.Inputs0 (self s2) = input
           /\ ReshapeNode.m_numRows (self s2) = m)).
  assert (Hrest : (m =? 0) = false -> forall s2,
             matrices (heap s2) = <[m_functionValues b := Resize m (mul64 c r / m)]> (matrices st) ->
             m_functionValues (ReshapeNode.node (self s2)) = m_functionValues b ->
             ReshapeNode.Inputs0 (self s2) = input ->
             ReshapeNode.m_numRows (self s2) = m ->
             wp ReshapeNode.InferImageDimsFromInputs
               (fun o s1 =>
                  match o with
                  | Done _ =>
                      m <> 0
                      /\ matrices (heap s1)
                         = <[m_functionValues b := Resize m (mul64 c r / m)]> (matrices st)
                      /\ m_functionValues (ReshapeNode.node (self s1)) = m_functionValues b
                      /\ ReshapeNode.Inputs0 (self s1) = input
                      /\ ReshapeNode.m_numRows (self s1) = m
                  | Throw _ => True
                  end) s2).
  { intros Hm s2 H1 H2 H3 H4.
    eapply wp_mono; [|apply Reshape_InferImageDimsFromInputs_store].
    cbn beta. intros [[]|e] s3 (G1 & G2 & _ & G3 & G4); [|exact I].
    apply N.eqb_neq in Hm. repeat split; congruence. }
  unfold ReshapeNode.Validate, in_HasMBLayout.
  wp_cases; try exact I; apply Hrest; auto.
Qed.

(** X7. Whenever a validation pass of Reshape completes, final or not, the
    buffer of the node has [m_numRows] rows and [cols * rows / m_numRows]
    columns, the product being the one [size_t] computes and the quotient
    rounded down; [m_numRows] is not 0, and the input and [m_numRows] of the
    node are unchanged. *)
Theorem Reshape_Validate_sizes_the_output (ndebug isFinal : bool) n st s1
    (inputValues : Matrix E) :
  matrices st !! in_values (ReshapeNode.Inputs0 n) = Some inputValues ->
  ReshapeNode.Validate ndebug isFinal (mkMachine n st) = (Done tt, s1) ->
  exists own,
    matrices (heap s1) !! m_functionValues (ReshapeNode.node (self s1)) = Some own
    /\ numRows own = ReshapeNode.m_numRows n
    /\ numCols own
       = mul64 (numCols inputValues) (numRows inputValues) / ReshapeNode.m_numRows n
    /\ ReshapeNode.m_numRows n <> 0
    /\ ReshapeNode.m_numRows (self s1) = ReshapeNode.m_numRows n
    /\ ReshapeNode.Inputs0 (self s1) = ReshapeNode.Inputs0 n.
Proof.
  intros Hin Hrun.
  destruct (Reshape_Validate_sizes ndebug isFinal n st s1 inputValues Hin Hrun)
    as (Hm & Hmat & Hown & Hinput & Hrows).
  eexists. rewrite Hmat, Hown. split; [apply lookup_insert_eq|].
  repeat split; assumption.
Qed.

(** X8. [UpdateFunctionMBSize] right after a completed validation pass, with
    the input unchanged: it completes, returns its argument, leaves the node
    as it is and the buffer of the node with the dimensions validation gave
    it; without a layout it changes nothing at all (it only verifies the
    size).  The buffer of the input is assumed not to be the buffer of the
    node. *)
Theorem UpdateFunctionMBSize_after_Validate (ndebug isFinal : bool) n st s1
    (inputValues : Matrix E) (numCols0 : N) :
  matrices st !! in_values (ReshapeNode.Inputs0 n) = Some inputValues ->
  in_values (ReshapeNode.Inputs0 n) <> m_functionValues (ReshapeNode.node n) ->
  ReshapeNode.Validate ndebug isFinal (mkMachine n st) = (Done tt, s1) ->
  exists s2 own1 own2,
    ReshapeNode.UpdateFunctionMBSize numCols0 s1 = (Done numCols0, s2)
    /\ self s2 = self s1
    /\ matrices (heap s1) !! m_functionValues (ReshapeNode.node n) = Some own1
    /\ matrices (heap s2) !! m_functionValues (ReshapeNode.node n) = Some own2
    /\ numRows own2 = numRows own1 /\ numCols own2 = numCols own1
    /\ numRows own2 = ReshapeNode.m_numRows n
    /\ (m_pMBLayout (ReshapeNode.node (self s1)) = None -> s2 = s1).
Proof.
  intros Hin Hsep Hrun.
  destruct (Reshape_Validate_sizes ndebug isFinal n st s1 inputValues Hin Hrun)
    as (Hm & Hmat & Hown & Hinput & Hrows).
  destruct s1 as [[b1 input1 m1 il1] [mat1 lay1 err1]].
  destruct n as [b input m il], inputValues as [r c a].
  cbn in Hin, Hsep, Hm, Hmat, Hown, Hinput, Hrows.
  cbn [self heap matrices ReshapeNode.node ReshapeNode.m_numRows]. subst mat1 input1 m1.
  assert (Hmb : (m =? 0) = false) by now apply N.eqb_neq.
  assert (Hin1 : <[m_functionValues b := Resize m (mul64 c r / m)]> (matrices st)
                 !! in_values input = Some (mkMatrix r c a)).
  { now rewrite lookup_insert_ne by congruence. }
  assert (Hown1 : <[m_functionValues b := Resize m (mul64 c r / m)]> (matrices st)
                  !! m_functionValues b1 = Some (Resize m (mul64 c r / m))).
  { rewrite Hown. apply lookup_insert_eq. }
  match goal with |- context [ReshapeNode.UpdateFunctionMBSize ?a ?s] =>
    pattern (ReshapeNode.UpdateFunctionMBSize a s) end.
  apply run_post. unfold ReshapeNode.UpdateFunctionMBSize. wp_run.
  destruct (m_pMBLayout b1) as [l|] eqn:Hl; wp_run.
  - eexists _, _, _. split; [reflexivity|]. split; [reflexivity|].
    split; [apply lookup_insert_eq|].
    split; [cbn [heap matrices]; rewrite Hown; apply lookup_insert_eq|].
    repeat split; try reflexivity. discriminate.
  - rewrite !N.eqb_refl. wp_run.
    eexists _, _, _. split; [reflexivity|]. split; [reflexivity|].
    split; [apply lookup_insert_eq|].
    split; [apply lookup_insert_eq|]. repeat split; reflexivity.
Qed.

(** X9. With [m_numRows = 0], as the constructor without a row count leaves
    it, not only validation divides by zero: [UpdateFunctionMBSize] and
    [factor()] do for every input, forward evaluation does whenever the
    input has a row, and [OnEvaluateBeginIteration] does whenever the node
    has a layout; each stops at the division with the node and the store
    unchanged. *)
Theorem zero_numRows_stops_every_pass (n : ReshapeNode.t) (st : Store E)
    (inputValues : Matrix E) :
  ReshapeNode.m_numRows n = 0 ->
  matrices st !! in_values (ReshapeNode.Inputs0 n) = Some inputValues ->
  (forall numCols0,
      ReshapeNode.UpdateFunctionMBSize numCols0 (mkMachine n st)
      = (Throw DivideByZero, mkMachine n st))
  /\ ReshapeNode.factor (mkMachine n st) = (Throw DivideByZero, mkMachine n st)
  /\ (numRows inputValues <> 0 ->
      forall ndebug frameRange,
        ReshapeNode.EvaluateThisNode ndebug frameRange (mkMachine n st)
        = (Throw DivideByZero, mkMachine n st))
  /\ (forall l li y yi,
        m_pMBLayout (ReshapeNode.node n) = Some l -> layouts st !! l = Some y ->
        in_layout (ReshapeNode.Inputs0 n) = Some li -> layouts st !! li = Some yi ->
        ReshapeNode.OnEvaluateBeginIteration (mkMachine n st)
        = (Throw DivideByZero, mkMachine n st)).
Proof.
  destruct n as [b input m il], inputValues as [r c a]. cbn. intros -> Hin.
  split; [|split; [|split]].
  - intros numCols0. apply run_eq. unfold ReshapeNode.UpdateFunctionMBSize. wp_run.
    reflexivity.
  - apply run_eq. wp_run. replace (r <? 0) with false by (symmetry; apply N.ltb_ge; lia).
    wp_run. reflexivity.
  - intros Hr ndebug fr. destruct r as [|p]; [contradiction|].
    apply run_eq. unfold ReshapeNode.EvaluateThisNode. wp_run. reflexivity.
  - intros l li y yi Hl Hy Hli Hyi. apply run_eq.
    unfold ReshapeNode.OnEvaluateBeginIteration. wp_run. reflexivity.
Qed.
End ReshapeSizes.

Section Slices.
Context {E : Type} `{!ElemType E}.
Implicit Types (o m : Matrix E).

Lemma at_ColumnSlice m (first n i j : N) :
  i < numRows m -> j < n -> at_ (ColumnSlice m first n) i j = at_ m i (first + j).
Proof. intros Hi Hj. unfold ColumnSlice. now rewrite at_build. Qed.

Lemma at_SetColumnSlice o (s : Matrix E) (first n i j : N) :
  i < numRows o -> j < numCols o ->
  at_ (SetColumnSlice o first n s) i j
  = if (first <=? j) && (j <? first + n) then at_ s i (j - first) else at_ o i j.
Proof. intros Hi Hj. unfold SetColumnSlice. now rewrite at_build. Qed.
End Slices.

Section RowSlice.
Context {E : Type} `{!ElemType E}.
Implicit Types (st : Store E).

Lemma RowSlice_Validate_result (isFinal : bool) b input (start rows : N) st
    (inputValues : Matrix E) :
  matrices st !! in_values input = Some inputValues ->
  (isFinal = true -> add64 start rows <= numRows inputValues) ->
  exists b' err,
    RowSliceNode.Validate isFinal (mkMachine (RowSliceNode.mk b input start rows) st)
    = (Done tt,
       mkMachine (RowSliceNode.mk b' input start rows)
         (mkStore (<[m_functionValues b := Resize rows (numCols inputValues)]> (matrices st))
                  (layouts st) err))
    /\ m_functionValues b' = m_functionValues b
    /\ m_gradientValues b' = m_gradientValues b
    /\ m_pMBLayout b' = in_layout input
    /\ m_outputImageLayout b' = mkImageLayout (width (in_image input)) rows
                                  (channels (in_image input)).
Proof.
  intros Hin Hfit.
  match goal with |- context [RowSliceNode.Validate ?f ?s] =>
    pattern (RowSliceNode.Validate f s) end.
  apply run_post. unfold RowSliceNode.Validate, RowSliceNode.InferImageDimsFromInputs.
  destruct isFinal.
  - assert (Hok : (numRows inputValues <? add64 start rows) = false).
    { apply N.ltb_ge. now apply Hfit. }
    wp_run. destruct (negb _); wp_run; eexists _, _; (split; [reflexivity|]); cbn; destruct (in_layout input); auto.
  - wp_run. destruct (negb _); wp_run; eexists _, _; (split; [reflexivity|]); cbn; destruct (in_layout input); auto.
Qed.

Lemma RowSlice_forward (isFinal : bool) (n : RowSliceNode.t) st
    (inputValues : Matrix E) :
  matrices st !! in_values (RowSliceNode.Inputs0 n) = Some inputValues ->
  in_values (RowSliceNode.Inputs0 n) <> m_functionValues (RowSliceNode.node n) ->
  RowSliceNode.m_startIndex n + RowSliceNode.m_numRows n <= numRows inputValues ->
  numRows inputValues < SIZE_BOUND ->
  exists s1 s2 out,
    RowSliceNode.Validate isFinal (mkMachine n st) = (Done tt, s1)
    /\ RowSliceNode.EvaluateThisNode AllFrames s1 = (Done tt, s2)
    /\ matrices (heap s2) !! m_functionValues (RowSliceNode.node n) = Some out
    /\ matrices (heap s2) !! in_values (RowSliceNode.Inputs0 n) = Some inputValues
    /\ numRows out = RowSliceNode.m_numRows n
    /\ numCols out = numCols inputValues
    /\ forall i j, i < RowSliceNode.m_numRows n -> j < numCols inputValues ->
         at_ out i j = at_ inputValues (RowSliceNode.m_startIndex n + i) j.
Proof.
  destruct n as [b input start rows]. cbn. intros Hin Hsep Hfit Hbound.
  assert (Hadd : add64 start rows = start + rows).
  { unfold add64, wrap64. apply N.mod_small. lia. }
  destruct (RowSlice_Validate_result isFinal b input start rows st inputValues Hin)
    as (b' & err & Hval & Hb' & _ & _ & _); [intros _; lia|].
  destruct b' as [name' values' gradients' layout' imgIn' imgOut']. cbn in Hb'. subst values'.
  eexists _, _, _. split; [exact Hval|].
  split.
  { apply run_eq. unfold RowSliceNode.EvaluateThisNode. wp_run.
    rewrite lookup_insert_ne by congruence. wp_run.
    rewrite lookup_insert_eq. wp_run. reflexivity. }
  cbn. split; [apply lookup_insert_eq|].
  split; [rewrite !lookup_insert_ne by congruence; exact Hin|].
  split; [reflexivity|]. split; [reflexivity|].
  intros i j Hi Hj.
  rewrite at_SetColumnSlice_all by (cbn; assumption).
  unfold AssignRowSliceValuesOf. cbn [numRows numCols ColumnSlice build].
  rewrite at_build by assumption.
  apply at_ColumnSlice_all; lia.
Qed.

(** X10. RowSlice whose row range lies within the input: every validation
    pass completes, and forward evaluation over all frames then leaves in
    the buffer of the node [m_numRows] rows and the columns of the input,
    row [i] being row [m_startIndex + i] of the input; the buffer of the
    input is not written.  The buffer of the input is assumed not to be the
    buffer of the node. *)
Theorem RowSlice_output_is_the_row_range (isFinal : bool) (n : RowSliceNode.t) st
    (inputValues : Matrix E) :
  matrices st !! in_values (RowSliceNode.Inputs0 n) = Some inputValues ->
  in_values (RowSliceNode.Inputs0 n) <> m_functionValues (RowSliceNode.node n) ->
  RowSliceNode.m_startIndex n + RowSliceNode.m_numRows n <= numRows inputValues ->
  numRows inputValues < SIZE_BOUND ->
  exists s1 s2 out,
    RowSliceNode.Validate isFinal (mkMachine n st) = (Done tt, s1)
    /\ RowSliceNode.EvaluateThisNode AllFrames s1 = (Done tt, s2)
    /\ matrices (heap s2) !! m_functionValues (RowSliceNode.node n) = Some out
    /\ matrices (heap s2) !! in_values (RowSliceNode.Inputs0 n) = Some inputValues
    /\ numRows out = RowSliceNode.m_numRows n
    /\ numCols out = numCols inputValues
    /\ forall i j, i < RowSliceNode.m_numRows n -> j < numCols inputValues ->
         at_ out i j = at_ inputValues (RowSliceNode.m_startIndex n + i) j.
Proof.
  destruct n as [b input start rows]. cbn. intros Hin Hsep Hfit Hbound.
  assert (Hadd : add64 start rows = start + rows).
  { unfold add64, wrap64. apply N.mod_small. lia. }
  destruct (RowSlice_Validate_result isFinal b input start rows st inputValues Hin)
    as (b' & err & Hval & Hb' & _ & _ & _); [intros _; lia|].
  destruct b' as [name' values' gradients' layout' imgIn' imgOut']. cbn in Hb'. subst values'.
  eexists _, _, _. split; [exact Hval|].
  split.
  { apply run_eq. unfold RowSliceNode.EvaluateThisNode. wp_run.
    rewrite lookup_insert_ne by congruence. wp_run.
    rewrite lookup_insert_eq. wp_run. reflexivity. }
  cbn. split; [apply lookup_insert_eq|].
  split; [rewrite !lookup_insert_ne by congruence; exact Hin|].
  split; [reflexivity|]. split; [reflexivity|].
  intros i j Hi Hj.
  rewrite at_SetColumnSlice_all by (cbn; assumption).
  unfold AssignRowSliceValuesOf. cbn [numRows numCols ColumnSlice build].
  rewrite at_build by assumption.
  apply at_ColumnSlice_all; lia.
Qed.

(** X11. The range check of RowSlice adds [m_startIndex] and [m_numRows] in
    [size_t]: when the sum passes [2^64] and what is left of it does not
    exceed the row count of the input, the final validation pass completes
    although the row range ends beyond the last row of the input. *)
Theorem RowSlice_range_check_wraps (n : RowSliceNode.t) st (inputValues : Matrix E) :
  matrices st !! in_values (RowSliceNode.Inputs0 n) = Some inputValues ->
  RowSliceNode.m_startIndex n < SIZE_BOUND -> RowSliceNode.m_numRows n < SIZE_BOUND ->
  numRows inputValues < SIZE_BOUND ->
  SIZE_BOUND <= RowSliceNode.m_startIndex n + RowSliceNode.m_numRows n ->
  RowSliceNode.m_startIndex n + RowSliceNode.m_numRows n - SIZE_BOUND <= numRows inputValues ->
  numRows inputValues < RowSliceNode.m_startIndex n + RowSliceNode.m_numRows n
  /\ exists s', RowSliceNode.Validate true (mkMachine n st) = (Done tt, s').
Proof.
  destruct n as [b input start rows]. cbn. intros Hin Hs Hr Hrows Hwrap Hfit.
  split; [lia|].
  assert (Hadd : add64 start rows = start + rows - SIZE_BOUND).
  { unfold add64, wrap64. symmetry. apply (N.mod_unique _ _ 1); lia. }
  destruct (RowSlice_Validate_result true b input start rows st inputValues Hin)
    as (b' & err & Hval & _); [intros _; lia|].
  eauto.
Qed.

(** X12. Forward evaluation of RowSlice for one time step [t], the node
    having the layout of its input with [nS] parallel sequences (one
    sequence when there is no layout): the columns [t * nS .. t * nS + nS - 1]
    of the buffer of the node receive the rows of the slice of the same
    columns of the input, and every other column is left as it was. *)
Theorem RowSlice_evaluates_one_time_step (n : RowSliceNode.t) st (t nS : N)
    (inputValues values : Matrix E) :
  matrices st !! in_values (RowSliceNode.Inputs0 n) = Some inputValues ->
  matrices st !! m_functionValues (RowSliceNode.node n) = Some values ->
  in_values (RowSliceNode.Inputs0 n) <> m_functionValues (RowSliceNode.node n) ->
  m_pMBLayout (RowSliceNode.node n) = in_layout (RowSliceNode.Inputs0 n) ->
  match in_layout (RowSliceNode.Inputs0 n) with
  | Some l => exists nT, layouts st !! l = Some (mkMBLayout nS nT)
  | None => nS = 1
  end ->
  numRows values = RowSliceNode.m_numRows n -> numCols values = numCols inputValues ->
  t * nS + nS <= numCols inputValues -> numCols inputValues < SIZE_BOUND ->
  RowSliceNode.m_startIndex n + RowSliceNode.m_numRows n <= numRows inputValues ->
  exists out,
    RowSliceNode.EvaluateThisNode (Frame t) (mkMachine n st)
    = (Done tt,
       mkMachine n
         (mkStore (<[m_functionValues (RowSliceNode.node n) := out]> (matrices st))
                  (layouts st) (stderr st)))
    /\ numRows out = numRows values /\ numCols out = numCols values
    /\ forall i j, i < RowSliceNode.m_numRows n -> j < numCols inputValues ->
         at_ out i j
         = if (t * nS <=? j) && (j <? t * nS + nS)
           then at_ inputValues (RowSliceNode.m_startIndex n + i) j
           else at_ values i j.
Proof.
  destruct n as [b input start rows].
  cbn [RowSliceNode.Inputs0 RowSliceNode.node RowSliceNode.m_numRows RowSliceNode.m_startIndex].
  intros Hin Hown Hsep Hlay HnS Hr Hc Ht Hbound Hfit.
  assert (Hmul : mul64 t nS = t * nS).
  { unfold mul64, wrap64. apply N.mod_small. lia. }
  match goal with |- context [RowSliceNode.EvaluateThisNode ?f ?s] =>
    pattern (RowSliceNode.EvaluateThisNode f s) end.
  apply run_post. unfold RowSliceNode.EvaluateThisNode. wp_run.
  assert (Hpost : exists out,
    (Done tt,
     mkMachine (RowSliceNode.mk b input start rows)
       (mkStore (<[m_functionValues b
                   := SetColumnSlice values (t * nS) nS
                        (AssignRowSliceValuesOf (ColumnSlice values (t * nS) nS)
                           (ColumnSlice inputValues (t * nS) nS) start rows)]> (matrices st))
                (layouts st) (stderr st)))
    = (Done tt,
       mkMachine (RowSliceNode.mk b input start rows)
         (mkStore (<[m_functionValues b := out]> (matrices st)) (layouts st) (stderr st)))
    /\ numRows out = numRows values /\ numCols out = numCols values
    /\ forall i j, i < rows -> j < numCols inputValues ->
         at_ out i j
         = if (t * nS <=? j) && (j <? t * nS + nS)
           then at_ inputValues (start + i) j
           else at_ values i j).
  { eexists. split; [reflexivity|]. split; [reflexivity|]. split; [reflexivity|].
    intros i j Hi Hj. rewrite at_SetColumnSlice by lia.
    destruct (N.leb_spec (t * nS) j), (N.ltb_spec j (t * nS + nS)); cbn [andb];
      try reflexivity.
    unfold AssignRowSliceValuesOf. cbn [numRows numCols ColumnSlice build].
    rewrite at_build by lia. rewrite at_ColumnSlice by lia. f_equal. lia. }
  destruct (in_layout input) as [l|] eqn:Hl.
  - destruct HnS as [nT HnS]. wp_run. rewrite Hmul. exact Hpost.
  - subst nS. wp_run.
    replace (mul64 t 1) with (t * 1) by (symmetry; exact Hmul). exact Hpost.
Qed.
End RowSlice.

Lemma row_offsets_lookup (rows : list N) (i : nat) :
  (i < length rows)%nat -> row_offsets rows !! i = Some (sumN (take i rows)).
Proof.
  intros Hi. unfold row_offsets. rewrite list_lookup_fmap, lookup_seq_lt by assumption.
  reflexivity.
Qed.

Lemma row_offsets_cover (rows : list N) (x : N) :
  x < sumN rows ->
  exists i r, rows !! i = Some r
              /\ sumN (take i rows) <= x < sumN (take i rows) + r.
Proof.
  induction rows as [|r rows IH] using rev_ind; cbn; [lia|].
  rewrite sumN_app. cbn. intros Hx.
  destruct (N.ltb_spec x (sumN rows)) as [Hlt|Hge].
  - destruct (IH Hlt) as (i & r' & Hi & Hrange).
    pose proof (lookup_lt_Some _ _ _ Hi) as Hlen.
    exists i, r'. rewrite lookup_app_l by assumption.
    rewrite take_app_le by lia. auto.
  - exists (length rows), r. rewrite lookup_app_r, Nat.sub_diag by lia.
    rewrite take_app_le, take_ge by lia. split; [reflexivity | lia].
Qed.

Lemma row_offsets_disjoint (rows : list N) (x : N) (i i' : nat) (r r' : N) :
  rows !! i = Some r -> rows !! i' = Some r' ->
  sumN (take i rows) <= x < sumN (take i rows) + r ->
  sumN (take i' rows) <= x < sumN (take i' rows) + r' ->
  i = i'.
Proof.
  intros Hi Hi' Hx Hx'.
  destruct (Nat.lt_trichotomy i i') as [Hlt|[Heq|Hgt]]; [|assumption|].
  - pose proof (sumN_take_mono rows (S i) i' ltac:(lia)) as Hmono.
    rewrite (sumN_take_S _ _ _ Hi) in Hmono. lia.
  - pose proof (sumN_take_mono rows (S i') i ltac:(lia)) as Hmono.
    rewrite (sumN_take_S _ _ _ Hi') in Hmono. lia.
Qed.

Section RowStackOffsets.
Context {E : Type} `{!ElemType E}.
Implicit Types (st : Store E) (ms : list (Matrix E)) (inputs : list Input).

(** X13. The row offsets that a validation pass of RowStack leaves partition
    the rows of the output among the inputs: there is one offset per input,
    and every row of the resized buffer of the node lies in the row range
    [offset_i .. offset_i + rows_i - 1] of exactly one input [i]. *)
Theorem RowStack_offsets_partition_the_rows (isFinal : bool) b inputs (v : list N) st ms m0 :
  buffers_of st inputs ms -> ms !! 0%nat = Some m0 ->
  (isFinal = true -> Forall (fun m => numCols m = numCols m0) ms) ->
  sumN (numRows <$> ms) < SIZE_BOUND ->
  exists s1 sized,
    RowStackNode.Validate isFinal (mkMachine (RowStackNode.mk b inputs v) st) = (Done tt, s1)
    /\ matrices (heap s1) !! m_functionValues b = Some sized
    /\ length (RowStackNode.m_startRowIndices (self s1)) = length inputs
    /\ forall x, x < numRows sized ->
         exists i offset m,
           RowStackNode.m_startRowIndices (self s1) !! i = Some offset
           /\ ms !! i = Some m
           /\ offset <= x < offset + numRows m
           /\ forall i' offset' m',
                RowStackNode.m_startRowIndices (self s1) !! i' = Some offset' ->
                ms !! i' = Some m' ->
                offset' <= x < offset' + numRows m' -> i' = i.
Proof.
  intros Hbuf Hm0 Hcols Hbound.
  pose proof (Forall2_length _ _ _ Hbuf) as Hlen.
  destruct (RowStack_Validate_completes isFinal b inputs v st ms m0 Hbuf Hm0 Hcols)
    as (b' & err & Hval & Hb' & _ & _).
  rewrite Hlen, <- (length_fmap numRows ms), offsets_loop_from_start in Hval by assumption.
  cbn [fst snd] in Hval.
  set (rows := numRows <$> ms) in *.
  eexists _, _. split; [exact Hval|]. cbn [self heap matrices RowStackNode.m_startRowIndices].
  split; [apply lookup_insert_eq|].
  split. { unfold row_offsets, rows. rewrite length_fmap, length_seq, length_fmap. lia. }
  intros x Hx. unfold Resize, build in Hx. cbn [numRows] in Hx.
  destruct (row_offsets_cover rows x Hx) as (i & r & Hi & Hrange).
  pose proof (lookup_lt_Some _ _ _ Hi) as Hilen.
  unfold rows in Hi. rewrite list_lookup_fmap in Hi.
  destruct (ms !! i) as [m|] eqn:Hm; [|discriminate]. cbn in Hi. injection Hi as <-.
  exists i, (sumN (take i rows)), m.
  split; [now apply row_offsets_lookup|]. split; [exact Hm|]. split; [exact Hrange|].
  intros i' offset' m' Hoff' Hm' Hrange'.
  pose proof (lookup_lt_Some _ _ _ Hm') as Hi'len.
  rewrite row_offsets_lookup in Hoff' by (unfold rows; rewrite length_fmap; lia).
  injection Hoff' as <-.
  apply (row_offsets_disjoint rows x i' i (numRows m') (numRows m)); try assumption.
  - unfold rows. now rewrite list_lookup_fmap, Hm'.
  - unfold rows. now rewrite list_lookup_fmap, Hm.
Qed.
End RowStackOffsets.

Section Composition.
Context {E : Type} `{!ElemType E}.
Implicit Types (st : Store E) (ms : list (Matrix E)) (inputs : list Input).

Lemma RowStack_forward (isFinal : bool) b inputs (v : list N) st ms m0 :
  buffers_of st inputs ms -> ms !! 0%nat = Some m0 ->
  Forall (fun m => numCols m = numCols m0) ms ->
  Forall (fun input => in_values input <> m_functionValues b) inputs ->
  sumN (numRows <$> ms) < SIZE_BOUND ->
  exists s1 s2 sized out,
    RowStackNode.Validate isFinal (mkMachine (RowStackNode.mk b inputs v) st) = (Done tt, s1)
    /\ RowStackNode.m_startRowIndices (self s1) = row_offsets (numRows <$> ms)
    /\ matrices (heap s1) !! m_functionValues b = Some sized
    /\ numRows sized = sumN (numRows <$> ms) /\ numCols sized = numCols m0
    /\ RowStackNode.EvaluateThisNode AllFrames s1 = (Done tt, s2)
    /\ matrices (heap s2) !! m_functionValues b = Some out
    /\ numRows out = sumN (numRows <$> ms) /\ numCols out = numCols m0
    /\ forall i m r j, ms !! i = Some m -> r < numRows m -> j < numCols m0 ->
         at_ out (sumN (take i (numRows <$> ms)) + r) j = at_ m r j.
Proof.
  intros Hbuf Hm0 Hcols Hsep Hbound.
  pose proof (Forall2_length _ _ _ Hbuf) as Hlen.
  destruct (RowStack_Validate_completes isFinal b inputs v st ms m0 Hbuf Hm0 (fun _ => Hcols))
    as (b' & err & Hval & Hb' & _ & _).
  rewrite Hlen, <- (length_fmap numRows ms), offsets_loop_from_start in Hval by assumption.
  cbn [fst snd] in Hval.
  set (rows := numRows <$> ms) in *.
  set (own0 := Resize (E := E) (sumN rows) (numCols m0)) in *.
  set (st1 := mkStore (<[m_functionValues b := own0]> (matrices st)) (layouts st) err) in *.
  assert (Hbuf1 : buffers_of st1 inputs ms) by now apply buffers_of_insert.
  assert (Hown1 : matrices st1 !! m_functionValues b' = Some own0).
  { rewrite Hb'. apply lookup_insert_eq. }
  assert (Hsep' : Forall (fun input => in_values input <> m_functionValues b') inputs)
    by now rewrite Hb'.
  assert (Hoffs : length (row_offsets rows) = length inputs).
  { unfold row_offsets, rows. now rewrite length_fmap, length_seq, length_fmap. }
  pose proof (EvaluateThisNode_loop_spec b' inputs (row_offsets rows) ms Hsep' Hoffs
                (length inputs) 0%nat st1 own0 eq_refl Hown1 Hbuf1) as Hloop.
  rewrite !drop_0 in Hloop.
  destruct (stack_from_spec (sumN rows) (numCols m0) ms own0 0)
    as (Hr & Hc & _ & Hrows); try reflexivity; try assumption; try (fold rows; lia).
  assert (Hsame : (fun k => 0 + sumN (take k (numRows <$> ms))) <$> seq 0 (length ms)
                  = row_offsets rows).
  { unfold row_offsets, rows. rewrite length_fmap. apply list_fmap_ext. intros; cbn; lia. }
  cbn zeta in Hr, Hc, Hrows. rewrite Hsame in Hr, Hc, Hrows.
  eexists _, _, own0, _.
  split; [exact Hval|]. split; [reflexivity|].
  split; [cbn; apply lookup_insert_eq|]. split; [reflexivity|]. split; [reflexivity|].
  split.
  { unfold RowStackNode.EvaluateThisNode, bind, this. cbn. exact Hloop. }
  split; [cbn; rewrite Hb'; apply lookup_insert_eq|].
  split; [exact Hr|]. split; [exact Hc|].
  intros i m r j Hi Hrm Hj. rewrite <- (Hrows i m r j) by assumption. f_equal.
Qed.

(** X14. RowSlice undoes RowStack: when a RowStack node has been validated
    and evaluated, a RowSlice node on its output, with the offset of input
    [i] as start index and the row count of input [i] as row count,
    validates and evaluates to a buffer that is input [i], element by
    element. *)
Theorem RowSlice_of_RowStack_recovers_the_input (isFinal : bool) b inputs (v : list N) st ms m0
    (i : nat) (mi : Matrix E) (bs : ComputationNode) (name : string) (gradients : loc)
    (image : ImageLayout) :
  buffers_of st inputs ms -> ms !! 0%nat = Some m0 ->
  Forall (fun m => numCols m = numCols m0) ms ->
  Forall (fun input => in_values input <> m_functionValues b) inputs ->
  sumN (numRows <$> ms) < SIZE_BOUND ->
  ms !! i = Some mi ->
  m_functionValues bs <> m_functionValues b ->
  let stacked := mkInput name (m_functionValues b) gradients
                   (head (omap in_layout inputs)) image in
  let slice := RowSliceNode.mk bs stacked (sumN (take i (numRows <$> ms))) (numRows mi) in
  exists s1 s2 t1 t2 out,
    RowStackNode.Validate isFinal (mkMachine (RowStackNode.mk b inputs v) st) = (Done tt, s1)
    /\ RowStackNode.EvaluateThisNode AllFrames s1 = (Done tt, s2)
    /\ RowSliceNode.Validate isFinal (mkMachine slice (heap s2)) = (Done tt, t1)
    /\ RowSliceNode.EvaluateThisNode AllFrames t1 = (Done tt, t2)
    /\ matrices (heap t2) !! m_functionValues bs = Some out
    /\ numRows out = numRows mi /\ numCols out = numCols mi
    /\ forall r j, r < numRows mi -> j < numCols mi -> at_ out r j = at_ mi r j.
Proof.
  intros Hbuf Hm0 Hcols Hsep Hbound Hi Hsep' stacked slice.
  destruct (RowStack_forward isFinal b inputs v st ms m0 Hbuf Hm0 Hcols Hsep Hbound)
    as (s1 & s2 & sized & stackedValues & Hval & _ & _ & _ & _ & Heval & Hout & Hr & Hc & Hat).
  assert (Hci : numCols mi = numCols m0).
  { rewrite Forall_lookup in Hcols. exact (Hcols _ _ Hi). }
  assert (Hrow : (numRows <$> ms) !! i = Some (numRows mi)).
  { now rewrite list_lookup_fmap, Hi. }
  pose proof (sumN_take_S _ _ _ Hrow) as Hnext.
  pose proof (sumN_take_le (numRows <$> ms) (S i)) as Hle.
  destruct (RowSlice_forward isFinal slice (heap s2) stackedValues)
    as (t1 & t2 & out & Hval' & Heval' & Hout' & _ & Hr' & Hc' & Hat').
  - exact Hout.
  - cbn. congruence.
  - cbn. lia.
  - lia.
  - exists s1, s2, t1, t2, out. cbn in Hout', Hr', Hc', Hat'.
    split; [exact Hval|]. split; [exact Heval|]. split; [exact Hval'|].
    split; [exact Heval'|]. split; [exact Hout'|]. split; [exact Hr'|].
    split; [congruence|].
    intros r j Hrr Hj. rewrite Hat' by lia. apply Hat; [assumption..|lia].
Qed.
End Composition.

Section RoundTrip.
Context {E : Type} `{!ElemType E}.
Implicit Types (st : Store E).

Lemma Reshape_Validate_nonfinal_result (ndebug : bool) b input (m : N) st
    (inputValues : Matrix E) :
  matrices st !! in_values input = Some inputValues ->
  in_layout input = None -> m_pMBLayout b = None -> m <> 0 ->
  exists b' err,
    ReshapeNode.Validate ndebug false
      (mkMachine (ReshapeNode.mk b input m (mkImageLayout 0 0 0)) st)
    = (Done tt,
       mkMachine (ReshapeNode.mk b' input m (mkImageLayout 0 0 0))
         (mkStore (<[m_functionValues b
                     := Resize m (mul64 (numCols inputValues) (numRows inputValues) / m)]>
                     (matrices st))
                  (layouts st) err))
    /\ m_functionValues b' = m_functionValues b
    /\ m_pMBLayout b' = None.
Proof.
  intros Hin Hli Hl Hm. apply N.eqb_neq in Hm.
  match goal with |- context [ReshapeNode.Validate ?d ?f ?s] =>
    pattern (ReshapeNode.Validate d f s) end.
  apply run_post.
  unfold ReshapeNode.Validate, ReshapeNode.InferImageDimsFromInputs,
    ReshapeNode.InferImageDimensions, in_HasMBLayout.
  destruct ndebug; wp_run; destruct (negb _); wp_run;
    eexists _, _; (split; [reflexivity|]); auto.
Qed.

(** X15. Reshape back and forth without a layout.  A Reshape node [A] takes
    an input of [rows x cols] to [m] rows, [m] dividing [rows * cols], and a
    Reshape node [B] takes the output of [A] back to [rows] rows.  With
    non-final validation passes (the final pass rejects these reshapes),
    validation and forward evaluation of [A], then of [B], complete;
    the buffer of [A] holds the storage of the input under [m] rows, and the
    buffer of [B] is the input itself: same dimensions, same storage. *)
Theorem Reshape_round_trip (ndebug : bool) (bA bB : ComputationNode) (x : Input) (m : N) st
    (xv : Matrix E) (name : string) (gradients : loc) (image : ImageLayout) :
  matrices st !! in_values x = Some xv ->
  in_layout x = None -> m_pMBLayout bA = None -> m_pMBLayout bB = None ->
  in_values x <> m_functionValues bA ->
  m_functionValues bB <> m_functionValues bA ->
  m <> 0 -> numRows xv <> 0 -> m <> numRows xv ->
  (m | numRows xv * numCols xv) ->
  numRows xv * numCols xv < SIZE_BOUND ->
  let A := ReshapeNode.mk bA x m (mkImageLayout 0 0 0) in
  let reshaped := mkInput name (m_functionValues bA) gradients None image in
  let B := ReshapeNode.mk bB reshaped (numRows xv) (mkImageLayout 0 0 0) in
  exists s1 s2 t1 t2 mid,
    ReshapeNode.Validate ndebug false (mkMachine A st) = (Done tt, s1)
    /\ ReshapeNode.EvaluateThisNode ndebug AllFrames s1 = (Done tt, s2)
    /\ matrices (heap s2) !! m_functionValues bA = Some mid
    /\ numRows mid = m /\ numRows mid * numCols mid = numRows xv * numCols xv
    /\ pArray mid = pArray xv
    /\ ReshapeNode.Validate ndebug false (mkMachine B (heap s2)) = (Done tt, t1)
    /\ ReshapeNode.EvaluateThisNode ndebug AllFrames t1 = (Done tt, t2)
    /\ matrices (heap t2) !! m_functionValues bB = Some xv.
Proof.
  intros Hin Hli HlA HlB HsepA HsepB Hm Hr Hne [q Hq] Hbound A reshaped B.
  destruct xv as [r c a]. cbn [numRows numCols pArray] in *.
  assert (Hmul : mul64 c r = q * m).
  { unfold mul64, wrap64. rewrite N.mod_small by lia. lia. }
  assert (Hdiv : q * m / m = q) by now apply N.div_mul.
  destruct (Reshape_Validate_nonfinal_result ndebug bA x m st _ Hin Hli HlA Hm)
    as (bA' & errA & HvalA & HownA & HlA').
  cbn [numRows numCols] in HvalA. rewrite Hmul, Hdiv in HvalA.
  set (stA := mkStore (<[m_functionValues bA := Resize m q]> (matrices st)) (layouts st) errA)
    in *.
  pose proof (EvaluateThisNode_copies_storage ndebug AllFrames
                (ReshapeNode.mk bA' x m (mkImageLayout 0 0 0)) stA
                (mkMatrix r c a) (Resize m q) q) as HevalA.
  cbn [ReshapeNode.node ReshapeNode.Inputs0 ReshapeNode.m_numRows numRows numCols pArray]
    in HevalA.
  rewrite HownA in HevalA.
  specialize (HevalA HlA').
  assert (HinA : matrices stA !! in_values x = Some (mkMatrix r c a)).
  { cbn. now rewrite lookup_insert_ne by congruence. }
  specialize (HevalA HinA (lookup_insert_eq _ _ _) Hne eq_refl eq_refl ltac:(lia) Hbound Hm).
  set (mid := mkMatrix m q a) in *.
  set (stA' := mkStore (<[m_functionValues bA := mid]> (matrices stA)) (layouts stA)
                 (stderr stA)) in *.
  assert (Hmid : matrices stA' !! in_values reshaped = Some mid) by apply lookup_insert_eq.
  assert (Hmul' : mul64 q m = c * r).
  { unfold mul64, wrap64. rewrite N.mod_small by lia. lia. }
  assert (Hdiv' : c * r / r = c) by now apply N.div_mul.
  destruct (Reshape_Validate_nonfinal_result ndebug bB reshaped r stA' mid Hmid eq_refl HlB Hr)
    as (bB' & errB & HvalB & HownB & HlB').
  cbn [numRows numCols mid] in HvalB. rewrite Hmul', Hdiv' in HvalB.
  set (stB := mkStore (<[m_functionValues bB := Resize r c]> (matrices stA')) (layouts stA')
                errB) in *.
  pose proof (EvaluateThisNode_copies_storage ndebug AllFrames
                (ReshapeNode.mk bB' reshaped r (mkImageLayout 0 0 0)) stB
                mid (Resize r c) c) as HevalB.
  cbn [ReshapeNode.node ReshapeNode.Inputs0 ReshapeNode.m_numRows numRows numCols pArray
         mid reshaped in_values] in HevalB.
  rewrite HownB in HevalB.
  specialize (HevalB HlB').
  assert (HinB : matrices stB !! m_functionValues bA = Some mid).
  { cbn. rewrite lookup_insert_ne by congruence. apply lookup_insert_eq. }
  specialize (HevalB HinB (lookup_insert_eq _ _ _) ltac:(congruence) eq_refl eq_refl
                ltac:(lia) ltac:(lia) Hr).
  eexists _, _, _, _, mid.
  split; [exact HvalA|]. split; [exact HevalA|].
  split; [apply lookup_insert_eq|]. split; [reflexivity|]. split; [cbn; lia|].
  split; [reflexivity|].
  split; [exact HvalB|]. split; [exact HevalB|].
  cbn. apply lookup_insert_eq.
Qed.
End RoundTrip.

(** X16. The fields that [SaveToFile] writes are the fields that
    [LoadFromFile] reads, in the same order, for Reshape
    ([m_numRows], width, height, channels), RowSlice ([m_startIndex],
    [m_numRows]) and RowRepeat ([m_numRepeat]): saving puts the fields at
    the end of the file, and loading from a file that starts with the saved
    fields of a node gives the target node the configuration of that node
    and leaves the file at the first field after them.  Nodes saved one
    after another therefore load back in turn. *)
Theorem saved_configuration_loads_back :
  (forall (n target : ReshapeNode.t) (modelVersion : N) (fstream rest : File),
      ReshapeNode.SaveToFile n fstream = fstream ++ ReshapeNode.SaveToFile n []
      /\ ReshapeNode.LoadFromFile modelVersion (target, ReshapeNode.SaveToFile n [] ++ rest)
         = (Done tt,
            (ReshapeNode.mk (ReshapeNode.node target) (ReshapeNode.Inputs0 target)
               (ReshapeNode.m_numRows n) (ReshapeNode.m_imageLayout n), rest)))
  /\ (forall (n target : RowSliceNode.t) (modelVersion : N) (fstream rest : File),
         RowSliceNode.SaveToFile n fstream = fstream ++ RowSliceNode.SaveToFile n []
         /\ RowSliceNode.LoadFromFile modelVersion (target, RowSliceNode.SaveToFile n [] ++ rest)
            = (Done tt,
               (RowSliceNode.mk (RowSliceNode.node target) (RowSliceNode.Inputs0 target)
                  (RowSliceNode.m_startIndex n) (RowSliceNode.m_numRows n), rest)))
  /\ (forall (n target : RowRepeatNode.t) (modelVersion : N) (fstream rest : File),
         RowRepeatNode.SaveToFile n fstream = fstream ++ RowRepeatNode.SaveToFile n []
         /\ RowRepeatNode.LoadFromFile modelVersion
              (target, RowRepeatNode.SaveToFile n [] ++ rest)
            = (Done tt,
               (RowRepeatNode.mk (RowRepeatNode.node target) (RowRepeatNode.Inputs0 target)
                  (RowRepeatNode.m_numRepeat n), rest))).
Proof.
  split; [|split].
  - intros [b input m [w h c]] target v fstream rest. split.
    + unfold ReshapeNode.SaveToFile, put_field, Base_SaveToFile. cbn.
      now rewrite <- !app_assoc.
    + reflexivity.
  - intros [b input start rows] target v fstream rest. split.
    + unfold RowSliceNode.SaveToFile, put_field, Base_SaveToFile. cbn.
      now rewrite <- !app_assoc.
    + reflexivity.
  - intros [b input r] target v fstream rest. split; reflexivity.
Qed.

Lemma wp_any {S A} (c : M S A) (Q : Outcome A -> S -> Prop) (s : S) :
  (forall o s', Q o s') -> wp c Q s.
Proof. unfold wp. auto. Qed.

Section ImageHeights.
Context {E : Type} `{!ElemType E}.

(** X17. The height of the output image hint after a completed validation
    pass: for RowSlice it is [m_numRows], the row count of the buffer of
    the node; for RowStack it is the row count of the buffer of the node,
    the total of the inputs; for RowRepeat it is the height of the input
    image hint times [m_numRepeat], computed in [size_t], and not the row
    count of the buffer. *)
Theorem image_height_follows_the_rows :
  (forall (isFinal : bool) (s s' : Machine E RowSliceNode.t),
      RowSliceNode.Validate isFinal s = (Done tt, s') ->
      exists own,
        matrices (heap s') !! m_functionValues (RowSliceNode.node (self s')) = Some own
        /\ numRows own = RowSliceNode.m_numRows (self s)
        /\ height (m_outputImageLayout (RowSliceNode.node (self s'))) = numRows own)
  /\ (forall (isFinal : bool) (s s' : Machine E RowStackNode.t),
         RowStackNode.Validate isFinal s = (Done tt, s') ->
         exists own,
           matrices (heap s') !! m_functionValues (RowStackNode.node (self s')) = Some own
           /\ height (m_outputImageLayout (RowStackNode.node (self s'))) = numRows own)
  /\ (forall (isFinal : bool) (s s' : Machine E RowRepeatNode.t),
         RowRepeatNode.Validate isFinal s = (Done tt, s') ->
         height (m_outputImageLayout (RowRepeatNode.node (self s')))
         = mul64 (height (m_inputImageLayout (RowRepeatNode.node (self s'))))
             (RowRepeatNode.m_numRepeat (self s))).
Proof.
  split; [|split].
  - intros isFinal [[b input start rows] st] s'.
    apply (run_done _ (fun _ s' =>
      exists own,
        matrices (heap s') !! m_functionValues (RowSliceNode.node (self s')) = Some own
        /\ numRows own = rows
        /\ height (m_outputImageLayout (RowSliceNode.node (self s'))) = numRows own)).
    unfold RowSliceNode.Validate, RowSliceNode.InferImageDimsFromInputs.
    wp_cases; try exact I; eexists; (split; [apply lookup_insert_eq|]); auto.
  - intros isFinal [[b inputs v] st] s'.
    apply (run_done _ (fun _ s' =>
      exists own,
        matrices (heap s') !! m_functionValues (RowStackNode.node (self s')) = Some own
        /\ height (m_outputImageLayout (RowStackNode.node (self s'))) = numRows own)).
    unfold RowStackNode.Validate, RowStackNode.InferImageDimsFromInputs.
    wp_run. destruct (inputs !! 0%nat) as [input0|]; [|exact I].
    wp_run. destruct (matrices st !! in_values input0) as [m0|]; [|exact I].
    wp_run. apply wp_any. intros [totalRows|e] [[b1 inputs1 v1] st1]; [|exact I].
    wp_cases; try exact I.
    all: rewrite lookup_insert_eq in *; wp_run;
      try (eexists; (split; [apply lookup_insert_eq|]); reflexivity);
      try discriminate; eauto.
  - intros isFinal [[b input r] st] s'.
    apply (run_done _ (fun _ s' =>
      height (m_outputImageLayout (RowRepeatNode.node (self s')))
      = mul64 (height (m_inputImageLayout (RowRepeatNode.node (self s')))) r)).
    unfold RowRepeatNode.Validate, RowRepeatNode.InferImageDimsFromInputs.
    wp_cases; try exact I; reflexivity.
Qed.
End ImageHeights.

Section StackAdd.
Context {E : Type} `{!ElemType E}.
Implicit Types (st : Store E).

(** X18. [Stack] with its parameter [addTo]: over all frames, on a target of
    [K * D] rows and [nS * nT] columns with a layout of [nS] sequences and
    [nT] time steps, and a source of [D] rows and [nS * K * nT] columns,
    block [k] of column [t * nS + s] of the target receives column
    [(t * K + k) * nS + s] of the source; with [addTo] the source is added to
    what the target held, without it the target is overwritten. *)
Theorem Stack_adds_into_the_target (addTo : bool) (n : ReshapeNode.t) (from : Input) st
    (lo : loc) (D K nS nT : N) (a v : list E) :
  0 < D -> 0 < K -> D * (nS * K * nT) < SIZE_BOUND ->
  m_pMBLayout (ReshapeNode.node n) = Some lo ->
  layouts st !! lo = Some (mkMBLayout nS nT) ->
  matrices st !! in_values from = Some (mkMatrix D (nS * K * nT) a) ->
  matrices st !! m_functionValues (ReshapeNode.node n) = Some (mkMatrix (K * D) (nS * nT) v) ->
  exists out,
    ReshapingNodeBase.Stack AllFrames from K addTo (mkMachine n st)
    = (Done tt,
       mkMachine n
         (mkStore (<[m_functionValues (ReshapeNode.node n) := out]> (matrices st))
                  (layouts st) (stderr st)))
    /\ numRows out = K * D /\ numCols out = nS * nT
    /\ forall d k s t, d < D -> k < K -> s < nS -> t < nT ->
         at_ out (k * D + d) (t * nS + s)
         = if addTo
           then elem_add (at_ (mkMatrix (K * D) (nS * nT) v) (k * D + d) (t * nS + s))
                         (at_ (mkMatrix D (nS * K * nT) a) d ((t * K + k) * nS + s))
           else at_ (mkMatrix D (nS * K * nT) a) d ((t * K + k) * nS + s).
Proof.
  destruct n as [b input m il].
  cbn [ReshapeNode.node]. intros HD HK Hbound Hlo Hlayout Hin Hown.
  match goal with |- context [ReshapingNodeBase.Stack ?f ?i ?k ?x ?s] =>
    pattern (ReshapingNodeBase.Stack f i k x s) end.
  apply run_post.
  unfold ReshapingNodeBase.Stack. wp_run.
  rewrite Reshaped_Some by (cbn; lia). wp_run.
  rewrite !Reshaped_Some by (cbn; lia). wp_run.
  eexists. split; [reflexivity|]. split; [reflexivity|]. split; [reflexivity|].
  intros d k s t Hd Hk Hs Ht.
  assert (Hi : k * D + d < K * D) by nia.
  assert (Hj : t * nS + s < nS * nT) by nia.
  rewrite at_SetColumnSlice_all by (cbn; assumption).
  unfold at_ at 1. cbn [numRows numCols pArray].
  assert (Hnb : (t * nS + s) * (K * D) + (k * D + d) < D * (nS * K * nT)) by nia.
  rewrite flat_indices by assumption.
  replace (_ <? D * nS * 1 * K * nT) with true by (symmetry; apply N.ltb_lt; lia).
  replace ((t * nS + s) * (K * D) + (k * D + d)) with (((t * nS + s) * K + k) * D + d) by lia.
  rewrite shuffle_source_digits by assumption.
  assert (Hna : ((t * K + k) * nS + s) * D + d < K * D * (nS * nT)) by nia.
  rewrite !flat_indices by (assumption || nia).
  rewrite !(at_div_mod _ _ D (nS * K * nT)) by lia.
  replace (flat (mkMatrix D (nS * K * nT) a) (((t * K + k) * nS + s) * D + d))
    with (at_ (mkMatrix D (nS * K * nT) a) d ((t * K + k) * nS + s)) by reflexivity.
  replace (flat (mkMatrix D (nS * K * nT) v) (((t * nS + s) * K + k) * D + d))
    with (at_ (mkMatrix (K * D) (nS * nT) v) (k * D + d) (t * nS + s))
    by (unfold at_, flat; cbn; do 2 f_equal; lia).
  destruct addTo.
  - now rewrite !elem_mul_1_l.
  - now rewrite elem_mul_0_l, elem_add_0_l, elem_mul_1_l.
Qed.
End StackAdd.

(** ** The layout that a Reshape node derives *)

Section ReshapeDerivedLayout.
Context {E : Type} `{!ElemType E}.
Implicit Types (st : Store E).

(** C3.  The layout that a Reshape node derives has the number of time steps
    of the rule, [numTimeSteps_in * rows / m_numRows], but not the number of
    parallel sequences of the input.  A node without layout whose input
    carries one gets from a completed validation a layout at a location that
    was not in use, never that of the input; [OnEvaluateBeginIteration] then
    sizes it to that number of time steps and to 1 parallel sequence, the
    count of the layout just made, whatever the count [nSin] of the input,
    whose layout is left as it was.  Later validations keep the layout of
    the node.  In general [OnEvaluateBeginIteration] passes to [Init] the
    count [nS0] that the layout of the node has already: the count of the
    input is not read.  When the input carries no layout, a node without
    layout stays without and [OnEvaluateBeginIteration] does nothing. *)
Theorem Reshape_derived_layout_keeps_its_own_sequence_count :
  (forall (ndebug isFinal : bool) (n : ReshapeNode.t) st s1 (li : loc) (nSin nTin : N)
          (inputValues : Matrix E),
      in_layout (ReshapeNode.Inputs0 n) = Some li ->
      layouts st !! li = Some (mkMBLayout nSin nTin) ->
      matrices st !! in_values (ReshapeNode.Inputs0 n) = Some inputValues ->
      m_functionValues (ReshapeNode.node n) <> in_values (ReshapeNode.Inputs0 n) ->
      m_pMBLayout (ReshapeNode.node n) = None ->
      nTin * numRows inputValues < SIZE_BOUND ->
      ReshapeNode.Validate ndebug isFinal (mkMachine n st) = (Done tt, s1) ->
      exists (l : loc) s2,
        m_pMBLayout (ReshapeNode.node (self s1)) = Some l
        /\ l <> li
        /\ layouts st !! l = None
        /\ ReshapeNode.OnEvaluateBeginIteration s1 = (Done tt, s2)
        /\ layouts (heap s2) !! l
           = Some (mkMBLayout 1 (nTin * numRows inputValues / ReshapeNode.m_numRows n))
        /\ layouts (heap s2) !! li = Some (mkMBLayout nSin nTin)
        /\ (nSin <> 1 ->
            forall y, layouts (heap s2) !! l = Some y -> numParallelSequences y <> nSin))
  /\ (forall (ndebug isFinal : bool) (n : ReshapeNode.t) st s1 (l : loc),
        m_pMBLayout (ReshapeNode.node n) = Some l ->
        is_Some (in_layout (ReshapeNode.Inputs0 n)) ->
        ReshapeNode.Validate ndebug isFinal (mkMachine n st) = (Done tt, s1) ->
        m_pMBLayout (ReshapeNode.node (self s1)) = Some l
        /\ layouts (heap s1) = layouts st)
  /\ (forall (n : ReshapeNode.t) st (l li : loc) (nS0 nT0 nSin nTin : N)
             (inputValues : Matrix E),
        m_pMBLayout (ReshapeNode.node n) = Some l ->
        layouts st !! l = Some (mkMBLayout nS0 nT0) ->
        in_layout (ReshapeNode.Inputs0 n) = Some li ->
        layouts st !! li = Some (mkMBLayout nSin nTin) ->
        matrices st !! in_values (ReshapeNode.Inputs0 n) = Some inputValues ->
        ReshapeNode.m_numRows n <> 0 ->
        nTin * numRows inputValues < SIZE_BOUND ->
        ReshapeNode.OnEvaluateBeginIteration (mkMachine n st)
        = (Done tt,
           mkMachine n
             (mkStore (matrices st)
                (<[l := mkMBLayout nS0
                          (nTin * numRows inputValues / ReshapeNode.m_numRows n)]>
                   (layouts st))
                (stderr st))))
  /\ (forall (ndebug isFinal : bool) (n : ReshapeNode.t) st s1,
        in_layout (ReshapeNode.Inputs0 n) = None ->
        m_pMBLayout (ReshapeNode.node n) = None ->
        ReshapeNode.Validate ndebug isFinal (mkMachine n st) = (Done tt, s1) ->
        m_pMBLayout (ReshapeNode.node (self s1)) = None
        /\ ReshapeNode.OnEvaluateBeginIteration s1 = (Done tt, s1)).
Proof.
  split; [|split; [|split]].
  - intros ndebug isFinal n st s1 li nSin nTin inputValues Hli Hlin Hin Hne Hnone Hbound
      Hrun.
    destruct (Validate_makes_empty_layout ndebug isFinal n st s1 li Hli Hnone Hrun)
      as [Hptr Hlay].
    destruct (Reshape_Validate_sizes ndebug isFinal n st s1 inputValues Hin Hrun)
      as (Hnz & Hmat & _ & Hinput & Hrows).
    assert (Hfresh : layouts st !! fresh (dom (layouts st)) = None)
      by (apply not_elem_of_dom, is_fresh).
    assert (Hdiff : fresh (dom (layouts st)) <> li)
      by (intros Heq; rewrite Heq in Hfresh; congruence).
    destruct s1 as [n1 st1]. cbn [self heap] in *.
    assert (Hstep := OnEvaluateBeginIteration_derives_layout n1 st1
                       (fresh (dom (layouts st))) li 1 0 nSin nTin inputValues).
    rewrite Hinput, Hrows in Hstep.
    exists (fresh (dom (layouts st))). eexists.
    split; [exact Hptr|]. split; [exact Hdiff|]. split; [exact Hfresh|].
    split.
    { apply Hstep; auto.
      - rewrite Hlay. apply lookup_insert_eq.
      - rewrite Hlay. now apply lookup_insert_fresh.
      - rewrite Hmat. rewrite lookup_insert_ne; auto. }
    cbn [heap layouts]. rewrite Hlay.
    split; [now rewrite lookup_insert_eq|].
    split.
    { rewrite lookup_insert_ne by (intros Heq; now apply Hdiff).
      rewrite lookup_insert_ne by (intros Heq; now apply Hdiff). exact Hlin. }
    intros Hn1 y. rewrite lookup_insert_eq. intros [= <-]. cbn. congruence.
  - intros; eapply Validate_keeps_layout; eauto.
  - intros; eapply OnEvaluateBeginIteration_derives_layout; eauto.
  - intros ndebug isFinal n st s1 Hli Hnone Hrun.
    assert (Hptr : m_pMBLayout (ReshapeNode.node (self s1)) = None)
      by (eapply Validate_without_layout; eauto).
    split; [exact Hptr | now apply OnEvaluateBeginIteration_without_layout].
Qed.

End ReshapeDerivedLayout.

(** ** The properties at concrete nodes *)

Import Example.

Lemma Validate_divides_by_numRows_unguarded_witness :
  ReshapeNode.Validate false true
    (mkMachine (ReshapeNode.create base input) (store m2x3))
  = (Throw DivideByZero, mkMachine (ReshapeNode.create base input) (store m2x3)).
Proof.
  apply (proj2 (Validate_divides_by_numRows_unguarded (E := Z)) false true
           (ReshapeNode.create base input) (store m2x3) m2x3); reflexivity.
Defined.

Lemma unimplemented_paths_fail_without_writing_witness :
  (exists e,
      ReshapeNode.EvaluateThisNode false AllFrames
        (mkMachine (ReshapeNode.mk (layoutBase (Some layoutLoc)) layoutInput 1 noHint)
           (layoutStore (Resize 1 24)))
      = (Throw e,
         mkMachine (ReshapeNode.mk (layoutBase (Some layoutLoc)) layoutInput 1 noHint)
           (layoutStore (Resize 1 24))))
  /\ ReshapeNode.EvaluateThisNode false AllFrames
       (mkMachine (ReshapeNode.mk (layoutBase (Some layoutLoc)) layoutInput 1 noHint)
          (layoutStore (Resize 1 24)))
     = (Throw NotImplemented,
        mkMachine (ReshapeNode.mk (layoutBase (Some layoutLoc)) layoutInput 1 noHint)
          (layoutStore (Resize 1 24))).
Proof.
  pose proof (unimplemented_paths_fail_without_writing (E := Z)) as (_ & _ & H3 & H4).
  split.
  - apply (H3 false AllFrames
             (mkMachine (ReshapeNode.mk (layoutBase (Some layoutLoc)) layoutInput 1 noHint)
                (layoutStore (Resize 1 24))) sequences).
    + reflexivity.
    + exists layoutLoc. reflexivity.
    + reflexivity.
  - apply (H4 false AllFrames
             (mkMachine (ReshapeNode.mk (layoutBase (Some layoutLoc)) layoutInput 1 noHint)
                (layoutStore (Resize 1 24))) sequences (Resize 1 24)).
    + reflexivity.
    + reflexivity.
    + exists layoutLoc. reflexivity.
    + split; reflexivity.
    + reflexivity.
    + reflexivity.
    + reflexivity.
    + reflexivity.
Defined.


Lemma RowRepeat_output_is_stacked_copies_witness :
  exists s1 s2 sized l out,
    RowRepeatNode.Validate true (mkMachine (repeat 3) (store m2x3)) = (Done tt, s1)
    /\ matrices (heap s1) !! valuesLoc = Some sized
    /\ numRows sized = 2 * 3
    /\ numCols sized = 3
    /\ RowRepeatNode.EvaluateThisNode AllFrames s1 = (Done tt, s2)
    /\ RowRepeatNode.FunctionValues s2 = (Done l, s2)
    /\ RowRepeatNode.FunctionValues_const s2 = (Done l, s2)
    /\ matrices (heap s2) !! l = Some out
    /\ numRows out = 2 * 3
    /\ numCols out = 3
    /\ forall i j, i < 2 * 3 -> j < 3 -> at_ out i j = at_ m2x3 (i mod 2) j.
Proof.
  apply (RowRepeat_output_is_stacked_copies (E := Z) true (repeat 3) (store m2x3) m2x3).
  - reflexivity.
  - discriminate.
  - cbn. lia.
  - reflexivity.
Defined.

Lemma RowStack_offsets_and_forward_witness :
  exists s1 s2 sized out,
    RowStackNode.Validate true (mkMachine (stack [7; 7]) (stackStore mC)) = (Done tt, s1)
    /\ RowStackNode.m_startRowIndices (self s1) = [0; 2; 5]
    /\ matrices (heap s1) !! valuesLoc = Some sized
    /\ numRows sized = 6 /\ numCols sized = 2
    /\ RowStackNode.EvaluateThisNode AllFrames s1 = (Done tt, s2)
    /\ matrices (heap s2) !! valuesLoc = Some out
    /\ numRows out = 6 /\ numCols out = 2
    /\ forall i m r j, [mA; mB; mC] !! i = Some m -> r < numRows m -> j < 2 ->
         at_ out (sumN (take i [2; 3; 1]) + r) j = at_ m r j.
Proof.
  apply (RowStack_offsets_and_forward (E := Z) true base [inputA; inputB; inputC] [7; 7]
           (stackStore mC) [mA; mB; mC] mA).
  - repeat constructor.
  - reflexivity.
  - repeat constructor.
  - repeat constructor; discriminate.
  - reflexivity.
Defined.



Lemma gradient_passes_accumulate_witness :
  (exists updated,
      RowSliceNode.ComputeInputPartial 0 AllFrames
        (mkMachine (slice 1 1) (gradientStore (mkMatrix 1 3 [10; 20; 30]%Z) m2x3))
      = (Done tt,
         mkMachine (slice 1 1)
           (mkStore (<[inputGradientLoc := updated]>
                       (matrices (gradientStore (mkMatrix 1 3 [10; 20; 30]%Z) m2x3)))
                    ∅ []))
      /\ numRows updated = 2 /\ numCols updated = 3
      /\ forall i j, i < 2 -> j < 3 ->
           at_ updated i j
           = if (1 <=? i) && (i <? 1 + 1)
             then (at_ m2x3 i j + at_ (mkMatrix 1 3 [10; 20; 30]%Z) (i - 1) j)%Z
             else at_ m2x3 i j)
  /\ (exists updated,
        RowStackNode.ComputeInputPartial 1 AllFrames
          (mkMachine (stack [0; 2; 5]) (stackGradientStore mB))
        = (Done tt,
           mkMachine (stack [0; 2; 5])
             (mkStore (<[22%positive := updated]> (matrices (stackGradientStore mB))) ∅ []))
        /\ numRows updated = 3 /\ numCols updated = 2
        /\ forall i j, i < 3 -> j < 2 ->
             at_ updated i j = (at_ mB i j + at_ g6x2 (2 + i) j)%Z)
  /\ (exists updated,
        RowRepeatNode.ComputeInputPartial 0 AllFrames
          (mkMachine (repeat 3) (gradientStore g6x2 mA))
        = (Done tt,
           mkMachine (repeat 3)
             (mkStore (<[inputGradientLoc := updated]> (matrices (gradientStore g6x2 mA)))
                      ∅ []))
        /\ numRows updated = 2 /\ numCols updated = 2
        /\ forall i j, i < 2 -> j < 2 ->
             at_ updated i j
             = (at_ mA i j + elem_sum 3 (fun k => at_ g6x2 (k * 2 + i) j))%Z).
Proof.
  pose proof (gradient_passes_accumulate (E := Z)) as (H1 & H2 & H3).
  split.
  { apply (H1 (slice 1 1) (gradientStore (mkMatrix 1 3 [10; 20; 30]%Z) m2x3) 0
              (mkMatrix 1 3 [10; 20; 30]%Z) m2x3); reflexivity. }
  split.
  { apply (H2 (stack [0; 2; 5]) (stackGradientStore mB) 1%nat inputB 2 g6x2 mB mB);
      try reflexivity. cbn. lia. }
  apply (H3 (repeat 3) (gradientStore g6x2 mA) 0 g6x2 mA); reflexivity.
Defined.


Lemma Reshape_derived_layout_keeps_its_own_sequence_count_witness :
  (exists (l : loc) s2,
      m_pMBLayout (ReshapeNode.node
        (self (snd (ReshapeNode.Validate false false
                      (mkMachine (ReshapeNode.mk (layoutBase None) layoutInput 6 noHint)
                         (inputLayoutStore (Resize 0 0))))))) = Some l
      /\ l <> inputLayoutLoc
      /\ layouts (inputLayoutStore (Resize (E := Z) 0 0)) !! l = None
      /\ ReshapeNode.OnEvaluateBeginIteration
           (snd (ReshapeNode.Validate false false
                   (mkMachine (ReshapeNode.mk (layoutBase None) layoutInput 6 noHint)
                      (inputLayoutStore (Resize 0 0)))))
         = (Done tt, s2)
      /\ layouts (heap s2) !! l = Some (mkMBLayout 1 (6 * 2 / 6))
      /\ layouts (heap s2) !! inputLayoutLoc = Some (mkMBLayout 2 6)
      /\ (2 <> 1 ->
          forall y, layouts (heap s2) !! l = Some y -> numParallelSequences y <> 2))
  /\ (m_pMBLayout (ReshapeNode.node
        (self (snd (ReshapeNode.Validate false true
                      (mkMachine (ReshapeNode.mk (layoutBase (Some layoutLoc)) layoutInput 6
                                    noHint)
                         (ownLayoutStore (mkMBLayout 1 0) (Resize 6 4))))))) = Some layoutLoc
      /\ layouts (heap (snd (ReshapeNode.Validate false true
                      (mkMachine (ReshapeNode.mk (layoutBase (Some layoutLoc)) layoutInput 6
                                    noHint)
                         (ownLayoutStore (mkMBLayout 1 0) (Resize 6 4))))))
         = layouts (ownLayoutStore (mkMBLayout 1 0) (Resize (E := Z) 6 4)))
  /\ ReshapeNode.OnEvaluateBeginIteration
       (mkMachine (ReshapeNode.mk (layoutBase (Some layoutLoc)) layoutInput 6 noHint)
          (ownLayoutStore (mkMBLayout 1 0) (Resize 6 4)))
     = (Done tt,
        mkMachine (ReshapeNode.mk (layoutBase (Some layoutLoc)) layoutInput 6 noHint)
          (mkStore (matrices (ownLayoutStore (mkMBLayout 1 0) (Resize 6 4)))
             (<[layoutLoc := mkMBLayout 1 (6 * 2 / 6)]>
                (layouts (ownLayoutStore (mkMBLayout 1 0) (Resize (E := Z) 6 4))))
             []))
  /\ (m_pMBLayout (ReshapeNode.node
        (self (snd (ReshapeNode.Validate false false (mkMachine (reshape 4) (store m2x4))))))
      = None
      /\ ReshapeNode.OnEvaluateBeginIteration
           (snd (ReshapeNode.Validate false false (mkMachine (reshape 4) (store m2x4))))
         = (Done tt,
            snd (ReshapeNode.Validate false false (mkMachine (reshape 4) (store m2x4))))).
Proof.
  pose proof (Reshape_derived_layout_keeps_its_own_sequence_count (E := Z))
    as (H1 & H2 & H3 & H4).
  split.
  { apply (H1 false false (ReshapeNode.mk (layoutBase None) layoutInput 6 noHint)
              (inputLayoutStore (Resize 0 0)) _ inputLayoutLoc 2 6 sequences).
    - reflexivity.
    - reflexivity.
    - reflexivity.
    - discriminate.
    - reflexivity.
    - reflexivity.
    - vm_compute. reflexivity. }
  split.
  { apply (H2 false true (ReshapeNode.mk (layoutBase (Some layoutLoc)) layoutInput 6 noHint)
              (ownLayoutStore (mkMBLayout 1 0) (Resize 6 4)) _ layoutLoc).
    - reflexivity.
    - exists inputLayoutLoc. reflexivity.
    - vm_compute. reflexivity. }
  split.
  { apply (H3 (ReshapeNode.mk (layoutBase (Some layoutLoc)) layoutInput 6 noHint)
              (ownLayoutStore (mkMBLayout 1 0) (Resize 6 4)) layoutLoc inputLayoutLoc
              1 0 2 6 sequences);
      try reflexivity. discriminate. }
  apply (H4 false false (reshape 4) (store m2x4)).
  - reflexivity.
  - reflexivity.
  - vm_compute. reflexivity.
Defined.

Lemma InferImageDimensions_completes_the_hint_witness :
  heap (mkMachine (ReshapeNode.mk base input 8 (mkImageLayout 2 2 2)) (store m2x3))
  = heap (mkMachine partialHint (store m2x3))
  /\ ReshapeNode.node (ReshapeNode.mk base input 8 (mkImageLayout 2 2 2))
     = ReshapeNode.node partialHint
  /\ ReshapeNode.Inputs0 (ReshapeNode.mk base input 8 (mkImageLayout 2 2 2))
     = ReshapeNode.Inputs0 partialHint
  /\ ReshapeNode.m_numRows (ReshapeNode.mk base input 8 (mkImageLayout 2 2 2))
     = ReshapeNode.m_numRows partialHint
  /\ inferred partialHint (mkImageLayout 2 2 2).
Proof.
  apply (InferImageDimensions_completes_the_hint (E := Z)
           (mkMachine partialHint (store m2x3))
           (mkMachine (ReshapeNode.mk base input 8 (mkImageLayout 2 2 2)) (store m2x3)));
    reflexivity.
Defined.

Lemma InferImageDimensions_is_stable_witness :
  ReshapeNode.InferImageDimensions
    (mkMachine (ReshapeNode.mk base input 8 (mkImageLayout 2 2 2)) (store m2x3))
  = (Done tt, mkMachine (ReshapeNode.mk base input 8 (mkImageLayout 2 2 2)) (store m2x3)).
Proof.
  apply (InferImageDimensions_is_stable (E := Z) (mkMachine partialHint (store m2x3)));
    reflexivity.
Defined.


Lemma final_validation_makes_the_factor_integral_witness :
  exists K,
    ReshapeNode.factor
      (snd (ReshapeNode.Validate false true
              (mkMachine (ReshapeNode.mk (layoutBase (Some layoutLoc)) layoutInput 6 noHint)
                 (layoutStore (Resize 6 4)))))
    = (Done K,
       snd (ReshapeNode.Validate false true
              (mkMachine (ReshapeNode.mk (layoutBase (Some layoutLoc)) layoutInput 6 noHint)
                 (layoutStore (Resize 6 4)))))
    /\ ReshapeNode.weStack
         (snd (ReshapeNode.Validate false true
                 (mkMachine (ReshapeNode.mk (layoutBase (Some layoutLoc)) layoutInput 6 noHint)
                    (layoutStore (Resize 6 4)))))
       = (Done (2 <? 6),
          snd (ReshapeNode.Validate false true
                 (mkMachine (ReshapeNode.mk (layoutBase (Some layoutLoc)) layoutInput 6 noHint)
                    (layoutStore (Resize 6 4)))))
    /\ 1 <= K
    /\ (if 2 <? 6 then 6 = K * 2 else 2 = K * 6).
Proof.
  apply (final_validation_makes_the_factor_integral (E := Z) false
           (ReshapeNode.mk (layoutBase (Some layoutLoc)) layoutInput 6 noHint)
           (layoutStore (Resize 6 4)) _ sequences).
  - reflexivity.
  - discriminate.
  - vm_compute. reflexivity.
Defined.

Lemma Reshape_Validate_sizes_the_output_witness :
  exists own,
    matrices (heap (snd (ReshapeNode.Validate false false
                           (mkMachine (reshape 4) (store m2x4)))))
    !! m_functionValues
         (ReshapeNode.node (self (snd (ReshapeNode.Validate false false
                                         (mkMachine (reshape 4) (store m2x4))))))
    = Some own
    /\ numRows own = 4
    /\ numCols own = mul64 4 2 / 4
    /\ 4 <> 0
    /\ ReshapeNode.m_numRows (self (snd (ReshapeNode.Validate false false
                                          (mkMachine (reshape 4) (store m2x4))))) = 4
    /\ ReshapeNode.Inputs0 (self (snd (ReshapeNode.Validate false false
                                         (mkMachine (reshape 4) (store m2x4))))) = input.
Proof.
  apply (Reshape_Validate_sizes_the_output (E := Z) false false (reshape 4) (store m2x4) _ m2x4).
  - reflexivity.
  - vm_compute. reflexivity.
Defined.

Lemma UpdateFunctionMBSize_after_Validate_witness :
  exists s2 own1 own2,
    ReshapeNode.UpdateFunctionMBSize 9
      (snd (ReshapeNode.Validate false false (mkMachine (reshape 4) (store m2x4))))
    = (Done 9, s2)
    /\ self s2
       = self (snd (ReshapeNode.Validate false false (mkMachine (reshape 4) (store m2x4))))
    /\ matrices (heap (snd (ReshapeNode.Validate false false
                              (mkMachine (reshape 4) (store m2x4))))) !! valuesLoc
       = Some own1
    /\ matrices (heap s2) !! valuesLoc = Some own2
    /\ numRows own2 = numRows own1 /\ numCols own2 = numCols own1
    /\ numRows own2 = 4
    /\ (m_pMBLayout
          (ReshapeNode.node
             (self (snd (ReshapeNode.Validate false false
                           (mkMachine (reshape 4) (store m2x4)))))) = None ->
        s2 = snd (ReshapeNode.Validate false false (mkMachine (reshape 4) (store m2x4)))).
Proof.
  apply (UpdateFunctionMBSize_after_Validate (E := Z) false false (reshape 4) (store m2x4)
           _ m2x4 9).
  - reflexivity.
  - discriminate.
  - vm_compute. reflexivity.
Defined.

Lemma zero_numRows_stops_every_pass_witness :
  (forall numCols0,
      ReshapeNode.UpdateFunctionMBSize numCols0
        (mkMachine (ReshapeNode.create (layoutBase (Some layoutLoc)) layoutInput)
           (layoutStore (Resize 6 4)))
      = (Throw DivideByZero,
         mkMachine (ReshapeNode.create (layoutBase (Some layoutLoc)) layoutInput)
           (layoutStore (Resize 6 4))))
  /\ ReshapeNode.factor
       (mkMachine (ReshapeNode.create (layoutBase (Some layoutLoc)) layoutInput)
          (layoutStore (Resize 6 4)))
     = (Throw DivideByZero,
        mkMachine (ReshapeNode.create (layoutBase (Some layoutLoc)) layoutInput)
          (layoutStore (Resize 6 4)))
  /\ (forall ndebug frameRange,
        ReshapeNode.EvaluateThisNode ndebug frameRange
          (mkMachine (ReshapeNode.create (layoutBase (Some layoutLoc)) layoutInput)
             (layoutStore (Resize 6 4)))
        = (Throw DivideByZero,
           mkMachine (ReshapeNode.create (layoutBase (Some layoutLoc)) layoutInput)
             (layoutStore (Resize 6 4))))
  /\ ReshapeNode.OnEvaluateBeginIteration
       (mkMachine (ReshapeNode.create (layoutBase (Some layoutLoc)) layoutInput)
          (layoutStore (Resize 6 4)))
     = (Throw DivideByZero,
        mkMachine (ReshapeNode.create (layoutBase (Some layoutLoc)) layoutInput)
          (layoutStore (Resize 6 4))).
Proof.
  destruct (zero_numRows_stops_every_pass (E := Z)
              (ReshapeNode.create (layoutBase (Some layoutLoc)) layoutInput)
              (layoutStore (Resize 6 4)) sequences eq_refl eq_refl)
    as (H1 & H2 & H3 & H4).
  split; [exact H1|]. split; [exact H2|].
  split; [apply H3; discriminate|].
  apply (H4 layoutLoc inputLayoutLoc (mkMBLayout 2 2) (mkMBLayout 2 6)); reflexivity.
Defined.

Lemma RowSlice_output_is_the_row_range_witness :
  exists s1 s2 out,
    RowSliceNode.Validate true (mkMachine (slice 1 2) (store mB)) = (Done tt, s1)
    /\ RowSliceNode.EvaluateThisNode AllFrames s1 = (Done tt, s2)
    /\ matrices (heap s2) !! valuesLoc = Some out
    /\ matrices (heap s2) !! inputLoc = Some mB
    /\ numRows out = 2
    /\ numCols out = 2
    /\ forall i j, i < 2 -> j < 2 -> at_ out i j = at_ mB (1 + i) j.
Proof.
  apply (RowSlice_output_is_the_row_range (E := Z) true (slice 1 2) (store mB) mB).
  - reflexivity.
  - discriminate.
  - cbn. lia.
  - reflexivity.
Defined.

Lemma RowSlice_range_check_wraps_witness :
  numRows mB < (SIZE_BOUND - 1) + 2
  /\ exists s', RowSliceNode.Validate true (mkMachine (slice (SIZE_BOUND - 1) 2) (store mB))
                = (Done tt, s').
Proof.
  apply (RowSlice_range_check_wraps (E := Z) (slice (SIZE_BOUND - 1) 2) (store mB) mB).
  - reflexivity.
  - reflexivity.
  - reflexivity.
  - reflexivity.
  - vm_compute. discriminate.
  - vm_compute. discriminate.
Defined.

Lemma RowSlice_evaluates_one_time_step_witness :
  exists out,
    RowSliceNode.EvaluateThisNode (Frame 2)
      (mkMachine (RowSliceNode.mk (layoutBase (Some inputLayoutLoc)) layoutInput 1 1)
         (layoutStore (Resize 1 12)))
    = (Done tt,
       mkMachine (RowSliceNode.mk (layoutBase (Some inputLayoutLoc)) layoutInput 1 1)
         (mkStore (<[valuesLoc := out]> (matrices (layoutStore (Resize 1 12))))
                  (layouts (layoutStore (Resize 1 12)))
                  (stderr (layoutStore (Resize 1 12)))))
    /\ numRows out = numRows (Resize (E := Z) 1 12)
    /\ numCols out = numCols (Resize (E := Z) 1 12)
    /\ forall i j, i < 1 -> j < 12 ->
         at_ out i j
         = if (2 * 2 <=? j) && (j <? 2 * 2 + 2)
           then at_ sequences (1 + i) j
           else at_ (Resize 1 12) i j.
Proof.
  apply (RowSlice_evaluates_one_time_step (E := Z)
           (RowSliceNode.mk (layoutBase (Some inputLayoutLoc)) layoutInput 1 1)
           (layoutStore (Resize 1 12)) 2 2 sequences (Resize 1 12)).
  - reflexivity.
  - reflexivity.
  - discriminate.
  - reflexivity.
  - exists 6. reflexivity.
  - reflexivity.
  - reflexivity.
  - cbn. lia.
  - reflexivity.
  - cbn. lia.
Defined.

Lemma RowStack_offsets_partition_the_rows_witness :
  exists s1 sized,
    RowStackNode.Validate true (mkMachine (stack [7; 7]) (stackStore mC)) = (Done tt, s1)
    /\ matrices (heap s1) !! valuesLoc = Some sized
    /\ length (RowStackNode.m_startRowIndices (self s1)) = 3%nat
    /\ forall x, x < numRows sized ->
         exists i offset m,
           RowStackNode.m_startRowIndices (self s1) !! i = Some offset
           /\ [mA; mB; mC] !! i = Some m
           /\ offset <= x < offset + numRows m
           /\ forall i' offset' m',
                RowStackNode.m_startRowIndices (self s1) !! i' = Some offset' ->
                [mA; mB; mC] !! i' = Some m' ->
                offset' <= x < offset' + numRows m' -> i' = i.
Proof.
  apply (RowStack_offsets_partition_the_rows (E := Z) true base [inputA; inputB; inputC]
           [7; 7] (stackStore mC) [mA; mB; mC] mA).
  - repeat constructor.
  - reflexivity.
  - intros _. repeat constructor.
  - reflexivity.
Defined.

Lemma RowSlice_of_RowStack_recovers_the_input_witness :
  exists s1 s2 t1 t2 out,
    RowStackNode.Validate true (mkMachine (stack [7; 7]) (stackStore mC)) = (Done tt, s1)
    /\ RowStackNode.EvaluateThisNode AllFrames s1 = (Done tt, s2)
    /\ RowSliceNode.Validate true
         (mkMachine (RowSliceNode.mk secondBase fromFirst 2 3) (heap s2)) = (Done tt, t1)
    /\ RowSliceNode.EvaluateThisNode AllFrames t1 = (Done tt, t2)
    /\ matrices (heap t2) !! secondLoc = Some out
    /\ numRows out = 3 /\ numCols out = 2
    /\ forall r j, r < 3 -> j < 2 -> at_ out r j = at_ mB r j.
Proof.
  apply (RowSlice_of_RowStack_recovers_the_input (E := Z) true base [inputA; inputB; inputC]
           [7; 7] (stackStore mC) [mA; mB; mC] mA 1%nat mB secondBase "node" gradientLoc
           noHint).
  - repeat constructor.
  - reflexivity.
  - repeat constructor.
  - repeat constructor; discriminate.
  - reflexivity.
  - reflexivity.
  - discriminate.
Defined.

Lemma Reshape_round_trip_witness :
  exists s1 s2 t1 t2 mid,
    ReshapeNode.Validate false false (mkMachine (reshape 4) (store m2x4)) = (Done tt, s1)
    /\ ReshapeNode.EvaluateThisNode false AllFrames s1 = (Done tt, s2)
    /\ matrices (heap s2) !! valuesLoc = Some mid
    /\ numRows mid = 4 /\ numRows mid * numCols mid = 2 * 4
    /\ pArray mid = pArray m2x4
    /\ ReshapeNode.Validate false false
         (mkMachine (ReshapeNode.mk secondBase fromFirst 2 noHint) (heap s2)) = (Done tt, t1)
    /\ ReshapeNode.EvaluateThisNode false AllFrames t1 = (Done tt, t2)
    /\ matrices (heap t2) !! secondLoc = Some m2x4.
Proof.
  apply (Reshape_round_trip (E := Z) false base secondBase input 4 (store m2x4) m2x4
           "node" gradientLoc noHint).
  - reflexivity.
  - reflexivity.
  - reflexivity.
  - reflexivity.
  - discriminate.
  - discriminate.
  - discriminate.
  - discriminate.
  - discriminate.
  - exists 2. reflexivity.
  - reflexivity.
Defined.

Lemma image_height_follows_the_rows_witness :
  (exists own,
      matrices (heap (snd (RowSliceNode.Validate false (mkMachine (slice 1 2) (store mB)))))
      !! m_functionValues
           (RowSliceNode.node
              (self (snd (RowSliceNode.Validate false (mkMachine (slice 1 2) (store mB))))))
      = Some own
      /\ numRows own = 2
      /\ height (m_outputImageLayout
                   (RowSliceNode.node
                      (self (snd (RowSliceNode.Validate false
                                    (mkMachine (slice 1 2) (store mB)))))))
         = numRows own)
  /\ (exists own,
         matrices (heap (snd (RowStackNode.Validate false
                                (mkMachine (stack []) (stackStore mC)))))
         !! m_functionValues
              (RowStackNode.node
                 (self (snd (RowStackNode.Validate false
                               (mkMachine (stack []) (stackStore mC))))))
         = Some own
         /\ height (m_outputImageLayout
                      (RowStackNode.node
                         (self (snd (RowStackNode.Validate false
                                       (mkMachine (stack []) (stackStore mC)))))))
            = numRows own)
  /\ height (m_outputImageLayout
               (RowRepeatNode.node
                  (self (snd (RowRepeatNode.Validate false
                                (mkMachine (RowRepeatNode.mk base imageInput 3)
                                   (store m2x3)))))))
     = mul64 (height (m_inputImageLayout
                        (RowRepeatNode.node
                           (self (snd (RowRepeatNode.Validate false
                                         (mkMachine (RowRepeatNode.mk base imageInput 3)
                                            (store m2x3))))))))
         3
  /\ height (m_inputImageLayout
               (RowRepeatNode.node
                  (self (snd (RowRepeatNode.Validate false
                                (mkMachine (RowRepeatNode.mk base imageInput 3)
                                   (store m2x3)))))))
     = 2.
Proof.
  pose proof (image_height_follows_the_rows (E := Z)) as (H1 & H2 & H3).
  split; [apply (H1 false (mkMachine (slice 1 2) (store mB))); vm_compute; reflexivity|].
  split; [apply (H2 false (mkMachine (stack []) (stackStore mC))); vm_compute; reflexivity|].
  split; [|vm_compute; reflexivity].
  apply (H3 false (mkMachine (RowRepeatNode.mk base imageInput 3) (store m2x3))).
  vm_compute. reflexivity.
Defined.


Lemma Stack_adds_into_the_target_witness :
  (exists out,
      ReshapingNodeBase.Stack AllFrames layoutInput 3 true
        (mkMachine (ReshapeNode.mk (layoutBase (Some layoutLoc)) layoutInput 6 noHint)
           (layoutStore m6x4))
      = (Done tt,
         mkMachine (ReshapeNode.mk (layoutBase (Some layoutLoc)) layoutInput 6 noHint)
           (mkStore (<[valuesLoc := out]> (matrices (layoutStore m6x4)))
                    (layouts (layoutStore m6x4)) (stderr (layoutStore m6x4))))
      /\ numRows out = 3 * 2 /\ numCols out = 2 * 2
      /\ forall d k s t, d < 2 -> k < 3 -> s < 2 -> t < 2 ->
           at_ out (k * 2 + d) (t * 2 + s)
           = if true
             then elem_add (at_ (mkMatrix (3 * 2) (2 * 2) (pArray m6x4))
                              (k * 2 + d) (t * 2 + s))
                           (at_ (mkMatrix 2 (2 * 3 * 2) (pArray sequences)) d
                              ((t * 3 + k) * 2 + s))
             else at_ (mkMatrix 2 (2 * 3 * 2) (pArray sequences)) d ((t * 3 + k) * 2 + s))
  /\ (exists out,
        ReshapingNodeBase.Stack AllFrames layoutInput 3 false
          (mkMachine (ReshapeNode.mk (layoutBase (Some layoutLoc)) layoutInput 6 noHint)
             (layoutStore m6x4))
        = (Done tt,
           mkMachine (ReshapeNode.mk (layoutBase (Some layoutLoc)) layoutInput 6 noHint)
             (mkStore (<[valuesLoc := out]> (matrices (layoutStore m6x4)))
                      (layouts (layoutStore m6x4)) (stderr (layoutStore m6x4))))
        /\ numRows out = 3 * 2 /\ numCols out = 2 * 2
        /\ forall d k s t, d < 2 -> k < 3 -> s < 2 -> t < 2 ->
             at_ out (k * 2 + d) (t * 2 + s)
             = if false
               then elem_add (at_ (mkMatrix (3 * 2) (2 * 2) (pArray m6x4))
                                (k * 2 + d) (t * 2 + s))
                             (at_ (mkMatrix 2 (2 * 3 * 2) (pArray sequences)) d
                                ((t * 3 + k) * 2 + s))
               else at_ (mkMatrix 2 (2 * 3 * 2) (pArray sequences)) d
                      ((t * 3 + k) * 2 + s))
  /\ matrices (heap (snd (ReshapingNodeBase.Stack AllFrames layoutInput 3 true
        (mkMachine (ReshapeNode.mk (layoutBase (Some layoutLoc)) layoutInput 6 noHint)
           (layoutStore m6x4))))) !! valuesLoc
     = Some (mkMatrix 6 4
               [1001; 2101; 3002; 4102; 5003; 6103;
                7011; 8111; 9012; 10112; 11013; 12113;
                13004; 14104; 15005; 16105; 17006; 18106;
                19014; 20114; 21015; 22115; 23016; 24116]%Z)
  /\ matrices (heap (snd (ReshapingNodeBase.Stack AllFrames layoutInput 3 false
        (mkMachine (ReshapeNode.mk (layoutBase (Some layoutLoc)) layoutInput 6 noHint)
           (layoutStore m6x4))))) !! valuesLoc
     = Some (mkMatrix 6 4
               [1; 101; 2; 102; 3; 103; 11; 111; 12; 112; 13; 113;
                4; 104; 5; 105; 6; 106; 14; 114; 15; 115; 16; 116]%Z).
Proof.
  split.
  { apply (Stack_adds_into_the_target (E := Z) true
             (ReshapeNode.mk (layoutBase (Some layoutLoc)) layoutInput 6 noHint) layoutInput
             (layoutStore m6x4) layoutLoc 2 3 2 2 (pArray sequences) (pArray m6x4));
      reflexivity. }
  split.
  { apply (Stack_adds_into_the_target (E := Z) false
             (ReshapeNode.mk (layoutBase (Some layoutLoc)) layoutInput 6 noHint) layoutInput
             (layoutStore m6x4) layoutLoc 2 3 2 2 (pArray sequences) (pArray m6x4));
      reflexivity. }
  split; vm_compute; reflexivity.
Defined.

Lemma RowRepeat_noop_witness :
  RowRepeatNode.EvaluateThisNode AllFrames (mkMachine (repeat 1) (store m2x3))
  = (Done tt, mkMachine (repeat 1) (store m2x3))
  /\ RowRepeatNode.FunctionValues_const (mkMachine (repeat 1) (store m2x3))
     = (Done inputLoc, mkMachine (repeat 1) (store m2x3))
  /\ RowRepeatNode.FunctionValues (mkMachine (repeat 1) (store m2x3))
     = (Done inputLoc, mkMachine (repeat 1) (store m2x3)).
Proof.
  apply (RowRepeat_noop (E := Z) AllFrames (mkMachine (repeat 1) (store m2x3))).
  reflexivity.
Defined.

Lemma Reshape_noop_witness :
  ReshapeNode.EvaluateThisNode false AllFrames (mkMachine (reshape 2) (store m2x3))
  = (Done tt, mkMachine (reshape 2) (store m2x3))
  /\ ReshapeNode.FunctionValues_const (mkMachine (reshape 2) (store m2x3))
     = (Done inputLoc, mkMachine (reshape 2) (store m2x3))
  /\ ReshapeNode.FunctionValues (mkMachine (reshape 2) (store m2x3))
     = (Done valuesLoc, mkMachine (reshape 2) (store m2x3)).
Proof.
  apply (Reshape_noop (E := Z) false AllFrames (mkMachine (reshape 2) (store m2x3)) m2x3);
    reflexivity.
Defined.

Lemma Validate_final_rejects_exact_reshape_witness :
  ReshapeNode.Validate false true (mkMachine (reshape 4) (store m2x4))
  = (Throw (LogicError "%ls %ls operation: unexpected dimension mismatch"),
     mkMachine (reshape 4) (store m2x4)).
Proof.
  apply (Validate_final_rejects_exact_reshape (E := Z) false (reshape 4) (store m2x4) m2x4).
  - reflexivity.
  - reflexivity.
  - discriminate.
  - discriminate.
  - left. exists 2. reflexivity.
  - reflexivity.
  - exists 2. reflexivity.
Defined.
